(** * Benchmark report generator: a shallow embedding and its properties

    The program under study is [scripts/generate_benchmark_report.py]: it
    loads the files [benchmark_*.json] of a results directory, computes
    frame-time statistics per record, prints a textual report and writes
    [benchmark_summary.json] back into the same directory.

    Modelling conventions.
    - JSON values are an inductive type; a JSON object (a Python [dict]) is a
      [gmap string json]. A JSON number is an [int] of any size or a binary64
      [float], [NaN] and the infinities included, as [json.load] reads them.
    - Floats are the [spec_float] of the standard library with precision 53
      and maximal exponent 1024; true division is its [SFdiv]. Numbers are
      compared by their exact values, as Python compares them.
    - Three things are left to the interpreter and the file system, and are
      fields of the class [Interpreter]: how [sum] accumulates floats (it
      differs between versions of CPython), how [sorted] arranges numbers
      that [NaN] keeps from being ordered, and what [glob] finds when the
      directory path itself holds pattern characters.
    - Python exceptions are values of [exn]; code that may raise lives in the
      error monad [res]; code that prints lives in [IO], which pairs the lines
      printed so far with the result.
    - A formatted string is a list of [piece]s: literal text and formatted
      holes, one per replacement field of the f-string.
    - A directory is the list of its entries in listing order; the content of
      a file is represented by what [open] followed by [json.load] yields on it. *)

From Stdlib Require Import Ascii String QArith Qcanon Qround.
From Stdlib Require Import Floats.SpecFloat.
From stdpp Require Import gmap strings list numbers sorting.

Set Warnings "-register-all".
Local Open Scope string_scope.
Local Open Scope list_scope.

(** ** Numbers *)

(** Binary64. *)
Definition prec : Z := 53.
Definition emax : Z := 1024.

(** [float(z)] for an integer of any size, rounded to nearest; an infinity
    when [z] is beyond the range. *)
Definition float_of_int (z : Z) : spec_float := binary_normalize prec emax z 0 false.

Definition float_add (x y : spec_float) : spec_float := SFadd prec emax x y.
Definition float_div (x y : spec_float) : spec_float := SFdiv prec emax x y.

Definition is_infinite (f : spec_float) : bool :=
  match f with S754_infinity _ => true | _ => false end.

Definition is_zero (f : spec_float) : bool :=
  match f with S754_zero _ => true | _ => false end.

(** An integer as a significand with exponent 0, without rounding. *)
Definition exact_int (z : Z) : spec_float :=
  match z with
  | Z0 => S754_zero false
  | Zpos p => S754_finite false p 0
  | Zneg p => S754_finite true p 0
  end.

(** The quotient of two integers rounded once, as [int / int] computes it. *)
Definition int_quotient (a b : Z) : spec_float := float_div (exact_int a) (exact_int b).

(** The float that a decimal literal [n/d] denotes. *)
Definition decimal (n : Z) (d : positive) : spec_float := int_quotient n (Zpos d).

(** A Python number: [bool] is a subclass of [int], so that [True] and
    [False] are numbers too, and stay booleans when copied. *)
Inductive number : Type :=
  | NBool (b : bool)
  | NInt (z : Z)
  | NFloat (f : spec_float).

Definition int_value (x : number) : option Z :=
  match x with
  | NBool b => Some (if b then 1 else 0)%Z
  | NInt z => Some z
  | NFloat _ => None
  end.

Definition qc (n : Z) (d : positive) : Qc := Q2Qc (n # d).
Definition qz (n : Z) : Qc := Qc_of_Z n.

(** The exact value of a number: a rational or an infinity; [NaN] has none. *)
Inductive ext : Type :=
  | MinusInf
  | Real (q : Qc)
  | PlusInf.

Definition float_value (f : spec_float) : option ext :=
  match f with
  | S754_nan => None
  | S754_infinity s => Some (if s then MinusInf else PlusInf)
  | S754_zero _ => Some (Real (qz 0))
  | S754_finite s m e =>
      Some (Real (Q2Qc (inject_Z (if s then Zneg m else Zpos m) * Qpower (2 # 1) e)))
  end.

Definition number_value (x : number) : option ext :=
  match x with
  | NBool b => Some (Real (qz (if b then 1 else 0)))
  | NInt z => Some (Real (qz z))
  | NFloat f => float_value f
  end.

Definition ext_lt (a b : ext) : bool :=
  match a, b with
  | MinusInf, MinusInf => false
  | MinusInf, _ => true
  | Real p, Real q => bool_decide (p < q)%Qc
  | Real _, PlusInf => true
  | _, _ => false
  end.

Definition ext_le (a b : ext) : bool := negb (ext_lt b a).

(** [x < y] and [x <= y] on numbers: integers and floats are compared by
    value, without conversion; every comparison with [NaN] is false. *)
Definition py_lt (x y : number) : bool :=
  match number_value x, number_value y with
  | Some a, Some b => ext_lt a b
  | _, _ => false
  end.

Definition py_le (x y : number) : bool :=
  match number_value x, number_value y with
  | Some a, Some b => ext_le a b
  | _, _ => false
  end.

(** ** JSON values, as [json.load] produces them *)

Inductive json : Type :=
  | JNull
  | JBool (b : bool)
  | JInt (z : Z)
  | JFloat (f : spec_float)
  | JStr (s : string)
  | JArr (l : list json)
  | JObj (m : gmap string json).

Definition jnat (n : nat) : json := JInt (Z.of_nat n).

(** The JSON scalars that are numbers, and back. *)
Definition as_number (v : json) : option number :=
  match v with
  | JBool b => Some (NBool b)
  | JInt z => Some (NInt z)
  | JFloat f => Some (NFloat f)
  | _ => None
  end.

Definition of_number (x : number) : json :=
  match x with
  | NBool b => JBool b
  | NInt z => JInt z
  | NFloat f => JFloat f
  end.

(** ** Exceptions and the error monad *)

Inductive exn : Type :=
  | TypeError
  | ValueError
  | AttributeError
  | IndexError
  | ZeroDivisionError
  | OverflowError
  | KeyError
  | SystemExit (code : nat)
  | OSError (msg : string)
  | JSONDecodeError (msg : string).

Inductive res (A : Type) : Type :=
  | Ok (a : A)
  | Raise (e : exn).
Arguments Ok {A} a.
Arguments Raise {A} e.

Global Instance res_ret : MRet res := λ A a, Ok a.
Global Instance res_bind : MBind res := λ A B f m,
  match m with Ok a => f a | Raise e => Raise e end.

(** ** The results directory *)

(** What [open(file)] followed by [json.load] gives on a file: the parsed
    document, or the exception raised on the way (unreadable file,
    malformed JSON). *)
Inductive content : Type :=
  | Unloadable (e : exn)
  | Loads (v : json).

(** A directory: its entries in listing order, and whether files can be
    created or overwritten in it. *)
Record directory : Type := mkDirectory {
  listing : list (string * content);
  writable : bool;
}.

(** ** What is left to the interpreter *)

Class Interpreter : Type := {
  (** [sum] of numbers that are not all integers: the float it accumulates,
      or the exception of a conversion. *)
  float_sum : list number → res number;
  (** [sorted] of numbers among which a [NaN] stands. *)
  sort_unordered : list number → list number;
  (** [glob.glob] of a pattern whose directory part has pattern characters
      of its own: the paths found in the file system, each with what
      loading it gives. *)
  glob_magic : gmap string directory → string → list (string * content);
}.

(** ** The Python built-ins the analysis uses *)

(** Truthiness, as tested by [not x] and [if x]. *)
Definition truthy (v : json) : bool :=
  match v with
  | JNull => false
  | JBool b => b
  | JInt z => negb (bool_decide (z = 0%Z))
  | JFloat f => negb (is_zero f)
  | JStr s => negb (bool_decide (s = ""))
  | JArr l => negb (bool_decide (l = []))
  | JObj m => negb (bool_decide (m = ∅))
  end.

(** [d.get(k, default)] on a dict. *)
Definition dict_get (m : gmap string json) (k : string) (d : json) : json :=
  default d (m !! k).

(** The bound method [v.get] of an arbitrary value: only a dict has one. *)
Definition py_get (v : json) : res (string → json → json) :=
  match v with
  | JObj m => Ok (dict_get m)
  | _ => Raise AttributeError
  end.

(** [d[k]] on a dict raises [KeyError] for an absent key. *)
Definition dict_item (m : gmap string json) (k : string) : res json :=
  match m !! k with
  | Some v => Ok v
  | None => Raise KeyError
  end.

(** [v[k] = x] for a string [k]: only a dict supports it. *)
Definition py_setitem (v : json) (k : string) (x : json) : res (gmap string json) :=
  match v with
  | JObj m => Ok (<[k := x]> m)
  | _ => Raise TypeError
  end.

(** The conversion of an operand to [float]: an integer beyond the range
    raises [OverflowError]. *)
Definition int_to_float (z : Z) : res spec_float :=
  let f := float_of_int z in
  if is_infinite f then Raise OverflowError else Ok f.

Definition to_float (x : number) : res spec_float :=
  match x with
  | NBool b => int_to_float (if b then 1 else 0)
  | NInt z => int_to_float z
  | NFloat f => Ok f
  end.

(** [y == 0]. *)
Definition is_zero_number (y : number) : bool :=
  match y with
  | NBool b => negb b
  | NInt z => bool_decide (z = 0%Z)
  | NFloat f => is_zero f
  end.

(** True division [x / y]: two integers give their quotient rounded once,
    [OverflowError] when it is beyond the range; otherwise both operands
    are converted and divided as floats, which never overflows into an
    exception. A zero divisor raises [ZeroDivisionError] (the converted
    divisor is zero exactly when the divisor is). *)
Definition truediv (x y : number) : res number :=
  match int_value x, int_value y with
  | Some a, Some b =>
      if is_zero_number y then Raise ZeroDivisionError else
      let q := int_quotient a b in
      if is_infinite q then Raise OverflowError else Ok (NFloat q)
  | _, _ =>
      fx ← to_float x;
      fy ← to_float y;
      if is_zero_number y then Raise ZeroDivisionError
      else Ok (NFloat (float_div fx fy))
  end.

(** The numbers that a list starts with. *)
Fixpoint leading_numbers (l : list json) : list number :=
  match l with
  | [] => []
  | v :: l' =>
      match as_number v with
      | Some x => x :: leading_numbers l'
      | None => []
      end
  end.

(** The sum of numbers, from the integer 0: exact as long as they are all
    integers. *)
Definition sum_numbers `{Interpreter} (ts : list number) : res number :=
  match mapM int_value ts with
  | Some zs => Ok (NInt (foldl Z.add 0%Z zs))
  | None => float_sum ts
  end.

(** [sum(v)]: it iterates [v] and adds each item to the sum so far, so that
    it raises [TypeError] at the first item that is no number (a non-empty
    string or dict iterates over strings, a number is not iterable), unless
    a conversion has raised before. The items are returned with the sum. *)
Definition py_sum `{Interpreter} (v : json) : res (list number * number) :=
  match v with
  | JArr l =>
      let ts := leading_numbers l in
      total ← sum_numbers ts;
      if bool_decide (length ts = length l) then Ok (ts, total) else Raise TypeError
  | _ => Raise TypeError
  end.

(** [min] keeps the first smallest item, [max] the first largest one; both
    raise [ValueError] on an empty sequence. *)
Definition py_min (ts : list number) : res number :=
  match ts with
  | [] => Raise ValueError
  | t :: ts' => Ok (foldl (λ m x, if py_lt x m then x else m) t ts')
  end.

Definition py_max (ts : list number) : res number :=
  match ts with
  | [] => Raise ValueError
  | t :: ts' => Ok (foldl (λ m x, if py_lt m x then x else m) t ts')
  end.

(** The stable ascending sort: each item goes before the first one that is
    not smaller. *)
Fixpoint insert_sorted (x : number) (l : list number) : list number :=
  match l with
  | [] => [x]
  | y :: l' => if py_lt y x then y :: insert_sorted x l' else x :: y :: l'
  end.

Definition stable_sort (l : list number) : list number := foldr insert_sorted [] l.

Definition ordered (x : number) : bool :=
  match number_value x with Some _ => true | None => false end.

(** [sorted]: stable, hence determined by the order of the items when none
    of them is [NaN]. *)
Definition sorted `{Interpreter} (ts : list number) : list number :=
  if forallb ordered ts then stable_sort ts else sort_unordered ts.

Definition len {A} (l : list A) : Z := Z.of_nat (length l).

(** [int(n * p)] for a list length [n] and the fraction [p] of a
    percentile: the product is truncated towards zero. *)
Definition py_int (x : Qc) : Z :=
  if bool_decide (qz 0 ≤ x)%Qc then Qfloor x else Qceiling x.

(** [l[i]] for an integer [i]: negative indices count from the end. *)
Definition py_index {A} (l : list A) (i : Z) : res A :=
  let n := Z.of_nat (length l) in
  let j := if bool_decide (i < 0)%Z then (n + i)%Z else i in
  if bool_decide (0 ≤ j < n)%Z
  then match l !! Z.to_nat j with Some x => Ok x | None => Raise IndexError end
  else Raise IndexError.

(** ** The analysis record *)

Record Analysis : Type := mkAnalysis {
  avg_frame_time_ms : number;
  min_frame_time_ms : number;
  max_frame_time_ms : number;
  p95_frame_time_ms : number;
  p99_frame_time_ms : number;
  avg_fps : number;
  min_fps : number;
  frame_count : nat;
  gpu_culling_time_ms : json;
  batch_processing_time_ms : json;
  lod_update_time_ms : json;
  streaming_time_ms : json;
  visible_instances : json;
  culled_instances : json;
  batch_count : json;
  memory_usage_mb : json;
}.

(** The float literal [1000.0]. *)
Definition thousand : number := NFloat (float_of_int 1000).

(** [BenchmarkAnalyzer.analyze_performance]. The empty dict [{}] it returns
    for a record without frame times is [None]; the dict with the sixteen
    fixed keys is [Some] of the record. *)
Definition analyze_performance `{Interpreter} (result : gmap string json)
    : res (option Analysis) :=
  let metrics := dict_get result "metrics" (JObj ∅) in
  get ← py_get metrics;
  let frame_times := get "frame_times" (JArr []) in
  if negb (truthy frame_times) then Ok None else
  '(ts, total) ← py_sum frame_times;
  avg_frame_time ← truediv total (NInt (len ts));
  min_frame_time ← py_min ts;
  max_frame_time ← py_max ts;
  let sorted_times := sorted ts in
  let p95_index := py_int (qz (len sorted_times) * qc 95 100)%Qc in
  let p99_index := py_int (qz (len sorted_times) * qc 99 100)%Qc in
  p95_frame_time ← py_index sorted_times p95_index;
  p99_frame_time ← py_index sorted_times p99_index;
  avg_fps ← (if py_lt (NInt 0) avg_frame_time
             then truediv thousand avg_frame_time else Ok (NInt 0));
  min_fps ← (if py_lt (NInt 0) max_frame_time
             then truediv thousand max_frame_time else Ok (NInt 0));
  let metric k := get k (JInt 0) in
  Ok (Some {|
    avg_frame_time_ms := avg_frame_time;
    min_frame_time_ms := min_frame_time;
    max_frame_time_ms := max_frame_time;
    p95_frame_time_ms := p95_frame_time;
    p99_frame_time_ms := p99_frame_time;
    avg_fps := avg_fps;
    min_fps := min_fps;
    frame_count := length ts;
    gpu_culling_time_ms := metric "gpu_culling_time_ms";
    batch_processing_time_ms := metric "batch_processing_time_ms";
    lod_update_time_ms := metric "lod_update_time_ms";
    streaming_time_ms := metric "streaming_time_ms";
    visible_instances := metric "visible_instances";
    culled_instances := metric "culled_instances";
    batch_count := metric "batch_count";
    memory_usage_mb := metric "memory_usage_mb";
  |}).

(** ** Standard output *)

(** One replacement field or literal chunk of an f-string. *)
Inductive piece : Type :=
  | Lit (s : string)
  | Str (v : json)
  | Count (n : nat)
  | Fixed (digits : nat) (x : number)
  | Grouped (x : number)
  | Exn (e : exn).

(** One call of [print]. *)
Definition line : Type := list piece.

(** [{v:.Nf}]: a number is rendered with [digits] decimals, an integer
    being converted to [float] first, which raises [OverflowError] beyond
    the range; [str] rejects the format code with [ValueError], the other
    types with [TypeError]. *)
Definition fmt_fixed (digits : nat) (v : json) : res piece :=
  match as_number v, v with
  | Some x, _ => _ ← to_float x; Ok (Fixed digits x)
  | None, JStr _ => Raise ValueError
  | None, _ => Raise TypeError
  end.

(** [{v:,}]: thousands separators; no conversion takes place. *)
Definition fmt_grouped (v : json) : res piece :=
  match as_number v, v with
  | Some x, _ => Ok (Grouped x)
  | None, JStr _ => Raise ValueError
  | None, _ => Raise TypeError
  end.

(** Printing code: the lines printed so far, and the result or the exception
    that stopped it. *)
Record IO (A : Type) : Type := mkIO {
  printed : list line;
  outcome : res A;
}.
Arguments mkIO {A} printed outcome.
Arguments printed {A} _.
Arguments outcome {A} _.

Global Instance IO_ret : MRet IO := λ A a, mkIO [] (Ok a).
Global Instance IO_bind : MBind IO := λ A B f m,
  match outcome m with
  | Ok a => let m' := f a in mkIO (printed m ++ printed m') (outcome m')
  | Raise e => mkIO (printed m) (Raise e)
  end.

Definition print (l : line) : IO unit := mkIO [l] (Ok ()).
Definition lift {A} (r : res A) : IO A := mkIO [] r.
Definition raise {A} (e : exn) : IO A := mkIO [] (Raise e).

(** [for x in l: body]. *)
Fixpoint for_each {A} (l : list A) (body : A → IO unit) : IO unit :=
  match l with
  | [] => mret ()
  | x :: l' => body x;; for_each l' body
  end.

(** ** Paths and patterns *)

(** [fnmatch] for patterns made of literal characters and [*]. *)
Fixpoint fnmatch (pat name : string) : bool :=
  match pat with
  | EmptyString => bool_decide (name = EmptyString)
  | String c pat' =>
      if bool_decide (c = "*"%char) then
        (fix star (s : string) : bool :=
           fnmatch pat' s ||
           match s with
           | EmptyString => false
           | String _ s' => star s'
           end) name
      else
        match name with
        | EmptyString => false
        | String d name' => bool_decide (c = d) && fnmatch pat' name'
        end
  end.

Fixpoint last_char (s : string) : option ascii :=
  match s with
  | EmptyString => None
  | String c s' => match s' with EmptyString => Some c | _ => last_char s' end
  end.

(** [os.path.join] of a directory and a relative name. *)
Definition path_join (a b : string) : string :=
  if bool_decide (a = "") then b
  else if bool_decide (last_char a = Some "/"%char) then a +:+ b
  else a +:+ "/" +:+ b.

(** [os.path.basename]: what follows the last slash. *)
Fixpoint basename (p : string) : string :=
  match p with
  | EmptyString => EmptyString
  | String c p' =>
      if bool_decide (c = "/"%char) then basename p'
      else if bool_decide ("/"%char ∈ String.list_ascii_of_string p') then basename p'
      else p
  end.

(** The path up to its last slash, the slash included. *)
Fixpoint upto_last_slash (p : string) : string :=
  match p with
  | EmptyString => EmptyString
  | String c p' =>
      if bool_decide ("/"%char ∈ String.list_ascii_of_string p)
      then String c (upto_last_slash p') else EmptyString
  end.

(** [p.rstrip('/')]. *)
Fixpoint rstrip_slash (p : string) : string :=
  match p with
  | EmptyString => EmptyString
  | String c p' =>
      let r := rstrip_slash p' in
      if bool_decide (c = "/"%char) && bool_decide (r = EmptyString)
      then EmptyString else String c r
  end.

(** [os.path.dirname]: the head of [os.path.split], whose trailing slashes
    are stripped unless it consists of slashes only. *)
Definition dirname (p : string) : string :=
  let head := upto_last_slash p in
  if bool_decide (rstrip_slash head = EmptyString) then head else rstrip_slash head.

(** [glob.has_magic]: the path holds one of the characters [*], [?], [[]. *)
Definition has_magic (p : string) : bool :=
  existsb (λ c, bool_decide (c = "*"%char) || bool_decide (c = "?"%char)
                || bool_decide (c = "["%char))
          (String.list_ascii_of_string p).

(** [glob.glob(pathname)] for a [pathname] whose last component is a
    pattern of literal characters and [*], [d] being the directory that the
    rest of the path denotes: when that rest is free of pattern characters,
    the entries of [d] whose name matches, in listing order, each under the
    path that joins the directory part and the name. *)
Definition glob `{Interpreter} (w : gmap string directory) (d : directory)
    (pathname : string) : list (string * content) :=
  if has_magic (dirname pathname) then glob_magic w pathname
  else (λ e, (path_join (dirname pathname) e.1, e.2)) <$>
       filter (λ e, fnmatch (basename pathname) e.1 = true) (listing d).

(** [open(path, 'w')] then [json.dump(v, f)]: the entry of that name now
    holds [v]; a new entry is listed last. *)
Definition write_json (name : string) (v : json) (d : directory) : directory :=
  let es := listing d in
  if bool_decide (name ∈ es.*1)
  then mkDirectory ((λ e, if bool_decide (e.1 = name) then (name, Loads v) else e) <$> es)
                   (writable d)
  else mkDirectory (es ++ [(name, Loads v)]) (writable d).

(** The entry of a given name, if any. *)
Fixpoint assoc (name : string) (es : list (string * content)) : option content :=
  match es with
  | [] => None
  | (n, c) :: es' => if bool_decide (n = name) then Some c else assoc name es'
  end.

Definition dir_lookup (name : string) (d : directory) : option content :=
  assoc name (listing d).

(** ** The analyzer object *)

Record BenchmarkAnalyzer : Type := mkBenchmarkAnalyzer {
  results_dir : string;
  results : list (gmap string json);
}.

(** The body of the [try] block of [load_results], for one file. *)
Definition load_file (file : string) (c : content) : res (gmap string json) :=
  data ← (match c with Unloadable e => Raise e | Loads v => Ok v end);
  py_setitem data "file" (JStr (basename file)).

(** [BenchmarkAnalyzer.load_results]: the loop over the globbed files. Every
    exception of the [try] block is caught and reported, so the operation
    itself never raises. *)
Fixpoint load_loop (files : list (string * content)) (rs : list (gmap string json))
    : IO (list (gmap string json)) :=
  match files with
  | [] => mret rs
  | (file, c) :: files' =>
      match load_file file c with
      | Ok data => load_loop files' (rs ++ [data])
      | Raise e =>
          print [Lit "Error loading "; Lit file; Lit ": "; Exn e];;
          load_loop files' rs
      end
  end.

Definition load_results `{Interpreter} (w : gmap string directory) (d : directory)
    (self : BenchmarkAnalyzer) : IO BenchmarkAnalyzer :=
  let pattern := path_join (results_dir self) "benchmark_*.json" in
  let files := glob w d pattern in
  rs ← load_loop files (results self);
  mret (mkBenchmarkAnalyzer (results_dir self) rs).

(** ** The report *)

(** A reading of [datetime.now()], by the two renderings the program takes
    of it. *)
Record datetime : Type := mkDatetime {
  strftime : string;
  isoformat : string;
}.

(** The [targets] dict of [generate_report]: ten fixed keys. *)
Record Targets : Type := mkTargets {
  target_fps : number;
  warning_fps : number;
  critical_fps : number;
  target_frame_time_ms : number;
  warning_frame_time_ms : number;
  critical_frame_time_ms : number;
  gpu_culling_budget_ms : number;
  batch_processing_budget_ms : number;
  lod_update_budget_ms : number;
  streaming_budget_ms : number;
}.

Definition targets : Targets := {|
  target_fps := NInt 60;
  warning_fps := NInt 30;
  critical_fps := NInt 15;
  target_frame_time_ms := NFloat (decimal 1667 100);
  warning_frame_time_ms := NFloat (decimal 3333 100);
  critical_frame_time_ms := NFloat (decimal 6667 100);
  gpu_culling_budget_ms := NFloat (decimal 25 100);
  batch_processing_budget_ms := NFloat (decimal 25 10);
  lod_update_budget_ms := NFloat (float_of_int 1);
  streaming_budget_ms := NFloat (decimal 15 10);
|}.

(** [v <= t] for a value copied from the metrics: ordering a non-number
    against a number raises [TypeError]. *)
Definition json_le (v : json) (t : number) : res bool :=
  match as_number v with
  | Some x => Ok (py_le x t)
  | None => Raise TypeError
  end.

(** The list [assessments] that [assess_performance] builds. *)
Definition assessments (analysis : Analysis) (targets : Targets) : res (list string) :=
  let avg_frame_time := avg_frame_time_ms analysis in
  let a1 :=
    if py_le avg_frame_time (target_frame_time_ms targets)
    then "✓ Frame time: EXCELLENT"
    else if py_le avg_frame_time (warning_frame_time_ms targets)
    then "⚠ Frame time: ACCEPTABLE"
    else "✗ Frame time: POOR" in
  let avg_fps := avg_fps analysis in
  let a2 :=
    if py_le (target_fps targets) avg_fps
    then "✓ FPS: EXCELLENT"
    else if py_le (warning_fps targets) avg_fps
    then "⚠ FPS: ACCEPTABLE"
    else "✗ FPS: POOR" in
  gpu_ok ← json_le (gpu_culling_time_ms analysis) (gpu_culling_budget_ms targets);
  let a3 := if gpu_ok : bool then "✓ GPU Culling: WITHIN BUDGET"
            else "✗ GPU Culling: OVER BUDGET" in
  batch_ok ← json_le (batch_processing_time_ms analysis) (batch_processing_budget_ms targets);
  let a4 := if batch_ok : bool then "✓ Batch Processing: WITHIN BUDGET"
            else "✗ Batch Processing: OVER BUDGET" in
  lod_ok ← json_le (lod_update_time_ms analysis) (lod_update_budget_ms targets);
  let a5 := if lod_ok : bool then "✓ LOD Updates: WITHIN BUDGET"
            else "✗ LOD Updates: OVER BUDGET" in
  streaming_ok ← json_le (streaming_time_ms analysis) (streaming_budget_ms targets);
  let a6 := if streaming_ok : bool then "✓ Streaming: WITHIN BUDGET"
            else "✗ Streaming: OVER BUDGET" in
  Ok [a1; a2; a3; a4; a5; a6].

(** [BenchmarkAnalyzer.assess_performance]: the outcomes are printed only
    once all six are computed. *)
Definition assess_performance (analysis : Analysis) (targets : Targets) : IO unit :=
  outcomes ← lift (assessments analysis targets);
  for_each outcomes (λ assessment, print [Lit "  "; Lit assessment]).

Definition rule : string := String.concat "" (replicate 60 "-").

(** The body of the loop of [generate_report], for one record. *)
Definition report_block `{Interpreter} (result : gmap string json) : IO unit :=
  let scene_name := dict_get result "scene" (JStr "unknown") in
  analysis ← lift (analyze_performance result);
  match analysis with
  | None => mret ()
  | Some analysis =>
      print [Lit "=== Scene: "; Str scene_name; Lit " ==="];;
      file ← lift (dict_item result "file");
      print [Lit "File: "; Str file];;
      print [Lit "Frames: "; Count (frame_count analysis)];;
      print [];;
      print [Lit "Frame Time Analysis:"];;
      avg ← lift (fmt_fixed 2 (of_number (avg_frame_time_ms analysis)));
      print [Lit "  Average: "; avg; Lit "ms"];;
      p95 ← lift (fmt_fixed 2 (of_number (p95_frame_time_ms analysis)));
      print [Lit "  P95: "; p95; Lit "ms"];;
      p99 ← lift (fmt_fixed 2 (of_number (p99_frame_time_ms analysis)));
      print [Lit "  P99: "; p99; Lit "ms"];;
      min ← lift (fmt_fixed 2 (of_number (min_frame_time_ms analysis)));
      print [Lit "  Min: "; min; Lit "ms"];;
      max ← lift (fmt_fixed 2 (of_number (max_frame_time_ms analysis)));
      print [Lit "  Max: "; max; Lit "ms"];;
      print [];;
      print [Lit "FPS Analysis:"];;
      fps ← lift (fmt_fixed 1 (of_number (avg_fps analysis)));
      print [Lit "  Average: "; fps; Lit " FPS"];;
      low ← lift (fmt_fixed 1 (of_number (min_fps analysis)));
      print [Lit "  Minimum: "; low; Lit " FPS"];;
      print [];;
      print [Lit "System Performance:"];;
      gpu ← lift (fmt_fixed 2 (gpu_culling_time_ms analysis));
      print [Lit "  GPU Culling: "; gpu; Lit "ms"];;
      batch ← lift (fmt_fixed 2 (batch_processing_time_ms analysis));
      print [Lit "  Batch Processing: "; batch; Lit "ms"];;
      lod ← lift (fmt_fixed 2 (lod_update_time_ms analysis));
      print [Lit "  LOD Updates: "; lod; Lit "ms"];;
      streaming ← lift (fmt_fixed 2 (streaming_time_ms analysis));
      print [Lit "  Streaming: "; streaming; Lit "ms"];;
      print [];;
      print [Lit "Resource Usage:"];;
      visible ← lift (fmt_grouped (visible_instances analysis));
      print [Lit "  Visible Instances: "; visible];;
      culled ← lift (fmt_grouped (culled_instances analysis));
      print [Lit "  Culled Instances: "; culled];;
      batches ← lift (fmt_grouped (batch_count analysis));
      print [Lit "  Batch Count: "; batches];;
      memory ← lift (fmt_fixed 1 (memory_usage_mb analysis));
      print [Lit "  Memory Usage: "; memory; Lit " MB"];;
      print [];;
      print [Lit "Performance Assessment:"];;
      assess_performance analysis targets;;
      print [];;
      print [Lit rule];;
      print []
  end.

(** [BenchmarkAnalyzer.generate_report]. *)
Definition generate_report `{Interpreter} (now : datetime) (self : BenchmarkAnalyzer)
    : IO unit :=
  if bool_decide (results self = []) then
    print [Lit "No benchmark results found"]
  else
    print [Lit "=== Amp Game Engine Benchmark Report ==="];;
    print [Lit "Generated: "; Lit (strftime now)];;
    print [Lit "Results Directory: "; Lit (results_dir self)];;
    print [Lit "Total Benchmarks: "; Count (length (results self))];;
    print [];;
    for_each (results self) report_block.

(** ** The summary *)

(** The analysis dict as [json.dump] writes it. *)
Definition analysis_json (a : Analysis) : json :=
  JObj (list_to_map [
    ("avg_frame_time_ms", of_number (avg_frame_time_ms a));
    ("min_frame_time_ms", of_number (min_frame_time_ms a));
    ("max_frame_time_ms", of_number (max_frame_time_ms a));
    ("p95_frame_time_ms", of_number (p95_frame_time_ms a));
    ("p99_frame_time_ms", of_number (p99_frame_time_ms a));
    ("avg_fps", of_number (avg_fps a));
    ("min_fps", of_number (min_fps a));
    ("frame_count", jnat (frame_count a));
    ("gpu_culling_time_ms", gpu_culling_time_ms a);
    ("batch_processing_time_ms", batch_processing_time_ms a);
    ("lod_update_time_ms", lod_update_time_ms a);
    ("streaming_time_ms", streaming_time_ms a);
    ("visible_instances", visible_instances a);
    ("culled_instances", culled_instances a);
    ("batch_count", batch_count a);
    ("memory_usage_mb", memory_usage_mb a)]).

(** The loop of [save_summary]: the list [summary['benchmarks']]. *)
Fixpoint summary_entries `{Interpreter} (rs : list (gmap string json)) : res (list json) :=
  match rs with
  | [] => Ok []
  | result :: rs' =>
      analysis ← analyze_performance result;
      match analysis with
      | Some a =>
          file ← dict_item result "file";
          let entry := JObj (list_to_map [
            ("scene", dict_get result "scene" (JStr "unknown"));
            ("file", file);
            ("analysis", analysis_json a)]) in
          entries ← summary_entries rs';
          Ok (entry :: entries)
      | None => summary_entries rs'
      end
  end.

(** The dict [summary] of [save_summary]. *)
Definition build_summary `{Interpreter} (now : datetime) (self : BenchmarkAnalyzer)
    : res (gmap string json) :=
  benchmarks ← summary_entries (results self);
  Ok (list_to_map [
    ("timestamp", JStr (isoformat now));
    ("results_dir", JStr (results_dir self));
    ("benchmark_count", jnat (length (results self)));
    ("benchmarks", JArr benchmarks)]).

Definition summary_name : string := "benchmark_summary.json".

(** [BenchmarkAnalyzer.save_summary]: returns the directory after the write.
    Nothing is written when it raises, be it in the analysis or in [open]. *)
Definition save_summary `{Interpreter} (now : datetime) (self : BenchmarkAnalyzer)
    (d : directory) : IO directory :=
  summary ← lift (build_summary now self);
  let summary_file := path_join (results_dir self) summary_name in
  if writable d then
    print [Lit "Summary saved to: "; Lit summary_file];;
    mret (write_json summary_name (JObj summary) d)
  else raise (OSError "Permission denied").

(** ** The program *)

(** [main]: [argv] is [sys.argv]; the world maps the paths that exist to
    directories. The result is the world after the run; it is the initial
    one whenever the run stops on an exception. *)
Definition main `{Interpreter} (argv : list string) (w : gmap string directory)
    (t_report t_save : datetime) : IO (gmap string directory) :=
  match argv with
  | [_; results_dir] =>
      match w !! results_dir with
      | None =>
          print [Lit "Results directory does not exist: "; Lit results_dir];;
          raise (SystemExit 1)
      | Some d =>
          let analyzer := mkBenchmarkAnalyzer results_dir [] in
          analyzer ← load_results w d analyzer;
          generate_report t_report analyzer;;
          d' ← save_summary t_save analyzer d;
          mret (<[results_dir := d']> w)
      end
  | _ =>
      print [Lit "Usage: python3 generate_benchmark_report.py <results_directory>"];;
      raise (SystemExit 1)
  end.

(** ** A reference interpreter *)

(** [x + y] on numbers: exact on integers, otherwise the float sum of the
    converted operands. *)
Definition py_add (x y : number) : res number :=
  match int_value x, int_value y with
  | Some a, Some b => Ok (NInt (a + b))
  | _, _ => fx ← to_float x; fy ← to_float y; Ok (NFloat (float_add fx fy))
  end.

(** The sum as CPython accumulated it up to version 3.11: one addition per
    item, from left to right. *)
Definition plain_sum (ts : list number) : res number :=
  foldl (λ acc x, a ← acc; py_add a x) (Ok (NInt 0)) ts.

(** Sum by plain additions, the stable sort whatever the items, and a file
    system in which a directory path with pattern characters matches
    nothing. *)
Definition reference : Interpreter := {|
  float_sum := plain_sum;
  sort_unordered := stable_sort;
  glob_magic := λ _ _, [];
|}.

(** What every interpreter obeys. *)
Class InterpreterLaws (py : Interpreter) : Prop := {
  (** Adding numbers raises nothing but the [OverflowError] of a
      conversion. *)
  float_sum_Raise ts e : float_sum ts = Raise e → e = OverflowError;
  (** Adding floats raises nothing at all, and gives a float. *)
  float_sum_floats ts :
    ts ≠ [] → Forall (λ x, ∃ f, x = NFloat f) ts → ∃ f, float_sum ts = Ok (NFloat f);
  (** Sorting rearranges. *)
  sort_unordered_Permutation ts : sort_unordered ts ≡ₚ ts;
  (** Rewriting a file that exists changes no path that a pattern finds,
      and no document but that of the file rewritten. *)
  glob_magic_rewrite w dir d name v pathname :
    w !! dir = Some d → name ∈ (listing d).*1 →
    Forall2 (λ e e', e'.1 = e.1 ∧
                     (e'.2 = e.2 ∨
                      (basename e.1 = name ∧ (name, e.2) ∈ listing d ∧ e'.2 = Loads v)))
            (glob_magic w pathname)
            (glob_magic (<[dir := write_json name v d]> w) pathname);
}.

(** * Vocabulary of the properties *)

(** The record holds a metrics dict [m] whose [frame_times] is the list of
    the numbers [ts]. *)
Definition frame_times_of (result m : gmap string json) (ts : list number) : Prop :=
  result !! "metrics" = Some (JObj m) ∧
  m !! "frame_times" = Some (JArr (of_number <$> ts)).

(** The index [floor(p × n)] for the percentile [p = k/100] of [n] samples. *)
Definition percentile_index (k : Z) (n : nat) : nat :=
  Z.to_nat (Qfloor ((k # 100) * inject_Z (Z.of_nat n))).

(** Numbers in ascending order, and numbers of equal value ([1], [1.0] and
    [True] are three of them). *)
Definition ascending (s : list number) : Prop := Sorted (λ x y, py_le x y = true) s.

Definition same_value (x y : number) : Prop := number_value x = number_value y.

Definition lower_bound (m : number) (ts : list number) : Prop :=
  ∀ x, x ∈ ts → py_le m x = true.
Definition upper_bound (m : number) (ts : list number) : Prop :=
  ∀ x, x ∈ ts → py_le x m = true.

(** No item is [NaN]. *)
Definition all_ordered (ts : list number) : Prop := Forall (λ x, ordered x = true) ts.

(** Every item is a float. *)
Definition all_floats (ts : list number) : Prop := Forall (λ x, ∃ f, x = NFloat f) ts.

(** The number converts to [float]: it is one, or an integer within the
    range. *)
Definition converts (x : number) : Prop := ∃ f, to_float x = Ok f.

(** The samples can be analysed: their sum and their mean are within the
    range of the floats, and so is the largest sample in case it is
    positive. *)
Definition analysable `{Interpreter} (ts : list number) : Prop :=
  ∃ total avg mx,
    sum_numbers ts = Ok total ∧ truediv total (NInt (len ts)) = Ok avg ∧
    py_max ts = Ok mx ∧ (py_lt (NInt 0) mx = true → converts mx).

(** [fps] is the rate [1000.0 / t] under the guard [t > 0]. *)
Definition fps_of (t fps : number) : Prop :=
  if py_lt (NInt 0) t then truediv thousand t = Ok fps else fps = NInt 0.

(** The analysis of the samples [ts] with metrics [m], field by field. *)
Definition analysis_of `{Interpreter} (m : gmap string json) (ts : list number)
    (a : Analysis) : Prop :=
  (∃ total, sum_numbers ts = Ok total ∧
            truediv total (NInt (len ts)) = Ok (avg_frame_time_ms a)) ∧
  py_min ts = Ok (min_frame_time_ms a) ∧
  py_max ts = Ok (max_frame_time_ms a) ∧
  sorted ts !! percentile_index 95 (length ts) = Some (p95_frame_time_ms a) ∧
  sorted ts !! percentile_index 99 (length ts) = Some (p99_frame_time_ms a) ∧
  fps_of (avg_frame_time_ms a) (avg_fps a) ∧
  fps_of (max_frame_time_ms a) (min_fps a) ∧
  frame_count a = length ts ∧
  gpu_culling_time_ms a = dict_get m "gpu_culling_time_ms" (JInt 0) ∧
  batch_processing_time_ms a = dict_get m "batch_processing_time_ms" (JInt 0) ∧
  lod_update_time_ms a = dict_get m "lod_update_time_ms" (JInt 0) ∧
  streaming_time_ms a = dict_get m "streaming_time_ms" (JInt 0) ∧
  visible_instances a = dict_get m "visible_instances" (JInt 0) ∧
  culled_instances a = dict_get m "culled_instances" (JInt 0) ∧
  batch_count a = dict_get m "batch_count" (JInt 0) ∧
  memory_usage_mb a = dict_get m "memory_usage_mb" (JInt 0).

(** The worked example: ten samples, 10 ms to 28 ms. *)
Definition sample_times : list number :=
  NInt <$> [10; 12; 14; 16; 18; 20; 22; 24; 26; 28]%Z.

Definition sample_metrics : gmap string json :=
  {[ "frame_times" := JArr (of_number <$> sample_times) ]}.

Definition sample_record : gmap string json :=
  {[ "scene" := JStr "city"; "metrics" := JObj sample_metrics ]}.

(** Its analysis: a mean of 19 ms, hence 1000/19 frames per second. *)
Definition sample_analysis : Analysis := {|
  avg_frame_time_ms := NFloat (float_of_int 19);
  min_frame_time_ms := NInt 10;
  max_frame_time_ms := NInt 28;
  p95_frame_time_ms := NInt 28;
  p99_frame_time_ms := NInt 28;
  avg_fps := NFloat (float_div (float_of_int 1000) (float_of_int 19));
  min_fps := NFloat (float_div (float_of_int 1000) (float_of_int 28));
  frame_count := 10;
  gpu_culling_time_ms := JInt 0;
  batch_processing_time_ms := JInt 0;
  lod_update_time_ms := JInt 0;
  streaming_time_ms := JInt 0;
  visible_instances := JInt 0;
  culled_instances := JInt 0;
  batch_count := JInt 0;
  memory_usage_mb := JInt 0;
|}.

(** Three samples whose mean is not a float: 16, 17 and 17 ms. *)
Definition thirds_record : gmap string json :=
  {[ "metrics" := JObj {[ "frame_times" := JArr [JInt 16; JInt 17; JInt 17] ]} ]}.

(** One sample beyond the range of the floats, and nothing else. *)
Definition huge_metrics : gmap string json :=
  {[ "frame_times" := JArr [JInt (10 ^ 400)] ]}.

Definition huge_record : gmap string json :=
  {[ "scene" := JStr "city"; "metrics" := JObj huge_metrics ]}.

(** Two samples, the second of which is [NaN]. *)
Definition nan_times : list number := [NFloat (float_of_int 1); NFloat S754_nan].

Definition nan_metrics : gmap string json :=
  {[ "frame_times" := JArr (of_number <$> nan_times) ]}.

Definition nan_record : gmap string json :=
  {[ "scene" := JStr "city"; "metrics" := JObj nan_metrics ]}.

(** A three-tier outcome: [excellent] under [P1], else [acceptable] under
    [P2], else [poor]. *)
Definition tiered (label excellent acceptable poor : string) (P1 P2 : Prop) : Prop :=
  (label = excellent ↔ P1) ∧
  (label = acceptable ↔ ¬ P1 ∧ P2) ∧
  (label = poor ↔ ¬ P1 ∧ ¬ P2).

(** A two-tier outcome: [within] exactly under [P], else [over]. *)
Definition budgeted (label within over : string) (P : Prop) : Prop :=
  (label = within ↔ P) ∧ (label = over ↔ ¬ P).

(** A sparse record: metrics with a few samples and nothing else. *)
Definition bare_metrics : gmap string json :=
  {[ "frame_times" := JArr [JFloat (float_of_int 10); JFloat (float_of_int 50)] ]}.

Definition bare_record : gmap string json :=
  {[ "metrics" := JObj bare_metrics; "file" := JStr "benchmark_bare.json" ]}.

(** A record whose samples are missing. *)
Definition empty_record : gmap string json :=
  {[ "scene" := JStr "void";
     "metrics" := JObj {[ "frame_times" := JArr [] ]};
     "file" := JStr "benchmark_void.json" ]}.

(** An analysis with every subsystem on the edge of its budget. *)
Definition edge_analysis : Analysis := {|
  avg_frame_time_ms := NFloat (float_of_int 20);
  min_frame_time_ms := NInt 10;
  max_frame_time_ms := NInt 30;
  p95_frame_time_ms := NInt 30;
  p99_frame_time_ms := NInt 30;
  avg_fps := NFloat (float_of_int 50);
  min_fps := NFloat (decimal 100 3);
  frame_count := 2;
  gpu_culling_time_ms := JFloat (decimal 25 100);
  batch_processing_time_ms := JInt 3;
  lod_update_time_ms := JInt 1;
  streaming_time_ms := JInt 2;
  visible_instances := JInt 1200;
  culled_instances := JInt 300;
  batch_count := JInt 12;
  memory_usage_mb := JInt 256;
|}.

(** The records that [load_results] appends for the globbed [files], and the
    error lines it prints for them. *)
Definition loaded (files : list (string * content)) : list (gmap string json) :=
  omap (λ fc, match load_file fc.1 fc.2 with Ok data => Some data | Raise _ => None end)
       files.

Definition load_errors (files : list (string * content)) : list line :=
  omap (λ fc, match load_file fc.1 fc.2 with
              | Ok _ => None
              | Raise e => Some [Lit "Error loading "; Lit fc.1; Lit ": "; Exn e]
              end)
       files.

(** The pattern that [load_results] hands to [glob]. *)
Definition pattern_of (dir : string) : string := path_join dir "benchmark_*.json".

(** The name of a directory entry: it has no slash. *)
Definition entry_name (name : string) : Prop :=
  "/"%char ∉ String.list_ascii_of_string name.

(** The record has an analysis to report. *)
Definition has_analysis `{Interpreter} (result : gmap string json) : bool :=
  match analyze_performance result with
  | Ok (Some _) => true
  | _ => false
  end.

(** A printed line that opens with the given literal text. *)
Definition starts_with (text : string) (l : line) : bool :=
  match l with
  | Lit s :: _ => bool_decide (s = text)
  | _ => false
  end.

Definition scene_lines (out : list line) : list line :=
  filter (λ l, starts_with "=== Scene: " l = true) out.

Definition file_lines (out : list line) : list line :=
  filter (λ l, starts_with "File: " l = true) out.

Definition error_lines (out : list line) : list line :=
  filter (λ l, starts_with "Error loading " l = true) out.

(** The scalar metrics that the report formats as numbers. *)
Definition scalar_keys : list string :=
  ["gpu_culling_time_ms"; "batch_processing_time_ms"; "lod_update_time_ms";
   "streaming_time_ms"; "visible_instances"; "culled_instances";
   "batch_count"; "memory_usage_mb"].



(** Two readings of the clock. *)
Definition noon : datetime := mkDatetime "2025-01-01 12:00:00" "2025-01-01T12:00:00".
Definition later : datetime := mkDatetime "2025-01-01 12:05:00" "2025-01-01T12:05:00".

(** A results directory holding one benchmark without samples. *)
Definition void_dir : directory :=
  mkDirectory [("benchmark_void.json",
                Loads (JObj {[ "scene" := JStr "void";
                               "metrics" := JObj {[ "frame_times" := JArr [] ]} ]}))]
              true.

(** An empty, writable results directory. *)
Definition empty_dir : directory := mkDirectory [] true.

(** A results directory holding the worked example and nothing else. *)
Definition city_dir : directory :=
  mkDirectory [("benchmark_city.json", Loads (JObj sample_record))] true.

(** The two lines that open the block of a record. *)
Definition scene_line (result : gmap string json) : line :=
  [Lit "=== Scene: "; Str (dict_get result "scene" (JStr "unknown")); Lit " ==="].



(** Whether a run returned normally, and the world it leaves behind (the
    initial one when it stopped on an exception). *)
Definition completed (run : IO (gmap string directory)) : bool :=
  match outcome run with Ok _ => true | Raise _ => false end.

Definition world_after (w : gmap string directory) (run : IO (gmap string directory))
    : gmap string directory :=
  match outcome run with Ok w' => w' | Raise _ => w end.

(** The summary document that a results directory holds, if any. *)
Definition summary_in (dir : string) (w : gmap string directory)
    : option (gmap string json) :=
  match w !! dir with
  | Some d =>
      match dir_lookup summary_name d with
      | Some (Loads (JObj s)) => Some s
      | _ => None
      end
  | None => None
  end.

(** Two runs in a row on a directory that holds one benchmark file. *)
Definition fresh_world : gmap string directory := {[ "results" := city_dir ]}.

Definition first_run `{Interpreter} : IO (gmap string directory) :=
  main ["report"; "results"] fresh_world noon noon.

Definition second_run `{Interpreter} : IO (gmap string directory) :=
  main ["report"; "results"] (world_after fresh_world first_run) later later.

(** ** Vocabulary of the further properties *)

(** A pattern chunk without wildcard. *)
Fixpoint literal (s : string) : bool :=
  match s with
  | EmptyString => true
  | String c s' => negb (bool_decide (c = "*"%char)) && literal s'
  end.

(** What one globbed file contributes to the collection, and to the output. *)
Definition record_of (fc : string * content) : option (gmap string json) :=
  match fc.2 with
  | Loads (JObj m) => Some (<["file" := JStr (basename fc.1)]> m)
  | _ => None
  end.

Definition error_of (fc : string * content) : option line :=
  match fc.2 with
  | Unloadable e => Some [Lit "Error loading "; Lit fc.1; Lit ": "; Exn e]
  | Loads (JObj _) => None
  | Loads _ => Some [Lit "Error loading "; Lit fc.1; Lit ": "; Exn TypeError]
  end.

(** A results directory with a document that is valid JSON but no object. *)
Definition odd_dir : directory :=
  mkDirectory [("benchmark_list.json", Loads (JArr [JInt 1]));
               ("benchmark_city.json", Loads (JObj sample_record));
               ("benchmark_gone.json", Unloadable (OSError "No such file or directory"))]
              true.

(** A record whose frame times are text. *)
Definition text_record : gmap string json :=
  {[ "metrics" := JObj {[ "frame_times" := JStr "fast" ]} ]}.

(** The exceptions that the data of a record can cause. *)
Definition data_error (e : exn) : Prop :=
  e = AttributeError ∨ e = TypeError ∨ e = ValueError ∨ e = OverflowError.

(** The scene recorded in an entry of the summary. *)
Definition entry_scene (entry : json) : json :=
  match entry with
  | JObj m => dict_get m "scene" JNull
  | _ => JNull
  end.

(** The directory holds a summary that the tool can have written: an entry
    named [benchmark_summary.json], every such entry being a JSON object
    without [metrics]. *)
Definition own_summary (d : directory) : Prop :=
  summary_name ∈ (listing d).*1 ∧
  ∀ c, (summary_name, c) ∈ listing d →
       ∃ s, c = Loads (JObj s) ∧ s !! "metrics" = None.

(** Two records that the report and the summary cannot tell apart: they are
    equal, or neither has an analysis. *)
Definition same_report `{Interpreter} (r r' : gmap string json) : Prop :=
  r = r' ∨ (analyze_performance r = Ok None ∧ analyze_performance r' = Ok None).

(** A record with samples whose culling time is text. *)
Definition texty_record : gmap string json :=
  {[ "scene" := JStr "harbour";
     "metrics" := JObj {[ "frame_times" := JArr [JFloat (float_of_int 10);
                                                 JFloat (float_of_int 50)];
                          "gpu_culling_time_ms" := JStr "n/a" ]};
     "file" := JStr "benchmark_harbour.json" ]}.

(** Its analysis: a mean of 30 ms, and the text copied through. *)
Definition texty_analysis : Analysis := {|
  avg_frame_time_ms := NFloat (float_of_int 30);
  min_frame_time_ms := NFloat (float_of_int 10);
  max_frame_time_ms := NFloat (float_of_int 50);
  p95_frame_time_ms := NFloat (float_of_int 50);
  p99_frame_time_ms := NFloat (float_of_int 50);
  avg_fps := NFloat (float_div (float_of_int 1000) (float_of_int 30));
  min_fps := NFloat (float_of_int 20);
  frame_count := 2;
  gpu_culling_time_ms := JStr "n/a";
  batch_processing_time_ms := JInt 0;
  lod_update_time_ms := JInt 0;
  streaming_time_ms := JInt 0;
  visible_instances := JInt 0;
  culled_instances := JInt 0;
  batch_count := JInt 0;
  memory_usage_mb := JInt 0;
|}.


(** ** Tactics *)

(** Projections of an analysis that is given field by field. *)
Ltac fields :=
  cbn [avg_frame_time_ms min_frame_time_ms max_frame_time_ms p95_frame_time_ms
       p99_frame_time_ms avg_fps min_fps frame_count gpu_culling_time_ms
       batch_processing_time_ms lod_update_time_ms streaming_time_ms
       visible_instances culled_instances batch_count memory_usage_mb] in *.

(** * Properties *)

(** ** The order of the numbers *)

Section order.

Lemma ext_lt_irrefl (a : ext) : ext_lt a a = false.
Proof.
  destruct a as [|q|]; cbn; [done| |done].
  apply bool_decide_eq_false_2. intros H. by apply Qclt_not_eq in H.
Qed.

Lemma ext_lt_trans (a b c : ext) :
  ext_lt a b = true → ext_lt b c = true → ext_lt a c = true.
Proof.
  destruct a as [|p|], b as [|q|], c as [|r|]; cbn; try done.
  intros H1%bool_decide_eq_true_1 H2%bool_decide_eq_true_1.
  apply bool_decide_eq_true_2. by eapply Qclt_trans.
Qed.

Lemma ext_le_refl (a : ext) : ext_le a a = true.
Proof. unfold ext_le. by rewrite ext_lt_irrefl. Qed.

Lemma ext_lt_le (a b : ext) : ext_lt a b = true → ext_le a b = true.
Proof.
  unfold ext_le. destruct a as [|p|], b as [|q|]; cbn; try done.
  intros H%bool_decide_eq_true_1. rewrite bool_decide_eq_false_2; [done|].
  intros H'. by apply (Qclt_not_le _ _ H), Qclt_le_weak.
Qed.

Lemma ext_le_trans (a b c : ext) :
  ext_le a b = true → ext_le b c = true → ext_le a c = true.
Proof.
  unfold ext_le. destruct a as [|p|], b as [|q|], c as [|r|]; cbn; try done.
  intros H1%negb_true_iff%bool_decide_eq_false_1
         H2%negb_true_iff%bool_decide_eq_false_1.
  apply negb_true_iff, bool_decide_eq_false_2.
  apply Qcnot_lt_le in H1, H2. apply Qcle_not_lt. by eapply Qcle_trans.
Qed.

Lemma ext_le_antisym (a b : ext) :
  ext_le a b = true → ext_le b a = true → a = b.
Proof.
  unfold ext_le. destruct a as [|p|], b as [|q|]; cbn; try done.
  intros H1%negb_true_iff%bool_decide_eq_false_1
         H2%negb_true_iff%bool_decide_eq_false_1.
  apply Qcnot_lt_le in H1, H2. f_equal. by apply Qcle_antisym.
Qed.

Lemma ext_le_total (a b : ext) : ext_le a b = true ∨ ext_le b a = true.
Proof.
  destruct (ext_lt a b) eqn:E; [left; by apply ext_lt_le|].
  right. unfold ext_le. by rewrite E.
Qed.

Lemma ext_le_lt_trans (a b c : ext) :
  ext_le a b = true → ext_lt b c = true → ext_lt a c = true.
Proof.
  unfold ext_le. destruct a as [|p|], b as [|q|], c as [|r|]; cbn; try done.
  intros H1%negb_true_iff%bool_decide_eq_false_1 H2%bool_decide_eq_true_1.
  apply Qcnot_lt_le in H1. apply bool_decide_eq_true_2. by eapply Qcle_lt_trans.
Qed.

(** A number that is no [NaN] has a value. *)
Lemma ordered_value (x : number) : ordered x = true → ∃ a, number_value x = Some a.
Proof. unfold ordered. destruct (number_value x) as [a|]; [by exists a | done]. Qed.

Lemma value_ordered (x : number) (a : ext) : number_value x = Some a → ordered x = true.
Proof. unfold ordered. by intros ->. Qed.

Lemma int_ordered (x : number) (z : Z) : int_value x = Some z → ordered x = true.
Proof. by destruct x as [[]| |]. Qed.

Lemma py_le_values (x y : number) :
  py_le x y = true ↔
  ∃ a b, number_value x = Some a ∧ number_value y = Some b ∧ ext_le a b = true.
Proof.
  unfold py_le. split.
  - destruct (number_value x) as [a|], (number_value y) as [b|]; try done.
    intros H. by exists a, b.
  - by intros (a & b & -> & -> & H).
Qed.

Lemma py_lt_values (x y : number) :
  py_lt x y = true ↔
  ∃ a b, number_value x = Some a ∧ number_value y = Some b ∧ ext_lt a b = true.
Proof.
  unfold py_lt. split.
  - destruct (number_value x) as [a|], (number_value y) as [b|]; try done.
    intros H. by exists a, b.
  - by intros (a & b & -> & -> & H).
Qed.

Lemma py_le_ordered (x y : number) :
  py_le x y = true → ordered x = true ∧ ordered y = true.
Proof.
  intros (a & b & Ha & Hb & _)%py_le_values. split; by eapply value_ordered.
Qed.

Lemma py_le_refl (x : number) : ordered x = true → py_le x x = true.
Proof.
  intros [a Ha]%ordered_value. apply py_le_values. exists a, a.
  split_and!; [done..|apply ext_le_refl].
Qed.

Lemma py_le_trans (x y z : number) :
  py_le x y = true → py_le y z = true → py_le x z = true.
Proof.
  intros (a & b & Ha & Hb & Hab)%py_le_values (b' & c & Hb' & Hc & Hbc)%py_le_values.
  rewrite Hb in Hb'. injection Hb' as <-.
  apply py_le_values. exists a, c. split_and!; [done..|]. by eapply ext_le_trans.
Qed.

Lemma py_le_antisym (x y : number) :
  py_le x y = true → py_le y x = true → same_value x y.
Proof.
  intros (a & b & Ha & Hb & Hab)%py_le_values (b' & a' & Hb' & Ha' & Hba)%py_le_values.
  unfold same_value. rewrite Ha, Hb. rewrite Ha in Ha'. rewrite Hb in Hb'.
  injection Ha' as <-. injection Hb' as <-. f_equal. by apply ext_le_antisym.
Qed.

Lemma py_lt_le (x y : number) : py_lt x y = true → py_le x y = true.
Proof.
  intros (a & b & Ha & Hb & Hab)%py_lt_values. apply py_le_values.
  exists a, b. split_and!; [done..|]. by apply ext_lt_le.
Qed.

(** Among numbers that are no [NaN], [x <= y] holds exactly when [y < x]
    does not. *)
Lemma py_not_lt_le (x y : number) :
  ordered x = true → ordered y = true → py_lt y x = false → py_le x y = true.
Proof.
  intros [a Ha]%ordered_value [b Hb]%ordered_value. unfold py_lt, py_le, ext_le.
  rewrite Ha, Hb. by intros ->.
Qed.

Lemma py_le_not_lt (x y : number) : py_le x y = true → py_lt y x = false.
Proof.
  intros (a & b & Ha & Hb & Hab)%py_le_values. unfold py_lt. rewrite Ha, Hb.
  unfold ext_le in Hab. by apply negb_true_iff in Hab.
Qed.

Lemma same_value_le (x y z : number) :
  same_value x y → py_le x z = py_le y z.
Proof. unfold same_value, py_le. by intros ->. Qed.

Lemma same_value_ge (x y z : number) :
  same_value x y → py_le z x = py_le z y.
Proof. unfold same_value, py_le. by intros ->. Qed.

#[global] Instance py_le_Transitive : Transitive (λ x y, py_le x y = true).
Proof. intros x y z. apply py_le_trans. Qed.

(** A positive number is no zero. *)
Lemma positive_not_zero (y : number) :
  py_lt (NInt 0) y = true → is_zero_number y = false.
Proof.
  intros (a & b & Ha & Hb & Hab)%py_lt_values. cbn in Ha. injection Ha as <-.
  destruct y as [[]|z|f]; cbn in *; try done.
  - injection Hb as <-. cbn in Hab. apply bool_decide_eq_true_1 in Hab.
    by apply Qclt_not_eq in Hab.
  - apply bool_decide_eq_false_2. intros ->. injection Hb as <-. cbn in Hab.
    apply bool_decide_eq_true_1 in Hab. by apply Qclt_not_eq in Hab.
  - destruct f; cbn in *; try done. injection Hb as <-. cbn in Hab.
    apply bool_decide_eq_true_1 in Hab. by apply Qclt_not_eq in Hab.
Qed.

End order.

(** ** Truncation and the percentile indices *)

Section indices.

Lemma qz_nonneg (z : Z) : (0 ≤ z)%Z → (qz 0 ≤ qz z)%Qc.
Proof. intros Hz. unfold qz. by apply (proj1 (Z2Qc_inj_le 0 z)). Qed.

Lemma qc_nonneg (k : Z) (d : positive) : (0 ≤ k)%Z → (qz 0 ≤ qc k d)%Qc.
Proof.
  intros Hk. unfold Qcle, qc, qz. cbn [this Q2Qc Qc_of_Z].
  rewrite Qred_correct. unfold Qle. cbn. lia.
Qed.

(** [int(n * k/100)] for a length [n] is the integer quotient of [n * k]
    by 100: the floor of the exact product. *)
Lemma py_int_scaled_len (n : nat) (k : Z) :
  (0 ≤ k)%Z →
  py_int (qz (Z.of_nat n) * qc k 100)%Qc = ((Z.of_nat n * k) `div` 100)%Z.
Proof.
  intros Hk. unfold py_int.
  rewrite bool_decide_eq_true_2.
  2:{ apply Qcmult_nonneg_nonneg; [apply qz_nonneg; lia | by apply qc_nonneg]. }
  unfold qz, qc, Qcmult. cbn [this Q2Qc Qc_of_Z].
  rewrite (Qfloor_comp _ (inject_Z (Z.of_nat n) * (k # 100))%Q).
  - unfold Qfloor, Qmult, inject_Z. cbn [Qnum Qden]. by rewrite Pos.mul_1_l.
  - rewrite Qred_correct. by rewrite Qred_correct.
Qed.

Lemma percentile_index_lt (n : nat) (k : Z) :
  (0 ≤ k < 100)%Z → n ≠ 0 →
  (0 ≤ (Z.of_nat n * k) `div` 100 < Z.of_nat n)%Z.
Proof.
  intros Hk Hn. split.
  - apply Z.div_pos; lia.
  - apply Z.div_lt_upper_bound; nia.
Qed.

Lemma percentile_index_mono (n : nat) (j k : Z) :
  (0 ≤ j ≤ k)%Z → ((Z.of_nat n * j) `div` 100 ≤ (Z.of_nat n * k) `div` 100)%Z.
Proof. intros Hjk. apply Z.div_le_mono; nia. Qed.

Lemma percentile_index_div (k : Z) (n : nat) :
  percentile_index k n = Z.to_nat ((Z.of_nat n * k) `div` 100).
Proof.
  unfold percentile_index, Qfloor, Qmult, inject_Z. cbn [Qnum Qden].
  by rewrite Pos.mul_1_r, Z.mul_comm.
Qed.

Lemma percentile_index_bound (k : Z) (n : nat) :
  (0 ≤ k < 100)%Z → n ≠ 0 → (percentile_index k n < n)%nat.
Proof.
  intros Hk Hn. rewrite percentile_index_div.
  pose proof (percentile_index_lt n k Hk Hn). lia.
Qed.

Lemma percentile_index_le (n : nat) :
  (percentile_index 95 n ≤ percentile_index 99 n)%nat.
Proof.
  rewrite !percentile_index_div.
  pose proof (percentile_index_mono n 95 99). lia.
Qed.

(** An index within bounds is an ordinary lookup. *)
Lemma py_index_lookup {A} (l : list A) (i : Z) :
  (0 ≤ i < Z.of_nat (length l))%Z →
  ∃ x, l !! Z.to_nat i = Some x ∧ py_index l i = Ok x.
Proof.
  intros Hi. unfold py_index.
  rewrite (bool_decide_eq_false_2 (i < 0)%Z) by lia.
  rewrite bool_decide_eq_true_2 by done.
  destruct (lookup_lt_is_Some_2 l (Z.to_nat i)) as [x Hx]; [lia|].
  exists x. by rewrite Hx.
Qed.

End indices.

(** ** Extrema *)

Section extrema.

Lemma foldl_min_elem (ts : list number) (t : number) :
  foldl (λ m x, if py_lt x m then x else m) t ts ∈ t :: ts.
Proof.
  revert t. induction ts as [|x ts IH]; intros t; cbn; [by left|].
  destruct (py_lt x t).
  - right. apply IH.
  - pose proof (IH t) as Hin. apply elem_of_cons in Hin as [Heq|Hin];
      [rewrite Heq; by left | by do 2 right].
Qed.

Lemma foldl_max_elem (ts : list number) (t : number) :
  foldl (λ m x, if py_lt m x then x else m) t ts ∈ t :: ts.
Proof.
  revert t. induction ts as [|x ts IH]; intros t; cbn; [by left|].
  destruct (py_lt t x).
  - right. apply IH.
  - pose proof (IH t) as Hin. apply elem_of_cons in Hin as [Heq|Hin];
      [rewrite Heq; by left | by do 2 right].
Qed.

Lemma foldl_min_spec (ts : list number) (t : number) :
  all_ordered (t :: ts) →
  lower_bound (foldl (λ m x, if py_lt x m then x else m) t ts) (t :: ts).
Proof.
  revert t. induction ts as [|x ts IH]; intros t Hord; cbn.
  - intros y Hy. apply list_elem_of_singleton in Hy as ->. apply py_le_refl.
    by apply Forall_cons_1 in Hord as [? _].
  - apply Forall_cons_1 in Hord as [Ht Hord].
    pose proof Hord as [Hx Hts]%Forall_cons_1.
    set (t' := if py_lt x t then x else t).
    assert (ordered t' = true ∧ py_le t' t = true ∧ py_le t' x = true)
      as (Ht' & Hlt & Hlx).
    { unfold t'. destruct (py_lt x t) eqn:E.
      - split_and!; [done | by apply py_lt_le | by apply py_le_refl].
      - split_and!; [done | by apply py_le_refl | by apply py_not_lt_le]. }
    assert (lower_bound (foldl (λ m x, if py_lt x m then x else m) t' ts) (t' :: ts))
      as Hlb.
    { apply IH. by constructor. }
    intros y [->|Hy]%elem_of_cons.
    { eapply py_le_trans; [|exact Hlt]. apply Hlb. by left. }
    apply elem_of_cons in Hy as [->|Hy].
    { eapply py_le_trans; [|exact Hlx]. apply Hlb. by left. }
    apply Hlb. by right.
Qed.

Lemma foldl_max_spec (ts : list number) (t : number) :
  all_ordered (t :: ts) →
  upper_bound (foldl (λ m x, if py_lt m x then x else m) t ts) (t :: ts).
Proof.
  revert t. induction ts as [|x ts IH]; intros t Hord; cbn.
  - intros y Hy. apply list_elem_of_singleton in Hy as ->. apply py_le_refl.
    by apply Forall_cons_1 in Hord as [? _].
  - apply Forall_cons_1 in Hord as [Ht Hord].
    pose proof Hord as [Hx Hts]%Forall_cons_1.
    set (t' := if py_lt t x then x else t).
    assert (ordered t' = true ∧ py_le t t' = true ∧ py_le x t' = true)
      as (Ht' & Hlt & Hlx).
    { unfold t'. destruct (py_lt t x) eqn:E.
      - split_and!; [done | by apply py_lt_le | by apply py_le_refl].
      - split_and!; [done | by apply py_le_refl | by apply py_not_lt_le]. }
    assert (upper_bound (foldl (λ m x, if py_lt m x then x else m) t' ts) (t' :: ts))
      as Hub.
    { apply IH. by constructor. }
    intros y [->|Hy]%elem_of_cons.
    { eapply py_le_trans; [exact Hlt|]. apply Hub. by left. }
    apply elem_of_cons in Hy as [->|Hy].
    { eapply py_le_trans; [exact Hlx|]. apply Hub. by left. }
    apply Hub. by right.
Qed.

Lemma py_min_Ok (ts : list number) : ts ≠ [] → ∃ m, py_min ts = Ok m.
Proof. destruct ts; [done|]. intros _. by eexists. Qed.

Lemma py_max_Ok (ts : list number) : ts ≠ [] → ∃ m, py_max ts = Ok m.
Proof. destruct ts; [done|]. intros _. by eexists. Qed.

Lemma py_min_elem (ts : list number) (m : number) : py_min ts = Ok m → m ∈ ts.
Proof.
  destruct ts as [|t ts]; [done|]. intros [= <-]. apply foldl_min_elem.
Qed.

Lemma py_max_elem (ts : list number) (m : number) : py_max ts = Ok m → m ∈ ts.
Proof.
  destruct ts as [|t ts]; [done|]. intros [= <-]. apply foldl_max_elem.
Qed.

Lemma py_min_lower_bound (ts : list number) (m : number) :
  all_ordered ts → py_min ts = Ok m → lower_bound m ts.
Proof.
  destruct ts as [|t ts]; [done|]. intros Hord [= <-]. by apply foldl_min_spec.
Qed.

Lemma py_max_upper_bound (ts : list number) (m : number) :
  all_ordered ts → py_max ts = Ok m → upper_bound m ts.
Proof.
  destruct ts as [|t ts]; [done|]. intros Hord [= <-]. by apply foldl_max_spec.
Qed.

End extrema.

(** ** Sorting *)

Section sorting.

Lemma insert_sorted_Permutation (x : number) (l : list number) :
  insert_sorted x l ≡ₚ x :: l.
Proof.
  induction l as [|y l IH]; cbn; [done|].
  destruct (py_lt y x); [|done]. by rewrite IH, Permutation_swap.
Qed.

Lemma stable_sort_Permutation (ts : list number) : stable_sort ts ≡ₚ ts.
Proof.
  induction ts as [|t ts IH]; cbn; [done|].
  by rewrite insert_sorted_Permutation, IH.
Qed.

Lemma insert_sorted_StronglySorted (x : number) (l : list number) :
  ordered x = true → all_ordered l →
  StronglySorted (λ x y, py_le x y = true) l →
  StronglySorted (λ x y, py_le x y = true) (insert_sorted x l).
Proof.
  intros Hx Hl Hs. induction Hs as [|y l Hs IH Hy]; cbn.
  - by repeat constructor.
  - apply Forall_cons_1 in Hl as [Hoy Hl]. destruct (py_lt y x) eqn:E.
    + constructor; [by apply IH|].
      rewrite insert_sorted_Permutation. constructor; [by apply py_lt_le | done].
    + assert (py_le x y = true) as Hxy by by apply py_not_lt_le.
      constructor; [by constructor|]. constructor; [done|].
      eapply Forall_impl; [exact Hy|]. intros z Hz. by eapply py_le_trans.
Qed.

Lemma stable_sort_StronglySorted (ts : list number) :
  all_ordered ts → StronglySorted (λ x y, py_le x y = true) (stable_sort ts).
Proof.
  induction 1 as [|t ts Ht Hts IH]; cbn; [constructor|].
  apply insert_sorted_StronglySorted; [done | | done].
  unfold all_ordered. by rewrite stable_sort_Permutation.
Qed.

Lemma ascending_StronglySorted (s : list number) :
  ascending s ↔ StronglySorted (λ x y, py_le x y = true) s.
Proof.
  split; [apply Sorted_StronglySorted; apply _ | apply StronglySorted_Sorted].
Qed.

Lemma all_ordered_forallb (ts : list number) :
  all_ordered ts ↔ forallb ordered ts = true.
Proof.
  unfold all_ordered. rewrite forallb_forall, Forall_forall.
  split; intros H x Hx; apply H; by apply list_elem_of_In.
Qed.

Lemma StronglySorted_lookup_le (s : list number) (i j : nat) (x y : number) :
  StronglySorted (λ x y, py_le x y = true) s → all_ordered s →
  (i ≤ j)%nat → s !! i = Some x → s !! j = Some y → py_le x y = true.
Proof.
  intros Hs. revert i j x y.
  induction Hs as [|a s Hs IH Ha]; intros i j x y Hord Hij Hi Hj.
  - by rewrite lookup_nil in Hi.
  - apply Forall_cons_1 in Hord as [Hoa Hord].
    destruct i as [|i], j as [|j]; simplify_eq/=; try lia.
    + by apply py_le_refl.
    + rewrite Forall_forall in Ha. apply Ha.
      eapply list_elem_of_lookup_2; eauto.
    + eapply IH; [done| |done..]. lia.
Qed.

(** Two ascending arrangements of the same numbers agree in value, item by
    item. *)
Lemma ascending_values_unique (s s' : list number) :
  all_ordered s → ascending s → ascending s' → s ≡ₚ s' →
  number_value <$> s = number_value <$> s'.
Proof.
  intros Hord Hs Hs' Hp.
  set (R := λ u v : option ext, ∃ a b, u = Some a ∧ v = Some b ∧ ext_le a b = true).
  assert (AntiSymm (=) R) as Hanti.
  { intros u v (a & b & -> & -> & Hab) (b' & a' & [= <-] & [= <-] & Hba).
    f_equal. by apply ext_le_antisym. }
  assert (∀ l, StronglySorted (λ x y, py_le x y = true) l →
               StronglySorted R (number_value <$> l)) as Hmap.
  { intros l Hl. induction Hl as [|x l Hl IH Hx]; cbn; constructor; [done|].
    apply Forall_fmap. eapply Forall_impl; [exact Hx|].
    intros y Hy. by apply py_le_values. }
  apply (StronglySorted_unique R).
  - by apply Hmap, ascending_StronglySorted.
  - by apply Hmap, ascending_StronglySorted.
  - by apply fmap_Permutation.
Qed.

Context {py : Interpreter} {laws : InterpreterLaws py}.

Lemma sorted_Permutation (ts : list number) : sorted ts ≡ₚ ts.
Proof.
  unfold sorted. destruct (forallb ordered ts).
  - apply stable_sort_Permutation.
  - apply sort_unordered_Permutation.
Qed.

Lemma sorted_length (ts : list number) : length (sorted ts) = length ts.
Proof. apply Permutation_length, sorted_Permutation. Qed.

Lemma sorted_ordered (ts : list number) :
  all_ordered ts → sorted ts = stable_sort ts.
Proof. intros H%all_ordered_forallb. unfold sorted. by rewrite H. Qed.

Lemma sorted_ascending (ts : list number) : all_ordered ts → ascending (sorted ts).
Proof.
  intros H. rewrite (sorted_ordered _ H).
  by apply ascending_StronglySorted, stable_sort_StronglySorted.
Qed.

Lemma sorted_lookup_elem (ts : list number) (i : nat) (x : number) :
  sorted ts !! i = Some x → x ∈ ts.
Proof.
  intros H. rewrite <-(sorted_Permutation ts). by eapply list_elem_of_lookup_2.
Qed.

Lemma percentile_lookup (ts : list number) (k : Z) :
  (0 ≤ k < 100)%Z → ts ≠ [] →
  ∃ x, sorted ts !! percentile_index k (length ts) = Some x ∧
       py_index (sorted ts) (py_int (qz (len (sorted ts)) * qc k 100)%Qc) = Ok x.
Proof.
  intros Hk Hne. unfold len. rewrite py_int_scaled_len by lia.
  rewrite percentile_index_div, sorted_length.
  apply py_index_lookup. rewrite sorted_length.
  apply percentile_index_lt; [done|]. by destruct ts.
Qed.

End sorting.

(** ** Arithmetic *)

Section arithmetic.

Lemma as_number_of_number (x : number) : as_number (of_number x) = Some x.
Proof. by destruct x. Qed.

Lemma of_number_as_number (v : json) (x : number) :
  as_number v = Some x → v = of_number x.
Proof. destruct v; cbn; intros [= <-]; done. Qed.

Lemma of_number_inj (x y : number) : of_number x = of_number y → x = y.
Proof. destruct x, y; cbn; by intros [= ->]. Qed.

Lemma leading_numbers_of_number (ts : list number) :
  leading_numbers (of_number <$> ts) = ts.
Proof.
  induction ts as [|t ts IH]; [done|]. cbn. by rewrite as_number_of_number, IH.
Qed.

Lemma leading_numbers_length (l : list json) :
  (length (leading_numbers l) ≤ length l)%nat.
Proof.
  induction l as [|v l IH]; cbn; [done|]. destruct (as_number v); cbn; lia.
Qed.

Lemma leading_numbers_full (l : list json) :
  length (leading_numbers l) = length l → l = of_number <$> leading_numbers l.
Proof.
  induction l as [|v l IH]; cbn; [done|].
  destruct (as_number v) as [x|] eqn:Ex; cbn; [|done].
  intros [= H]. by rewrite <-(IH H), <-(of_number_as_number _ _ Ex).
Qed.

(** True division gives a float. *)
Lemma truediv_Ok (x y v : number) : truediv x y = Ok v → ∃ f, v = NFloat f.
Proof.
  unfold truediv. destruct (int_value x), (int_value y);
    repeat (match goal with
            | |- context [if ?b then _ else _] => destruct b
            | |- context [to_float ?z] => destruct (to_float z); cbn [mbind res_bind]
            end; try done);
    intros [= <-]; by eexists.
Qed.

(** It raises [ZeroDivisionError] on a zero divisor only, and otherwise
    nothing but [OverflowError]. *)
Lemma int_to_float_Raise (z : Z) (e : exn) :
  int_to_float z = Raise e → e = OverflowError.
Proof. unfold int_to_float. destruct (is_infinite _); [by intros [= <-] | done]. Qed.

Lemma to_float_Raise (x : number) (e : exn) : to_float x = Raise e → e = OverflowError.
Proof. destruct x; cbn; [apply int_to_float_Raise..|done]. Qed.

Lemma truediv_Raise (x y : number) (e : exn) :
  truediv x y = Raise e →
  (e = ZeroDivisionError ∧ is_zero_number y = true) ∨ e = OverflowError.
Proof.
  unfold truediv. destruct (int_value x), (int_value y);
    repeat (match goal with
            | |- context [if ?b then _ else _] => destruct b eqn:?
            | |- context [to_float ?z] =>
                let E := fresh "E" in
                destruct (to_float z) eqn:E; cbn [mbind res_bind];
                [|apply to_float_Raise in E as ->]
            end; try done);
    intros [= <-]; auto.
Qed.

Lemma truediv_nonzero (x y : number) (e : exn) :
  is_zero_number y = false → truediv x y = Raise e → e = OverflowError.
Proof.
  intros Hy [[_ Hz]|He]%truediv_Raise; [congruence | done].
Qed.

(** A float divided by a number that converts and is no zero, and a number
    that converts divided by a float that is no zero: the quotient of the
    floats, and no exception. *)
Lemma truediv_float (f fy : spec_float) (y : number) :
  to_float y = Ok fy → is_zero_number y = false →
  truediv (NFloat f) y = Ok (NFloat (float_div f fy)).
Proof.
  intros Hy Hz. unfold truediv. cbn [int_value to_float mbind res_bind].
  by rewrite Hy, Hz.
Qed.

Lemma truediv_by_float (x : number) (fx f : spec_float) :
  to_float x = Ok fx → is_zero f = false →
  truediv x (NFloat f) = Ok (NFloat (float_div fx f)).
Proof.
  intros Hx Hz. unfold truediv. cbn [int_value is_zero_number].
  destruct (int_value x); rewrite Hx; cbn [to_float mbind res_bind]; by rewrite Hz.
Qed.

Lemma len_nonzero {A} (l : list A) : l ≠ [] → is_zero_number (NInt (len l)) = false.
Proof.
  intros Hl. cbn. apply bool_decide_eq_false_2. unfold len.
  destruct l; [done | cbn; lia].
Qed.

(** The rate of a positive frame time that converts is the quotient of
    the floats 1000.0 and that time. *)
Lemma fps_of_positive (t : number) (ft : spec_float) :
  py_lt (NInt 0) t = true → to_float t = Ok ft →
  truediv thousand t = Ok (NFloat (float_div (float_of_int 1000) ft)).
Proof.
  intros Hpos Ht. apply truediv_float; [done | by apply positive_not_zero].
Qed.

Lemma fps_of_fun (t fps fps' : number) : fps_of t fps → fps_of t fps' → fps = fps'.
Proof. unfold fps_of. destruct (py_lt _ t); [|congruence]. intros -> [= ->]. done. Qed.

Context {py : Interpreter} {laws : InterpreterLaws py}.

Lemma sum_numbers_Raise (ts : list number) (e : exn) :
  sum_numbers ts = Raise e → e = OverflowError.
Proof.
  unfold sum_numbers. destruct (mapM int_value ts); [done|]. apply float_sum_Raise.
Qed.

Lemma sum_numbers_floats (ts : list number) :
  ts ≠ [] → all_floats ts → ∃ f, sum_numbers ts = Ok (NFloat f).
Proof.
  intros Hne Hfl. unfold sum_numbers.
  destruct (mapM int_value ts) as [zs|] eqn:E; [|by apply float_sum_floats].
  destruct ts as [|t ts]; [done|]. apply Forall_cons_1 in Hfl as [[f ->] _].
  by cbn in E.
Qed.

Lemma py_sum_numbers (ts : list number) :
  py_sum (JArr (of_number <$> ts)) = (total ← sum_numbers ts; Ok (ts, total)).
Proof.
  unfold py_sum. rewrite leading_numbers_of_number, length_fmap.
  by rewrite bool_decide_eq_true_2.
Qed.

Lemma py_sum_Ok_inv (v : json) (ts : list number) (total : number) :
  py_sum v = Ok (ts, total) → v = JArr (of_number <$> ts) ∧ sum_numbers ts = Ok total.
Proof.
  unfold py_sum. destruct v as [| | | | |l|]; try done.
  destruct (sum_numbers (leading_numbers l)) as [t|] eqn:E; [|done].
  cbn [mbind res_bind]. case_bool_decide as Hl; [|done]. intros [= <- <-].
  by rewrite <-(leading_numbers_full l Hl).
Qed.

Lemma py_sum_Raise (v : json) (e : exn) :
  py_sum v = Raise e → e = TypeError ∨ e = OverflowError.
Proof.
  unfold py_sum. destruct v as [| | | | |l|]; try (intros [= <-]; by left).
  destruct (sum_numbers (leading_numbers l)) as [t|] eqn:E; cbn [mbind res_bind].
  - case_bool_decide; [done|]. intros [= <-]. by left.
  - intros [= <-]. right. by eapply sum_numbers_Raise.
Qed.

End arithmetic.

(** ** The analysis of a record *)

Section analysis.

Context {py : Interpreter} {laws : InterpreterLaws py}.

Lemma dict_get_Some (m : gmap string json) (k : string) (d v : json) :
  m !! k = Some v → dict_get m k d = v.
Proof. intros H. unfold dict_get. by rewrite H. Qed.

Lemma dict_get_None (m : gmap string json) (k : string) (d : json) :
  m !! k = None → dict_get m k d = d.
Proof. intros H. unfold dict_get. by rewrite H. Qed.

Lemma truthy_frame_times (result m : gmap string json) (ft : json) :
  dict_get result "metrics" (JObj ∅) = JObj m →
  dict_get m "frame_times" (JArr []) = ft →
  truthy ft = true →
  result !! "metrics" = Some (JObj m) ∧ m !! "frame_times" = Some ft.
Proof.
  unfold dict_get. intros Hm Hft Ht.
  destruct (m !! "frame_times") as [v|] eqn:Ev; cbn in Hft; subst; [|done].
  split; [|done].
  destruct (result !! "metrics") as [v'|] eqn:Er; cbn in Hm; [by subst|].
  by simplify_eq.
Qed.

Lemma frame_times_dict (result m : gmap string json) (ts : list number) :
  frame_times_of result m ts →
  dict_get result "metrics" (JObj ∅) = JObj m ∧
  dict_get m "frame_times" (JArr []) = JArr (of_number <$> ts).
Proof. intros [Hm Hft]. split; by apply dict_get_Some. Qed.

Lemma frame_times_truthy (ts : list number) :
  ts ≠ [] → truthy (JArr (of_number <$> ts)) = true.
Proof.
  intros Hne. cbn. apply negb_true_iff, bool_decide_eq_false_2.
  by destruct ts.
Qed.

Lemma percentile_index_inv (ts : list number) (k : Z) (x : number) :
  (0 ≤ k < 100)%Z → ts ≠ [] →
  py_index (sorted ts) (py_int (qz (len (sorted ts)) * qc k 100)%Qc) = Ok x →
  sorted ts !! percentile_index k (length ts) = Some x.
Proof.
  intros Hk Hne Hx. destruct (percentile_lookup ts k Hk Hne) as (x' & Hl & Hx').
  rewrite Hx in Hx'. by injection Hx' as <-.
Qed.

(** What an analysis that was returned says of the record. *)
Lemma analyze_performance_Some_inv (result : gmap string json) (a : Analysis) :
  analyze_performance result = Ok (Some a) →
  ∃ m ts, frame_times_of result m ts ∧ ts ≠ [] ∧ analysis_of m ts a.
Proof.
  unfold analyze_performance. intros H.
  destruct (dict_get result "metrics" (JObj ∅)) as [| | | | | |m] eqn:Em; try done.
  cbn [py_get mbind res_bind] in H.
  destruct (truthy (dict_get m "frame_times" (JArr []))) eqn:Et; [|done].
  cbn [negb] in H.
  destruct (py_sum (dict_get m "frame_times" (JArr []))) as [[ts total]|] eqn:Esum;
    [|done].
  cbn [mbind res_bind] in H.
  apply py_sum_Ok_inv in Esum as [Eft Esum].
  assert (ts ≠ []) as Hne.
  { intros ->. rewrite Eft in Et. by vm_compute in Et. }
  destruct (truthy_frame_times result m _ Em Eft) as [Hm Hft];
    [by apply frame_times_truthy|].
  destruct (truediv total (NInt (len ts))) as [avg|] eqn:Eavg; [|done].
  cbn [mbind res_bind] in H.
  destruct (py_min ts) as [mn|] eqn:Emin; [|done].
  destruct (py_max ts) as [mx|] eqn:Emax; [|done].
  cbn [mbind res_bind] in H.
  destruct (py_index (sorted ts) (py_int (qz (len (sorted ts)) * qc 95 100)%Qc))
    as [p95|] eqn:E95; [|done].
  destruct (py_index (sorted ts) (py_int (qz (len (sorted ts)) * qc 99 100)%Qc))
    as [p99|] eqn:E99; [|done].
  cbn [mbind res_bind] in H.
  apply percentile_index_inv in E95; [|lia|done].
  apply percentile_index_inv in E99; [|lia|done].
  destruct (if py_lt (NInt 0) avg then truediv thousand avg else Ok (NInt 0))
    as [fps|] eqn:Efps; [|done].
  destruct (if py_lt (NInt 0) mx then truediv thousand mx else Ok (NInt 0))
    as [low|] eqn:Elow; [|done].
  cbn [mbind res_bind] in H. injection H as <-.
  exists m, ts. split; [done|]. split; [done|].
  unfold analysis_of, fps_of. fields.
  split_and!; try done.
  - by exists total.
  - destruct (py_lt (NInt 0) avg); [done | by injection Efps as <-].
  - destruct (py_lt (NInt 0) mx); [done | by injection Elow as <-].
Qed.

(** When the analysis of a record with samples returns: the sum and the
    mean must not overflow, and the largest sample must convert. *)
Lemma analyze_performance_run (result m : gmap string json) (ts : list number) :
  frame_times_of result m ts → ts ≠ [] → analysable ts →
  ∃ a, analyze_performance result = Ok (Some a) ∧ analysis_of m ts a.
Proof.
  intros Hft Hne (total & avg & mx & Hsum & Havg & Hmax & Hmx).
  destruct (frame_times_dict _ _ _ Hft) as [Em Eft].
  destruct (py_min_Ok ts Hne) as [mn Hmin].
  destruct (percentile_lookup ts 95) as (p95 & H95 & H95'); [lia | done |].
  destruct (percentile_lookup ts 99) as (p99 & H99 & H99'); [lia | done |].
  destruct (truediv_Ok _ _ _ Havg) as [favg ->].
  assert (∃ fps, (if py_lt (NInt 0) (NFloat favg)
                  then truediv thousand (NFloat favg) else Ok (NInt 0)) = Ok fps)
    as [fps Hfps].
  { destruct (py_lt (NInt 0) (NFloat favg)) eqn:E; [|by eexists].
    eexists. by apply fps_of_positive. }
  assert (∃ low, (if py_lt (NInt 0) mx
                  then truediv thousand mx else Ok (NInt 0)) = Ok low)
    as [low Hlow].
  { destruct (py_lt (NInt 0) mx) eqn:E; [|by eexists].
    destruct (Hmx eq_refl) as [fmx Hfmx]. eexists. by apply fps_of_positive. }
  unfold analyze_performance. rewrite Em. cbn [py_get mbind res_bind].
  rewrite Eft, (frame_times_truthy ts Hne). cbn [negb].
  rewrite py_sum_numbers, Hsum. cbn [mbind res_bind].
  rewrite Havg, Hmin, Hmax. cbn [mbind res_bind].
  rewrite H95', H99'. cbn [mbind res_bind].
  rewrite Hfps, Hlow. cbn [mbind res_bind].
  eexists. split; [reflexivity|].
  unfold analysis_of, fps_of. fields.
  split_and!; try done.
  - by exists total.
  - destruct (py_lt (NInt 0) (NFloat favg)); [done | by injection Hfps as <-].
  - destruct (py_lt (NInt 0) mx); [done | by injection Hlow as <-].
Qed.

(** Float samples are always analysed, their number being one that
    converts. *)
Lemma analyze_performance_floats (result m : gmap string json) (ts : list number) :
  frame_times_of result m ts → ts ≠ [] → all_floats ts →
  converts (NInt (len ts)) →
  ∃ a, analyze_performance result = Ok (Some a) ∧ analysis_of m ts a.
Proof.
  intros Hft Hne Hfl [fn Hn].
  destruct (sum_numbers_floats ts Hne Hfl) as [f Hsum].
  destruct (py_max_Ok ts Hne) as [mx Hmax].
  apply analyze_performance_run; [done..|].
  exists (NFloat f), (NFloat (float_div f fn)), mx. split_and!; [done| |done|].
  - apply truediv_float; [done | by apply len_nonzero].
  - intros _. apply py_max_elem in Hmax. unfold all_floats in Hfl.
    rewrite Forall_forall in Hfl. destruct (Hfl _ Hmax) as [fx ->]. by exists fx.
Qed.

(** The analysis of a record with samples returns when the samples can be
    analysed, and stops on [OverflowError] when they cannot. *)
Lemma analyze_performance_overflow (result m : gmap string json) (ts : list number) :
  frame_times_of result m ts → ts ≠ [] → ¬ analysable ts →
  analyze_performance result = Raise OverflowError.
Proof.
  intros Hft Hne Hno.
  destruct (frame_times_dict _ _ _ Hft) as [Em Eft].
  destruct (py_min_Ok ts Hne) as [mn Hmin].
  destruct (py_max_Ok ts Hne) as [mx Hmax].
  destruct (percentile_lookup ts 95) as (p95 & _ & H95); [lia | done |].
  destruct (percentile_lookup ts 99) as (p99 & _ & H99); [lia | done |].
  unfold analyze_performance. rewrite Em. cbn [py_get mbind res_bind].
  rewrite Eft, (frame_times_truthy ts Hne). cbn [negb].
  rewrite py_sum_numbers.
  destruct (sum_numbers ts) as [total|e] eqn:Hsum; cbn [mbind res_bind].
  2:{ f_equal. by eapply sum_numbers_Raise. }
  destruct (truediv total (NInt (len ts))) as [avg|e] eqn:Havg; cbn [mbind res_bind].
  2:{ f_equal. eapply truediv_nonzero; [|exact Havg]. by apply len_nonzero. }
  rewrite Hmin, Hmax. cbn [mbind res_bind]. rewrite H95, H99. cbn [mbind res_bind].
  destruct (truediv_Ok _ _ _ Havg) as [favg ->].
  destruct (if py_lt (NInt 0) (NFloat favg)
            then truediv thousand (NFloat favg) else Ok (NInt 0)) as [fps|e] eqn:Efps.
  2:{ destruct (py_lt (NInt 0) (NFloat favg)) eqn:E; [|done].
      by rewrite (fps_of_positive _ favg E eq_refl) in Efps. }
  cbn [mbind res_bind].
  destruct (py_lt (NInt 0) mx) eqn:E.
  2:{ destruct Hno. exists total, (NFloat favg), mx.
      split_and!; [done..|]. intros ?. congruence. }
  destruct (truediv thousand mx) as [low|e] eqn:Elow; cbn [mbind res_bind].
  2:{ f_equal. eapply truediv_nonzero; [|exact Elow]. by apply positive_not_zero. }
  destruct Hno. exists total, (NFloat favg), mx. split_and!; [done..|]. intros _.
  unfold truediv in Elow. cbn [thousand int_value to_float mbind res_bind] in Elow.
  destruct (to_float mx) as [f|] eqn:Ef; [by exists f | done].
Qed.

Lemma analyze_performance_analysable (result m : gmap string json) (ts : list number)
    (a : Analysis) :
  analysis_of m ts a → analysable ts.
Proof.
  intros ((total & Hsum & Havg) & _ & Hmax & _ & _ & _ & Hlow & _).
  exists total, (avg_frame_time_ms a), (max_frame_time_ms a).
  split_and!; [done..|]. intros Hpos. unfold fps_of in Hlow. rewrite Hpos in Hlow.
  unfold truediv in Hlow. cbn [thousand int_value to_float mbind res_bind] in Hlow.
  destruct (to_float (max_frame_time_ms a)) as [f|] eqn:Ef; [by exists f | done].
Qed.

Lemma frame_times_of_fun (result m m' : gmap string json) (ts ts' : list number) :
  frame_times_of result m ts → frame_times_of result m' ts' → m = m' ∧ ts = ts'.
Proof.
  intros [Hm Hft] [Hm' Hft']. rewrite Hm in Hm'. injection Hm' as <-.
  split; [done|]. rewrite Hft in Hft'. injection Hft' as Heq.
  apply (f_equal leading_numbers) in Heq. by rewrite !leading_numbers_of_number in Heq.
Qed.

(** The analysis has nothing to report, or returns, or stops on metrics
    that are no dict ([AttributeError]), on frame times that are no list of
    numbers ([TypeError]) or on numbers beyond the range of the floats
    ([OverflowError]). *)
Lemma analyze_performance_cases (result : gmap string json) :
  analyze_performance result = Ok None ∨
  (∃ a, analyze_performance result = Ok (Some a)) ∨
  analyze_performance result = Raise AttributeError ∨
  analyze_performance result = Raise TypeError ∨
  analyze_performance result = Raise OverflowError.
Proof.
  remember (analyze_performance result) as r eqn:Hr.
  unfold analyze_performance in Hr.
  destruct (dict_get result "metrics" (JObj ∅)) as [| | | | | |m] eqn:Em;
    try (right; right; left; exact Hr).
  cbn [py_get mbind res_bind] in Hr.
  destruct (truthy (dict_get m "frame_times" (JArr []))) eqn:Et;
    cbn [negb] in Hr; [|by left].
  destruct (py_sum (dict_get m "frame_times" (JArr []))) as [[ts total]|e] eqn:Esum;
    cbn [mbind res_bind] in Hr.
  2:{ do 3 right. destruct (py_sum_Raise _ _ Esum) as [-> | ->]; auto. }
  apply py_sum_Ok_inv in Esum as [Eft Hsum].
  assert (ts ≠ []) as Hne.
  { intros ->. rewrite Eft in Et. by vm_compute in Et. }
  destruct (truediv total (NInt (len ts))) as [avg|e] eqn:Eavg;
    cbn [mbind res_bind] in Hr.
  2:{ do 4 right. rewrite Hr. f_equal.
      eapply truediv_nonzero; [|exact Eavg]. by apply len_nonzero. }
  destruct (py_min_Ok ts Hne) as [mn Hmin].
  destruct (py_max_Ok ts Hne) as [mx Hmax].
  destruct (percentile_lookup ts 95) as (p95 & _ & H95); [lia | done |].
  destruct (percentile_lookup ts 99) as (p99 & _ & H99); [lia | done |].
  rewrite Hmin, Hmax in Hr. cbn [mbind res_bind] in Hr.
  rewrite H95, H99 in Hr. cbn [mbind res_bind] in Hr.
  destruct (if py_lt (NInt 0) avg then truediv thousand avg else Ok (NInt 0))
    as [fps|e] eqn:Efps; cbn [mbind res_bind] in Hr.
  2:{ do 4 right. rewrite Hr. f_equal.
      destruct (py_lt (NInt 0) avg) eqn:E; [|done].
      eapply truediv_nonzero; [|exact Efps]. by apply positive_not_zero. }
  destruct (if py_lt (NInt 0) mx then truediv thousand mx else Ok (NInt 0))
    as [low|e] eqn:Elow; cbn [mbind res_bind] in Hr.
  2:{ do 4 right. rewrite Hr. f_equal.
      destruct (py_lt (NInt 0) mx) eqn:E; [|done].
      eapply truediv_nonzero; [|exact Elow]. by apply positive_not_zero. }
  right; left. by eexists.
Qed.

Lemma analyze_performance_not_zero_division (result : gmap string json) :
  analyze_performance result ≠ Raise ZeroDivisionError.
Proof.
  destruct (analyze_performance_cases result) as [H|[[a H]|[H|[H|H]]]];
    by rewrite H.
Qed.

End analysis.

(** ** Percentiles *)

Section percentiles.

Context {py : Interpreter} {laws : InterpreterLaws py}.

Lemma all_ordered_Permutation (s ts : list number) :
  s ≡ₚ ts → all_ordered ts → all_ordered s.
Proof. intros Hp. unfold all_ordered. by rewrite Hp. Qed.

(** Whatever ascending arrangement of the samples is taken, its items have
    the values of the items of [sorted]. *)
Lemma ascending_lookup (ts s : list number) (i : nat) (x : number) :
  all_ordered ts → ascending s → s ≡ₚ ts →
  sorted ts !! i = Some x →
  ∃ y, s !! i = Some y ∧ same_value y x.
Proof.
  intros Hord Hs Hp Hx.
  assert (number_value <$> s = number_value <$> sorted ts) as Heq.
  { apply ascending_values_unique; [by eapply all_ordered_Permutation | done | |].
    - by apply sorted_ascending.
    - by rewrite Hp, sorted_Permutation. }
  assert ((number_value <$> s) !! i = Some (number_value x)) as Hi.
  { rewrite Heq, list_lookup_fmap, Hx. done. }
  rewrite list_lookup_fmap in Hi.
  destruct (s !! i) as [y|]; [|done]. exists y. split; [done|].
  by injection Hi.
Qed.

(** C1. For a non-empty sequence of N frame times on which the analysis
    returns, [p95_frame_time_ms] is the item at index floor(0.95 × N) of the
    list that [sorted] makes of the samples, and [p99_frame_time_ms] the item
    at index floor(0.99 × N). That list is a rearrangement of the samples;
    when no sample is [NaN] it is ascending, and every ascending
    arrangement of the samples has items of the same values at these
    indices. For the ten samples 10, 12, ..., 28 both percentiles are 28. *)
Theorem percentiles_by_truncated_rank :
  (∀ (result : gmap string json) (a : Analysis),
     analyze_performance result = Ok (Some a) →
     ∃ m ts, frame_times_of result m ts ∧ ts ≠ [] ∧
       sorted ts ≡ₚ ts ∧
       sorted ts !! percentile_index 95 (length ts) = Some (p95_frame_time_ms a) ∧
       sorted ts !! percentile_index 99 (length ts) = Some (p99_frame_time_ms a) ∧
       (all_ordered ts →
        ascending (sorted ts) ∧
        ∀ s, ascending s → s ≡ₚ ts →
          ∃ x95 x99,
            s !! percentile_index 95 (length ts) = Some x95 ∧
            s !! percentile_index 99 (length ts) = Some x99 ∧
            same_value x95 (p95_frame_time_ms a) ∧
            same_value x99 (p99_frame_time_ms a))) ∧
  (∃ a, analyze_performance sample_record = Ok (Some a) ∧
        p95_frame_time_ms a = NInt 28 ∧ p99_frame_time_ms a = NInt 28).
Proof.
  split.
  - intros result a Ha.
    destruct (analyze_performance_Some_inv _ _ Ha) as (m & ts & Hft & Hne & Hspec).
    destruct Hspec as (_ & _ & _ & H95 & H99 & _).
    exists m, ts. split_and!; [done | done | apply sorted_Permutation | done | done |].
    intros Hord. split; [by apply sorted_ascending|].
    intros s Hs Hp.
    destruct (ascending_lookup ts s _ _ Hord Hs Hp H95) as (x95 & Hx95 & Hv95).
    destruct (ascending_lookup ts s _ _ Hord Hs Hp H99) as (x99 & Hx99 & Hv99).
    by exists x95, x99.
  - eexists. split; [vm_compute; reflexivity|]. split; reflexivity.
Qed.

(** The percentile indices are the integer quotients of 95 N and 99 N by
    100. *)
Lemma percentile_index_quotient (k n : nat) :
  percentile_index (Z.of_nat k) n = ((n * k) `div` 100)%nat.
Proof.
  rewrite percentile_index_div. rewrite <-Nat2Z.inj_mul.
  change 100%Z with (Z.of_nat 100). rewrite <-Nat2Z.inj_div. apply Nat2Z.id.
Qed.

(** X14. The minimum, the maximum and both percentiles of an analysis are
    frame times of the record itself: the percentiles are picked, never
    interpolated. *)
Theorem statistics_are_samples (result : gmap string json) (a : Analysis) :
  analyze_performance result = Ok (Some a) →
  ∃ m ts, frame_times_of result m ts ∧
          min_frame_time_ms a ∈ ts ∧ max_frame_time_ms a ∈ ts ∧
          p95_frame_time_ms a ∈ ts ∧ p99_frame_time_ms a ∈ ts ∧
          frame_count a = length ts.
Proof.
  intros Ha.
  destruct (analyze_performance_Some_inv _ _ Ha) as (m & ts & Hft & _ & Hspec).
  destruct Hspec as (_ & Hmin & Hmax & H95 & H99 & _ & _ & Hn & _).
  exists m, ts. split_and!; try done.
  - by apply py_min_elem.
  - by apply py_max_elem.
  - by eapply sorted_lookup_elem.
  - by eapply sorted_lookup_elem.
Qed.

End percentiles.

(** ** Frames per second *)

Section rates.

Context {py : Interpreter} {laws : InterpreterLaws py}.

Lemma fps_of_inv (t fps : number) :
  fps_of t fps →
  (py_lt (NInt 0) t = true →
   ∃ ft, to_float t = Ok ft ∧ fps = NFloat (float_div (float_of_int 1000) ft)) ∧
  (py_lt (NInt 0) t = false → fps = NInt 0).
Proof.
  unfold fps_of. destruct (py_lt (NInt 0) t) eqn:E; intros H.
  - split; [|done]. intros _. unfold truediv in H.
    cbn [thousand int_value to_float mbind res_bind] in H.
    destruct (to_float t) as [ft|] eqn:Ef; [|done]. cbn [mbind res_bind] in H.
    rewrite (positive_not_zero _ E) in H. exists ft. split; [done|]. by injection H.
  - by split.
Qed.

(** C4. In an analysis that is returned, the average frame time is the
    float that dividing the sum of the samples by their number gives;
    [avg_fps] is the float quotient of 1000.0 by that average when the
    average is greater than 0, and the integer 0 otherwise; [min_fps] is the
    float quotient of 1000.0 by the largest frame time when that is greater
    than 0, and 0 otherwise. The analysis of no record whatsoever stops on
    a division by zero. *)
Theorem fps_guarded_against_zero :
  (∀ (result : gmap string json) (a : Analysis),
     analyze_performance result = Ok (Some a) →
     ∃ m ts total avg,
       frame_times_of result m ts ∧ ts ≠ [] ∧
       sum_numbers ts = Ok total ∧
       truediv total (NInt (len ts)) = Ok (NFloat avg) ∧
       avg_frame_time_ms a = NFloat avg ∧
       py_max ts = Ok (max_frame_time_ms a) ∧
       (py_lt (NInt 0) (NFloat avg) = true →
          avg_fps a = NFloat (float_div (float_of_int 1000) avg)) ∧
       (py_lt (NInt 0) (NFloat avg) = false → avg_fps a = NInt 0) ∧
       (py_lt (NInt 0) (max_frame_time_ms a) = true →
          ∃ mx, to_float (max_frame_time_ms a) = Ok mx ∧
                min_fps a = NFloat (float_div (float_of_int 1000) mx)) ∧
       (py_lt (NInt 0) (max_frame_time_ms a) = false → min_fps a = NInt 0)) ∧
  (∀ result : gmap string json,
     analyze_performance result ≠ Raise ZeroDivisionError).
Proof.
  split; [|apply analyze_performance_not_zero_division].
  intros result a Ha.
  destruct (analyze_performance_Some_inv _ _ Ha) as (m & ts & Hft & Hne & Hspec).
  destruct Hspec as ((total & Hsum & Havg) & _ & Hmax & _ & _ & Hfps & Hlow & _).
  destruct (truediv_Ok _ _ _ Havg) as [avg Eavg]. rewrite Eavg in *.
  destruct (fps_of_inv _ _ Hfps) as [Hf1 Hf2].
  destruct (fps_of_inv _ _ Hlow) as [Hl1 Hl2].
  exists m, ts, total, avg. split_and!; try done.
  intros Hpos. destruct (Hf1 Hpos) as (ft & [= <-] & ->). done.
Qed.

End rates.

(** ** Extrema and the order of the statistics *)

Section extrema_of_samples.

Context {py : Interpreter} {laws : InterpreterLaws py}.

(** The head of an ascending arrangement has the value of the least
    sample, its last item the value of the greatest. *)
Lemma head_ascending_min (ts s : list number) (mn : number) :
  all_ordered ts → ascending s → s ≡ₚ ts → mn ∈ ts → lower_bound mn ts →
  ∃ first, head s = Some first ∧ same_value first mn.
Proof.
  intros Hord Hs%ascending_StronglySorted Hp Hin Hlb.
  destruct s as [|x s].
  { rewrite <-Hp in Hin. by apply elem_of_nil in Hin. }
  exists x. split; [done|].
  assert (x ∈ ts) as Hx by (rewrite <-Hp; by left).
  apply py_le_antisym; [|by apply Hlb].
  apply StronglySorted_cons in Hs as [Hxs _].
  rewrite <-Hp in Hin. apply elem_of_cons in Hin as [->|Hin].
  - apply py_le_refl. unfold all_ordered in Hord. rewrite Forall_forall in Hord.
    by apply Hord.
  - rewrite Forall_forall in Hxs. by apply Hxs.
Qed.

Lemma last_ascending_max (ts s : list number) (mx : number) :
  all_ordered ts → ascending s → s ≡ₚ ts → mx ∈ ts → upper_bound mx ts →
  ∃ final, last s = Some final ∧ same_value final mx.
Proof.
  intros Hord Hs%ascending_StronglySorted Hp Hin Hub.
  destruct s as [|x s _] using rev_ind.
  { rewrite <-Hp in Hin. by apply elem_of_nil in Hin. }
  exists x. split; [by rewrite last_snoc|].
  assert (x ∈ ts) as Hx.
  { rewrite <-Hp. apply elem_of_app. right. by left. }
  apply py_le_antisym; [by apply Hub|].
  apply StronglySorted_app in Hs as (Hle & _ & _).
  rewrite <-Hp in Hin. apply elem_of_app in Hin as [Hin|Hin].
  - apply Hle; [done | by left].
  - apply list_elem_of_singleton in Hin as ->. apply py_le_refl.
    unfold all_ordered in Hord. rewrite Forall_forall in Hord. by apply Hord.
Qed.

(** C6. For a record with a non-empty sequence of frame times none of
    which is [NaN], the analysis that is returned has a
    [min_frame_time_ms] of the value of the first item of every ascending
    arrangement of the samples, a [max_frame_time_ms] of the value of its
    last item, and min ≤ p95 ≤ p99 ≤ max. *)
Theorem frame_time_statistics_ordered
    (result m : gmap string json) (ts s : list number) (a : Analysis) :
  analyze_performance result = Ok (Some a) →
  frame_times_of result m ts → all_ordered ts →
  ascending s → s ≡ₚ ts →
  (∃ first final,
     head s = Some first ∧ same_value first (min_frame_time_ms a) ∧
     last s = Some final ∧ same_value final (max_frame_time_ms a)) ∧
  py_le (min_frame_time_ms a) (p95_frame_time_ms a) = true ∧
  py_le (p95_frame_time_ms a) (p99_frame_time_ms a) = true ∧
  py_le (p99_frame_time_ms a) (max_frame_time_ms a) = true.
Proof.
  intros Ha Hft Hord Hs Hp.
  destruct (analyze_performance_Some_inv _ _ Ha) as (m' & ts' & Hft' & Hne & Hspec).
  destruct (frame_times_of_fun _ _ _ _ _ Hft Hft') as [<- <-].
  destruct Hspec as (_ & Hmin & Hmax & H95 & H99 & _).
  pose proof (py_min_elem _ _ Hmin) as Hmin_in.
  pose proof (py_max_elem _ _ Hmax) as Hmax_in.
  pose proof (py_min_lower_bound _ _ Hord Hmin) as Hlb.
  pose proof (py_max_upper_bound _ _ Hord Hmax) as Hub.
  split_and!.
  - destruct (head_ascending_min ts s _ Hord Hs Hp Hmin_in Hlb) as (first & ? & ?).
    destruct (last_ascending_max ts s _ Hord Hs Hp Hmax_in Hub) as (final & ? & ?).
    by exists first, final.
  - apply Hlb. by eapply sorted_lookup_elem.
  - eapply StronglySorted_lookup_le; [| | |exact H95|exact H99].
    + by apply ascending_StronglySorted, sorted_ascending.
    + eapply all_ordered_Permutation; [apply sorted_Permutation | done].
    + apply percentile_index_le.
  - apply Hub. by eapply sorted_lookup_elem.
Qed.

(** With at most 100 samples the 99th percentile index is the last one. *)
Lemma percentile_index_last (k : Z) (n : nat) (bound : nat) :
  (0 ≤ k < 100)%Z → (Z.of_nat bound * (100 - k) ≤ 100)%Z →
  n ≠ 0 → (n ≤ bound)%nat → percentile_index k n = n - 1.
Proof.
  intros Hk Hb Hn Hle. rewrite percentile_index_div.
  assert ((Z.of_nat n * k) `div` 100 = Z.of_nat n - 1)%Z as ->; [|lia].
  symmetry. apply (Z.div_unique _ _ _ (Z.of_nat n * k - 100 * (Z.of_nat n - 1))); nia.
Qed.

(** X8. With at most 100 samples, none of them [NaN], the 99th percentile
    of an analysis has the value of its maximum, and with at most 20
    samples so has the 95th. *)
Theorem small_sample_percentiles
    (result m : gmap string json) (ts : list number) (a : Analysis) :
  analyze_performance result = Ok (Some a) →
  frame_times_of result m ts → all_ordered ts →
  ((length ts ≤ 100)%nat → same_value (p99_frame_time_ms a) (max_frame_time_ms a)) ∧
  ((length ts ≤ 20)%nat → same_value (p95_frame_time_ms a) (max_frame_time_ms a)).
Proof.
  intros Ha Hft Hord.
  destruct (analyze_performance_Some_inv _ _ Ha) as (m' & ts' & Hft' & Hne & Hspec).
  destruct (frame_times_of_fun _ _ _ _ _ Hft Hft') as [<- <-].
  destruct Hspec as (_ & _ & Hmax & H95 & H99 & _).
  pose proof (py_max_elem _ _ Hmax) as Hmax_in.
  pose proof (py_max_upper_bound _ _ Hord Hmax) as Hub.
  assert (length ts ≠ 0) as Hn by (by destruct ts).
  destruct (last_ascending_max ts (sorted ts) (max_frame_time_ms a) Hord)
    as (final & Hlast & Hval);
    [by apply sorted_ascending | apply sorted_Permutation | done | done |].
  rewrite last_lookup, sorted_length in Hlast.
  replace (pred (length ts)) with (length ts - 1) in Hlast by lia.
  split; intros Hlen.
  - rewrite (percentile_index_last 99 _ 100) in H99 by lia.
    rewrite Hlast in H99. by injection H99 as <-.
  - rewrite (percentile_index_last 95 _ 20) in H95 by lia.
    rewrite Hlast in H95. by injection H95 as <-.
Qed.

End extrema_of_samples.

(** ** Metrics that are absent *)

Section defaults.

Context {py : Interpreter} {laws : InterpreterLaws py}.

(** C9. For a record with non-empty frame times, each subsystem timing and
    each count whose key is absent from the metrics is 0 in the analysis
    that is returned. The absence of a key raises nothing: whether the
    analysis returns depends on the frame times alone, it stops on no other
    exception than [OverflowError], and it returns whenever the samples
    are floats of a number that converts to one. *)
Theorem absent_metrics_are_zero (result m : gmap string json) (ts : list number) :
  frame_times_of result m ts → ts ≠ [] →
  (∀ a, analyze_performance result = Ok (Some a) →
     (m !! "gpu_culling_time_ms" = None → gpu_culling_time_ms a = JInt 0) ∧
     (m !! "batch_processing_time_ms" = None → batch_processing_time_ms a = JInt 0) ∧
     (m !! "lod_update_time_ms" = None → lod_update_time_ms a = JInt 0) ∧
     (m !! "streaming_time_ms" = None → streaming_time_ms a = JInt 0) ∧
     (m !! "visible_instances" = None → visible_instances a = JInt 0) ∧
     (m !! "culled_instances" = None → culled_instances a = JInt 0) ∧
     (m !! "batch_count" = None → batch_count a = JInt 0) ∧
     (m !! "memory_usage_mb" = None → memory_usage_mb a = JInt 0)) ∧
  (∀ e, analyze_performance result = Raise e →
     e = OverflowError ∧
     ∀ result' m', frame_times_of result' m' ts →
                   analyze_performance result' = Raise OverflowError) ∧
  (all_floats ts → converts (NInt (len ts)) →
   ∃ a, analyze_performance result = Ok (Some a)).
Proof.
  intros Hft Hne. split_and!.
  - intros a Ha.
    destruct (analyze_performance_Some_inv _ _ Ha) as (m' & ts' & Hft' & _ & Hspec).
    destruct (frame_times_of_fun _ _ _ _ _ Hft Hft') as [<- <-].
    destruct Hspec as (_ & _ & _ & _ & _ & _ & _ & _ &
                       H1 & H2 & H3 & H4 & H5 & H6 & H7 & H8).
    rewrite H1, H2, H3, H4, H5, H6, H7, H8.
    split_and!; intros Hk; by rewrite (dict_get_None _ _ _ Hk).
  - intros e He.
    assert (¬ analysable ts) as Hno.
    { intros Hyes. destruct (analyze_performance_run _ _ _ Hft Hne Hyes) as (a & Ha & _).
      by rewrite Ha in He. }
    rewrite (analyze_performance_overflow _ _ _ Hft Hne Hno) in He.
    injection He as <-. split; [done|].
    intros result' m' Hft'. by eapply analyze_performance_overflow.
  - intros Hfl Hn.
    destruct (analyze_performance_floats _ _ _ Hft Hne Hfl Hn) as (a & Ha & _).
    by exists a.
Qed.

End defaults.

(** ** Every outcome of the analysis *)

Section outcomes.

Context {py : Interpreter} {laws : InterpreterLaws py}.

Lemma leading_numbers_stop (l : list json) (v : json) :
  v ∈ l → as_number v = None → length (leading_numbers l) ≠ length l.
Proof.
  intros Hin Hv. induction l as [|u l IH]; [by apply elem_of_nil in Hin|].
  cbn. destruct (as_number u) as [x|] eqn:Eu; cbn; [|lia].
  apply elem_of_cons in Hin as [->|Hin]; [congruence|].
  pose proof (IH Hin). lia.
Qed.

(** X4. What the analysis returns is decided by the shape of the record
    and the range of its samples: metrics that are no object raise
    [AttributeError]; frame times that are absent or falsy give the empty
    analysis; frame times that are truthy but no list raise [TypeError]; a
    list with an item that is no number raises [TypeError], unless the
    numbers before that item have raised [OverflowError]; a non-empty list
    of numbers gives an analysis whose [frame_count] is its length when the
    samples can be analysed, and raises [OverflowError] when they cannot. *)
Theorem analyze_performance_outcomes (result : gmap string json) :
  let metrics := dict_get result "metrics" (JObj ∅) in
  ((∀ m, metrics ≠ JObj m) → analyze_performance result = Raise AttributeError) ∧
  (∀ m, metrics = JObj m →
     let frame_times := dict_get m "frame_times" (JArr []) in
     (truthy frame_times = false → analyze_performance result = Ok None) ∧
     (truthy frame_times = true → (∀ l, frame_times ≠ JArr l) →
      analyze_performance result = Raise TypeError) ∧
     (∀ l v, frame_times = JArr l → v ∈ l → as_number v = None →
        analyze_performance result = Raise TypeError ∨
        analyze_performance result = Raise OverflowError) ∧
     (∀ ts, frame_times = JArr (of_number <$> ts) → ts ≠ [] →
        (analysable ts →
         ∃ a, analyze_performance result = Ok (Some a) ∧ frame_count a = length ts) ∧
        (¬ analysable ts → analyze_performance result = Raise OverflowError))).
Proof.
  cbn zeta. split.
  { intros Hno. unfold analyze_performance.
    destruct (dict_get result "metrics" (JObj ∅)) as [| | | | | |m] eqn:Em; try done.
    by destruct (Hno m). }
  intros m Em. split_and!.
  - intros Ht. unfold analyze_performance. rewrite Em. cbn [py_get mbind res_bind].
    by rewrite Ht.
  - intros Ht Hno. unfold analyze_performance. rewrite Em.
    cbn [py_get mbind res_bind]. rewrite Ht. cbn [negb].
    destruct (dict_get m "frame_times" (JArr [])) as [| | | | |l|] eqn:Eft; try done.
    by destruct (Hno l).
  - intros l v Eft Hin Hv. unfold analyze_performance. rewrite Em.
    cbn [py_get mbind res_bind]. rewrite Eft.
    assert (truthy (JArr l) = true) as ->.
    { cbn. apply negb_true_iff, bool_decide_eq_false_2. intros ->.
      by apply elem_of_nil in Hin. }
    cbn [negb py_sum].
    destruct (sum_numbers (leading_numbers l)) as [total|e] eqn:Hsum;
      cbn [mbind res_bind].
    + left. by rewrite bool_decide_eq_false_2 by by eapply leading_numbers_stop.
    + right. f_equal. by eapply sum_numbers_Raise.
  - intros ts Eft Hne.
    assert (truthy (JArr (of_number <$> ts)) = true) as Ht
      by by apply frame_times_truthy.
    rewrite <-Eft in Ht.
    destruct (truthy_frame_times result m _ Em Eft) as [Hm Hft];
      [by apply frame_times_truthy|].
    assert (frame_times_of result m ts) as Hfto by done.
    split.
    + intros Hyes. destruct (analyze_performance_run _ _ _ Hfto Hne Hyes)
        as (a & Ha & Hspec).
      exists a. split; [done|].
      by destruct Hspec as (_ & _ & _ & _ & _ & _ & _ & ? & _).
    + by apply (analyze_performance_overflow result m ts).
Qed.

(** X16. A record whose frame times are a non-empty list of floats, [NaN]
    and the infinities included, is always analysed, provided only that
    the number of samples converts to a float. *)
Theorem float_samples_are_analysed (result m : gmap string json) (ts : list number) :
  frame_times_of result m ts → ts ≠ [] → all_floats ts → converts (NInt (len ts)) →
  ∃ a avg, analyze_performance result = Ok (Some a) ∧
           avg_frame_time_ms a = NFloat avg ∧ frame_count a = length ts ∧
           (∃ f, min_frame_time_ms a = NFloat f) ∧
           (∃ f, max_frame_time_ms a = NFloat f).
Proof.
  intros Hft Hne Hfl Hn.
  destruct (analyze_performance_floats _ _ _ Hft Hne Hfl Hn) as (a & Ha & Hspec).
  destruct Hspec as ((total & _ & Havg) & Hmin & Hmax & _ & _ & _ & _ & Hcount & _).
  destruct (truediv_Ok _ _ _ Havg) as [avg Eavg].
  unfold all_floats in Hfl. rewrite Forall_forall in Hfl.
  exists a, avg. split_and!; try done.
  - apply Hfl. by apply py_min_elem.
  - apply Hfl. by apply py_max_elem.
Qed.

End outcomes.

(** ** Running in [IO] *)

Section running.

Lemma IO_bind_ret_l {A} (k : IO A) : (mret () ≫= λ _ : unit, k) = k.
Proof. by destruct k. Qed.

Lemma IO_bind_assoc {A B C} (m : IO A) (f : A → IO B) (g : B → IO C) :
  (m ≫= f) ≫= g = m ≫= (λ x, f x ≫= g).
Proof.
  destruct m as [o [a|e]]; [|done].
  unfold mbind, IO_bind; cbn. destruct (f a) as [o' [b|e']]; cbn; [|done].
  by rewrite app_assoc.
Qed.

Lemma IO_bind_Ok {A B} (m : IO A) (f : A → IO B) (b : B) :
  outcome (m ≫= f) = Ok b → ∃ a, outcome m = Ok a ∧ outcome (f a) = Ok b.
Proof.
  destruct m as [o [a|e]]; unfold mbind, IO_bind; cbn; [eauto | done].
Qed.

Lemma IO_bind_run {A B} (m : IO A) (f : A → IO B) (o : list line) (a : A) :
  m = mkIO o (Ok a) → m ≫= f = mkIO (o ++ printed (f a)) (outcome (f a)).
Proof. by intros ->. Qed.

Lemma for_each_app {A} (l1 l2 : list A) (body : A → IO unit) :
  for_each (l1 ++ l2) body = (for_each l1 body;; for_each l2 body).
Proof.
  induction l1 as [|x l1 IH]; cbn [for_each app].
  - by rewrite IO_bind_ret_l.
  - by rewrite IH, IO_bind_assoc.
Qed.

End running.

(** ** Records without samples *)

Section skipping.

Context {py : Interpreter} {laws : InterpreterLaws py}.

Lemma summary_entries_skip (result : gmap string json) (rs1 rs2 : list (gmap string json)) :
  analyze_performance result = Ok None →
  summary_entries (rs1 ++ result :: rs2) = summary_entries (rs1 ++ rs2).
Proof.
  intros Hnone. induction rs1 as [|r rs1 IH]; cbn [summary_entries app].
  - by rewrite Hnone.
  - by rewrite IH.
Qed.

(** C5. For a record whose metrics hold an empty [frame_times] list or none
    at all, the analysis returns the empty analysis without raising, the
    report loop prints nothing for the record, and the record adds no entry
    to the benchmarks of the summary. *)
Theorem record_without_samples_is_skipped (result m : gmap string json) :
  dict_get result "metrics" (JObj ∅) = JObj m →
  m !! "frame_times" = None ∨ m !! "frame_times" = Some (JArr []) →
  analyze_performance result = Ok None ∧
  report_block result = mkIO [] (Ok ()) ∧
  (∀ rs1 rs2, for_each (rs1 ++ result :: rs2) report_block
              = for_each (rs1 ++ rs2) report_block) ∧
  (∀ rs1 rs2, summary_entries (rs1 ++ result :: rs2) = summary_entries (rs1 ++ rs2)).
Proof.
  intros Hm Hft.
  assert (analyze_performance result = Ok None) as Hnone.
  { unfold analyze_performance. rewrite Hm. cbn [py_get mbind res_bind].
    unfold dict_get. by destruct Hft as [-> | ->]. }
  assert (report_block result = mkIO [] (Ok ())) as Hblock.
  { unfold report_block. by rewrite Hnone. }
  split_and!; [done | done | |].
  - intros rs1 rs2. rewrite !for_each_app. cbn [for_each].
    rewrite Hblock.
    by rewrite (IO_bind_ret_l (for_each rs2 report_block) : (mkIO [] (Ok ());; _) = _).
  - intros rs1 rs2. by apply summary_entries_skip.
Qed.

End skipping.

(** ** The assessment *)

Section assessment.

Lemma tiered_if (b1 b2 : bool) (e a p : string) :
  e ≠ a → e ≠ p → a ≠ p →
  tiered (if b1 then e else if b2 then a else p) e a p (b1 = true) (b2 = true).
Proof.
  intros Hea Hep Hap. unfold tiered.
  destruct b1, b2; intuition congruence.
Qed.

Lemma budgeted_if (b : bool) (w o : string) :
  w ≠ o → budgeted (if b then w else o) w o (b = true).
Proof. intros Hwo. unfold budgeted. destruct b; intuition congruence. Qed.

(** C7. The assessment of an analysis whose four subsystem timings are
    numbers prints exactly six outcomes, in the order frame time, FPS, GPU
    culling, batch processing, LOD updates, streaming. The frame-time outcome
    is excellent when avg ≤ 16.67, else acceptable when avg ≤ 33.33, else
    poor; the FPS outcome is excellent when avg_fps ≥ 60, else acceptable
    when avg_fps ≥ 30, else poor; each subsystem is within budget exactly
    when its time is at most 0.25, 2.5, 1.0 and 1.5 ms respectively, and
    over budget otherwise. The bounds are the floats that these literals
    denote, and the comparisons are Python's. *)
Theorem six_outcomes_in_fixed_order (a : Analysis) (gpu batch lod streaming : number) :
  as_number (gpu_culling_time_ms a) = Some gpu →
  as_number (batch_processing_time_ms a) = Some batch →
  as_number (lod_update_time_ms a) = Some lod →
  as_number (streaming_time_ms a) = Some streaming →
  ∃ o_frame o_fps o_gpu o_batch o_lod o_streaming : string,
    assess_performance a targets =
      mkIO [[Lit "  "; Lit o_frame]; [Lit "  "; Lit o_fps];
            [Lit "  "; Lit o_gpu]; [Lit "  "; Lit o_batch];
            [Lit "  "; Lit o_lod]; [Lit "  "; Lit o_streaming]] (Ok ()) ∧
    tiered o_frame "✓ Frame time: EXCELLENT" "⚠ Frame time: ACCEPTABLE"
           "✗ Frame time: POOR"
           (py_le (avg_frame_time_ms a) (NFloat (decimal 1667 100)) = true)
           (py_le (avg_frame_time_ms a) (NFloat (decimal 3333 100)) = true) ∧
    tiered o_fps "✓ FPS: EXCELLENT" "⚠ FPS: ACCEPTABLE" "✗ FPS: POOR"
           (py_le (NInt 60) (avg_fps a) = true) (py_le (NInt 30) (avg_fps a) = true) ∧
    budgeted o_gpu "✓ GPU Culling: WITHIN BUDGET" "✗ GPU Culling: OVER BUDGET"
             (py_le gpu (NFloat (decimal 25 100)) = true) ∧
    budgeted o_batch "✓ Batch Processing: WITHIN BUDGET"
             "✗ Batch Processing: OVER BUDGET"
             (py_le batch (NFloat (decimal 25 10)) = true) ∧
    budgeted o_lod "✓ LOD Updates: WITHIN BUDGET" "✗ LOD Updates: OVER BUDGET"
             (py_le lod (NFloat (float_of_int 1)) = true) ∧
    budgeted o_streaming "✓ Streaming: WITHIN BUDGET" "✗ Streaming: OVER BUDGET"
             (py_le streaming (NFloat (decimal 15 10)) = true).
Proof.
  intros Hgpu Hbatch Hlod Hstreaming.
  unfold assess_performance, assessments, json_le.
  rewrite Hgpu, Hbatch, Hlod, Hstreaming.
  cbn [mbind res_bind lift IO_bind outcome printed for_each print app targets
       target_frame_time_ms warning_frame_time_ms target_fps warning_fps
       gpu_culling_budget_ms batch_processing_budget_ms lod_update_budget_ms
       streaming_budget_ms mret IO_ret].
  do 6 eexists. split; [reflexivity|].
  split_and!; first [by apply tiered_if | by apply budgeted_if].
Qed.

End assessment.

(** ** The directory *)

Section directories.

Lemma assoc_replace (name : string) (c : content) (es : list (string * content)) :
  name ∈ es.*1 →
  assoc name ((λ e, if bool_decide (e.1 = name) then (name, c) else e) <$> es) = Some c.
Proof.
  induction es as [|[n c'] es IH]; cbn; intros Hin.
  - by apply elem_of_nil in Hin.
  - case_bool_decide as Hn; cbn.
    + by rewrite bool_decide_eq_true_2.
    + rewrite bool_decide_eq_false_2 by done. apply IH.
      apply elem_of_cons in Hin as [->|Hin]; done.
Qed.

Lemma assoc_append (name : string) (c : content) (es : list (string * content)) :
  name ∉ es.*1 → assoc name (es ++ [(name, c)]) = Some c.
Proof.
  induction es as [|[n c'] es IH]; cbn; intros Hin.
  - by rewrite bool_decide_eq_true_2.
  - apply not_elem_of_cons in Hin as [Hn Hin].
    rewrite bool_decide_eq_false_2 by done. by apply IH.
Qed.

(** What was written is what the directory now holds under that name. *)
Lemma dir_lookup_write_json (name : string) (v : json) (d : directory) :
  dir_lookup name (write_json name v d) = Some (Loads v).
Proof.
  unfold dir_lookup, write_json. case_bool_decide as Hin; cbn [listing].
  - by apply assoc_replace.
  - by apply assoc_append.
Qed.

(** The tool's own output matches the pattern of its inputs. *)
Lemma summary_name_matches : fnmatch "benchmark_*.json" summary_name = true.
Proof. reflexivity. Qed.

End directories.

(** ** Loading *)

Section loading.

Context {py : Interpreter}.

Lemma load_loop_spec (files : list (string * content)) (rs : list (gmap string json)) :
  load_loop files rs = mkIO (load_errors files) (Ok (rs ++ loaded files)).
Proof.
  revert rs. induction files as [|[file c] files IH]; intros rs; cbn [load_loop].
  - cbn. by rewrite app_nil_r.
  - unfold loaded, load_errors. cbn [omap list_omap fst snd].
    destruct (load_file file c) as [data|e].
    + rewrite IH. by rewrite <-app_assoc.
    + unfold print. unfold mbind at 1, IO_bind. cbn [outcome printed].
      by rewrite IH.
Qed.

Lemma load_results_spec (w : gmap string directory) (d : directory)
    (self : BenchmarkAnalyzer) :
  let files := glob w d (pattern_of (results_dir self)) in
  load_results w d self =
    mkIO (load_errors files)
         (Ok (mkBenchmarkAnalyzer (results_dir self) (results self ++ loaded files))).
Proof.
  cbn. unfold load_results. rewrite load_loop_spec.
  unfold mbind, IO_bind. cbn. by rewrite app_nil_r.
Qed.

(** ** The summary *)

Lemma main_run (prog dir : string) (w : gmap string directory) (d : directory)
    (t_report t_save : datetime) :
  w !! dir = Some d →
  main [prog; dir] w t_report t_save =
    (analyzer ← load_results w d (mkBenchmarkAnalyzer dir []);
     generate_report t_report analyzer;;
     d' ← save_summary t_save analyzer d;
     mret (<[dir := d']> w)).
Proof. intros Hd. unfold main. by rewrite Hd. Qed.

(** After loading, [main] reports on and saves exactly the loaded records. *)
Lemma main_after_load (prog dir : string) (w : gmap string directory) (d : directory)
    (t_report t_save : datetime) :
  w !! dir = Some d →
  let files := glob w d (pattern_of dir) in
  let analyzer := mkBenchmarkAnalyzer dir (loaded files) in
  let rest := (generate_report t_report analyzer;;
               d' ← save_summary t_save analyzer d;
               mret (<[dir := d']> w)) in
  main [prog; dir] w t_report t_save
  = mkIO (load_errors files ++ printed rest) (outcome rest).
Proof.
  intros Hd. cbn zeta. rewrite (main_run _ _ _ _ _ _ Hd).
  by rewrite (IO_bind_run _ _ _ _ (load_results_spec w d (mkBenchmarkAnalyzer dir []))).
Qed.

Lemma save_summary_Ok (now : datetime) (self : BenchmarkAnalyzer) (d d' : directory) :
  outcome (save_summary now self d) = Ok d' →
  ∃ summary, build_summary now self = Ok summary ∧ writable d = true ∧
             d' = write_json summary_name (JObj summary) d.
Proof.
  unfold save_summary. destruct (build_summary now self) as [summary|e]; [|done].
  unfold lift. unfold mbind at 1, IO_bind. cbn [outcome printed].
  destruct (writable d); [|done]. cbn. intros [= <-]. eauto.
Qed.

Lemma save_summary_run (now : datetime) (self : BenchmarkAnalyzer) (d : directory)
    (summary : gmap string json) :
  build_summary now self = Ok summary → writable d = true →
  save_summary now self d =
    mkIO [[Lit "Summary saved to: "; Lit (path_join (results_dir self) summary_name)]]
         (Ok (write_json summary_name (JObj summary) d)).
Proof. intros Hs Hw. unfold save_summary. by rewrite Hs, Hw. Qed.

Lemma build_summary_Ok (now : datetime) (self : BenchmarkAnalyzer)
    (summary : gmap string json) :
  build_summary now self = Ok summary →
  ∃ entries, summary_entries (results self) = Ok entries ∧
             summary !! "timestamp" = Some (JStr (isoformat now)) ∧
             summary !! "results_dir" = Some (JStr (results_dir self)) ∧
             summary !! "benchmark_count" = Some (jnat (length (results self))) ∧
             summary !! "benchmarks" = Some (JArr entries).
Proof.
  unfold build_summary.
  destruct (summary_entries (results self)) as [entries|e]; [|done].
  cbn. intros [= <-]. exists entries. split_and!; done.
Qed.

(** One entry per record that has an analysis, and none for the others. *)
Lemma summary_entries_length (rs : list (gmap string json)) (entries : list json) :
  summary_entries rs = Ok entries →
  length entries = length (filter (λ r, has_analysis r = true) rs).
Proof.
  revert entries. induction rs as [|r rs IH]; intros entries; cbn [summary_entries].
  - by intros [= <-].
  - rewrite filter_cons.
    destruct (analyze_performance r) as [[a|]|e] eqn:Ea; cbn [mbind res_bind]; [| |done].
    + destruct (dict_item r "file") as [file|e]; cbn [mbind res_bind]; [|done].
      destruct (summary_entries rs) as [entries'|e]; cbn [mbind res_bind]; [|done].
      intros [= <-]. rewrite decide_True by (unfold has_analysis; by rewrite Ea).
      cbn [length]. f_equal. by apply IH.
    + rewrite decide_False by (unfold has_analysis; by rewrite Ea). apply IH.
Qed.

(** C10. In the summary that a completed run writes, [benchmark_count] is
    the number of records loaded, whether or not they have frame times, and
    [benchmarks] has one entry per loaded record with a non-empty analysis;
    so the count is at least the number of entries, and a record without
    samples makes it strictly larger. *)
Theorem benchmark_count_counts_every_record :
  (∀ (prog dir : string) (w w' : gmap string directory) (d : directory)
     (t_report t_save : datetime),
     w !! dir = Some d →
     outcome (main [prog; dir] w t_report t_save) = Ok w' →
     let records := loaded (glob w d (pattern_of dir)) in
     ∃ d' summary entries,
       w' !! dir = Some d' ∧
       dir_lookup summary_name d' = Some (Loads (JObj summary)) ∧
       summary !! "benchmark_count" = Some (jnat (length records)) ∧
       summary !! "benchmarks" = Some (JArr entries) ∧
       length entries = length (filter (λ r, has_analysis r = true) records) ∧
       (length entries ≤ length records)%nat) ∧
  (∃ w' d' summary,
     outcome (main ["report"; "results"] {[ "results" := void_dir ]} noon noon) = Ok w' ∧
     w' !! "results" = Some d' ∧
     dir_lookup summary_name d' = Some (Loads (JObj summary)) ∧
     summary !! "benchmark_count" = Some (jnat 1) ∧
     summary !! "benchmarks" = Some (JArr [])).
Proof.
  assert (∀ (prog dir : string) (w w' : gmap string directory) (d : directory)
     (t_report t_save : datetime),
     w !! dir = Some d →
     outcome (main [prog; dir] w t_report t_save) = Ok w' →
     let records := loaded (glob w d (pattern_of dir)) in
     ∃ d' summary entries,
       w' !! dir = Some d' ∧
       dir_lookup summary_name d' = Some (Loads (JObj summary)) ∧
       summary !! "benchmark_count" = Some (jnat (length records)) ∧
       summary !! "benchmarks" = Some (JArr entries) ∧
       length entries = length (filter (λ r, has_analysis r = true) records) ∧
       (length entries ≤ length records)%nat) as Hgen.
  { intros prog dir w w' d t_report t_save Hd Hrun records.
    rewrite (main_after_load _ _ _ _ _ _ Hd) in Hrun. cbn [outcome] in Hrun.
    apply IO_bind_Ok in Hrun as ([] & _ & Hrun).
    apply IO_bind_Ok in Hrun as (d' & Hsave & Hret).
    cbn in Hret. injection Hret as <-.
    apply save_summary_Ok in Hsave as (summary & Hsum & _ & ->).
    apply build_summary_Ok in Hsum as (entries & Hentries & _ & _ & Hcount & Hbench).
    cbn [results] in *. apply summary_entries_length in Hentries.
    exists (write_json summary_name (JObj summary) d), summary, entries.
    split_and!; try done.
    - apply lookup_insert_eq.
    - apply dir_lookup_write_json.
    - rewrite Hentries. apply length_filter. }
  split; [exact Hgen|].
  destruct (Hgen "report" "results" {[ "results" := void_dir ]}
              (<["results" := write_json summary_name (JObj (list_to_map [
                   ("timestamp", JStr (isoformat noon));
                   ("results_dir", JStr "results");
                   ("benchmark_count", jnat 1);
                   ("benchmarks", JArr [])])) void_dir]> {[ "results" := void_dir ]})
              void_dir noon noon)
    as (d' & summary & entries & Hd' & Hlook & Hcount & Hbench & Hlen & _);
    [done | by vm_compute |].
  eexists. exists d', summary. split; [vm_compute; reflexivity|].
  split; [done|]. split; [done|]. split; [done|].
  rewrite Hbench. destruct entries; [done|]. by vm_compute in Hlen.
Qed.

(** ** An empty collection *)

Lemma load_errors_start (files : list (string * content)) :
  Forall (λ l, starts_with "Error loading " l = true) (load_errors files).
Proof.
  induction files as [|[file c] files IH]; [constructor|].
  unfold load_errors. cbn [omap list_omap fst snd].
  destruct (load_file file c); [exact IH|]. constructor; [done | exact IH].
Qed.

Lemma scene_lines_load_errors (files : list (string * content)) :
  scene_lines (load_errors files) = [].
Proof.
  unfold scene_lines. induction (load_errors_start files) as [|l ls Hl _ IH]; [done|].
  rewrite filter_cons, IH. destruct l as [|[] ?]; try done.
  cbn in Hl. apply bool_decide_eq_true in Hl as ->. by vm_compute.
Qed.

Lemma file_lines_load_errors (files : list (string * content)) :
  file_lines (load_errors files) = [].
Proof.
  unfold file_lines. induction (load_errors_start files) as [|l ls Hl _ IH]; [done|].
  rewrite filter_cons, IH. destruct l as [|[] ?]; try done.
  cbn in Hl. apply bool_decide_eq_true in Hl as ->. by vm_compute.
Qed.

Lemma error_lines_load_errors (files : list (string * content)) :
  error_lines (load_errors files) = load_errors files.
Proof.
  unfold error_lines. induction (load_errors_start files) as [|l ls Hl _ IH]; [done|].
  rewrite filter_cons, IH. by rewrite decide_True.
Qed.

Lemma scene_lines_app (o1 o2 : list line) :
  scene_lines (o1 ++ o2) = scene_lines o1 ++ scene_lines o2.
Proof. apply filter_app. Qed.

(** C3, as the program has it. When no record was loaded, the report prints
    the "no results" notice and no per-scene block; the run then goes on to
    save, and, the directory being writable, writes a summary whose
    [benchmark_count] is 0 and whose [benchmarks] is empty. *)
Theorem empty_collection_is_reported_and_saved
    (prog dir : string) (w : gmap string directory) (d : directory)
    (t_report t_save : datetime) :
  w !! dir = Some d → writable d = true →
  loaded (glob w d (pattern_of dir)) = [] →
  generate_report t_report (mkBenchmarkAnalyzer dir [])
    = mkIO [[Lit "No benchmark results found"]] (Ok ()) ∧
  ∃ summary,
    main [prog; dir] w t_report t_save
      = mkIO (load_errors (glob w d (pattern_of dir)) ++
              [[Lit "No benchmark results found"];
               [Lit "Summary saved to: "; Lit (path_join dir summary_name)]])
             (Ok (<[dir := write_json summary_name (JObj summary) d]> w)) ∧
    scene_lines (printed (main [prog; dir] w t_report t_save)) = [] ∧
    summary !! "benchmark_count" = Some (jnat 0) ∧
    summary !! "benchmarks" = Some (JArr []).
Proof.
  intros Hd Hw Hnone.
  assert (generate_report t_report (mkBenchmarkAnalyzer dir [])
          = mkIO [[Lit "No benchmark results found"]] (Ok ())) as Hreport by done.
  split; [done|].
  eexists. rewrite (main_after_load _ _ _ _ _ _ Hd), Hnone.
  rewrite (save_summary_run t_save (mkBenchmarkAnalyzer dir []) d _ eq_refl Hw).
  rewrite Hreport.
  cbn [mbind IO_bind outcome printed mret IO_ret app results_dir].
  split_and!; [reflexivity | | done | done].
  rewrite scene_lines_app, scene_lines_load_errors. by vm_compute.
Qed.

(** ** Two runs in a row *)

(** C2, at a directory that holds one benchmark file and no summary yet. The
    first run writes [benchmark_summary.json], whose name matches
    [benchmark_*.json]; the second run, on the directory as the first left
    it, loads that file as one more record. Both runs complete and leave the
    benchmark file as it was, but [benchmark_count] is 1 after the first run
    and 2 after the second: the two summaries differ beyond their
    timestamps. *)
Theorem second_run_loads_its_own_summary :
  let w1 := world_after fresh_world first_run in
  let w2 := world_after w1 second_run in
  completed first_run = true ∧ completed second_run = true ∧
  (w2 !! "results" ≫= dir_lookup "benchmark_city.json")
    = (fresh_world !! "results" ≫= dir_lookup "benchmark_city.json") ∧
  (summary_in "results" w1 ≫= (.!! "benchmark_count")) = Some (jnat 1) ∧
  (summary_in "results" w2 ≫= (.!! "benchmark_count")) = Some (jnat 2) ∧
  delete "timestamp" <$> summary_in "results" w1
    ≠ delete "timestamp" <$> summary_in "results" w2.
Proof.
  intros w1 w2.
  assert ((summary_in "results" w1 ≫= (.!! "benchmark_count")) = Some (jnat 1)) as H1
    by (vm_compute; reflexivity).
  assert ((summary_in "results" w2 ≫= (.!! "benchmark_count")) = Some (jnat 2)) as H2
    by (vm_compute; reflexivity).
  split; [vm_compute; reflexivity|].
  split; [vm_compute; reflexivity|].
  split; [vm_compute; reflexivity|].
  split; [exact H1|]. split; [exact H2|].
  intros Heq.
  destruct (summary_in "results" w1) as [s1|], (summary_in "results" w2) as [s2|];
    try discriminate.
  cbn in H1, H2, Heq. injection Heq as Heq.
  assert (delete "timestamp" s1 !! "benchmark_count" = Some (jnat 1)) as H1'
    by by rewrite lookup_delete_ne.
  rewrite Heq, lookup_delete_ne, H2 in H1' by done.
  injection H1' as H1'. by cbn in H1'.
Qed.

End loading.

(** ** The file pattern *)

Section patterns.

Lemma append_nil_l (s : string) : "" +:+ s = s.
Proof. reflexivity. Qed.

Lemma append_cons (c : ascii) (a b : string) : String c a +:+ b = String c (a +:+ b).
Proof. reflexivity. Qed.

Lemma append_assoc (a b c : string) : (a +:+ b) +:+ c = a +:+ (b +:+ c).
Proof.
  induction a as [|d a IH]; [done|]. by rewrite !append_cons, IH.
Qed.

Lemma fnmatch_literal (lit s : string) :
  literal lit = true → fnmatch lit s = true ↔ s = lit.
Proof.
  revert s. induction lit as [|c lit IH]; intros s Hlit; cbn [fnmatch].
  - by rewrite bool_decide_eq_true.
  - cbn [literal] in Hlit. apply andb_true_iff in Hlit as [Hc Hlit].
    apply negb_true_iff in Hc. rewrite Hc.
    destruct s as [|d s]; [done|].
    rewrite andb_true_iff, bool_decide_eq_true, (IH s Hlit).
    split; [by intros [-> ->] | by intros [= -> ->]].
Qed.

Lemma fnmatch_star (pat s : string) :
  fnmatch (String "*" pat) s = true ↔
  ∃ mid rest, s = mid +:+ rest ∧ fnmatch pat rest = true.
Proof.
  induction s as [|d s IH].
  - change (fnmatch (String "*" pat) "") with (fnmatch pat "" || false).
    rewrite orb_false_r. split.
    + intros H. by exists "", "".
    + intros (mid & rest & Hs & H).
      destruct mid; [rewrite append_nil_l in Hs | by rewrite append_cons in Hs].
      by subst.
  - change (fnmatch (String "*" pat) (String d s))
      with (fnmatch pat (String d s) || fnmatch (String "*" pat) s).
    rewrite orb_true_iff, IH. split.
    + intros [H|(mid & rest & -> & H)].
      * by exists "", (String d s).
      * by exists (String d mid), rest.
    + intros (mid & rest & Hs & H). destruct mid as [|c mid].
      * rewrite append_nil_l in Hs. left. by subst.
      * rewrite append_cons in Hs. injection Hs as <- ->. right. by exists mid, rest.
Qed.

Lemma fnmatch_literal_cons (c : ascii) (pat s : string) :
  c ≠ "*"%char →
  fnmatch (String c pat) s = true ↔ ∃ s', s = String c s' ∧ fnmatch pat s' = true.
Proof.
  intros Hc. cbn [fnmatch]. rewrite bool_decide_eq_false_2 by done.
  destruct s as [|d s].
  - split; [done | by intros (? & ? & _)].
  - rewrite andb_true_iff, bool_decide_eq_true. split.
    + intros [-> H]. by exists s.
    + by intros (s' & [= -> ->] & H).
Qed.

(** A pattern [pre*suf] matches the names that start with [pre] and go on
    to end with [suf]. *)
Lemma fnmatch_prefix_star_suffix (pre suf name : string) :
  literal pre = true → literal suf = true →
  fnmatch (pre +:+ String "*" suf) name = true ↔
  ∃ mid, name = pre +:+ mid +:+ suf.
Proof.
  intros Hpre Hsuf. revert name. induction pre as [|c pre IH]; intros name.
  - rewrite append_nil_l, fnmatch_star. split.
    + intros (mid & rest & -> & H). apply fnmatch_literal in H as ->; [|done].
      by exists mid.
    + intros [mid ->]. exists mid, suf. split; [done|]. by apply fnmatch_literal.
  - cbn [literal] in Hpre. apply andb_true_iff in Hpre as [Hc Hpre].
    apply negb_true_iff, bool_decide_eq_false in Hc.
    rewrite append_cons, (fnmatch_literal_cons _ _ _ Hc). split.
    + intros (s' & -> & H). apply IH in H as [mid ->]; [|done]. by exists mid.
    + intros [mid ->]. eexists. split; [done|]. apply IH; [done|]. by exists mid.
Qed.

(** X1. The pattern of the loader matches exactly the names made of
    [benchmark_], any text (possibly none) and [.json]. *)
Theorem benchmark_pattern_matches (name : string) :
  fnmatch "benchmark_*.json" name = true ↔
  ∃ mid, name = "benchmark_" +:+ mid +:+ ".json".
Proof. by apply (fnmatch_prefix_star_suffix "benchmark_" ".json"). Qed.

End patterns.

(** ** Paths *)

Section paths.

Lemma last_char_snoc (s : string) (c : ascii) :
  last_char s = Some c → ∃ s', s = s' +:+ String c "".
Proof.
  induction s as [|d s IH]; [done|]. cbn [last_char].
  destruct s as [|d' s].
  - intros [= ->]. by exists "".
  - intros H. destruct (IH H) as [s' ->]. by exists (String d s').
Qed.

Lemma basename_no_slash (s : string) : entry_name s → basename s = s.
Proof.
  unfold entry_name.
  destruct s as [|c s]; [done|]. cbn [basename String.list_ascii_of_string].
  intros [Hc Hs]%not_elem_of_cons.
  rewrite bool_decide_eq_false_2 by done. by rewrite bool_decide_eq_false_2.
Qed.

Lemma chars_app (a b : string) :
  String.list_ascii_of_string (a +:+ b)
  = String.list_ascii_of_string a ++ String.list_ascii_of_string b.
Proof.
  induction a as [|c a IH]; [done|].
  rewrite append_cons. cbn [String.list_ascii_of_string app]. by rewrite IH.
Qed.

Lemma basename_after_slash (a b : string) :
  entry_name b → basename (a +:+ String "/" b) = b.
Proof.
  intros Hb. induction a as [|c a IH].
  - rewrite append_nil_l. cbn [basename].
    rewrite bool_decide_eq_true_2 by done. by apply basename_no_slash.
  - rewrite append_cons. cbn [basename].
    case_bool_decide; [done|]. rewrite bool_decide_eq_true_2; [done|].
    rewrite chars_app. apply elem_of_app. right. by left.
Qed.


Lemma basename_join (dir name : string) :
  entry_name name → basename (path_join dir name) = name.
Proof.
  intros Hname. unfold path_join.
  case_bool_decide as Hdir; [by apply basename_no_slash|].
  case_bool_decide as Hlast.
  - apply last_char_snoc in Hlast as [dir' ->].
    rewrite append_assoc, append_cons, append_nil_l.
    by apply basename_after_slash.
  - rewrite append_cons, append_nil_l. by apply basename_after_slash.
Qed.

(** X2. The tag [file] of a loaded record is the name of the file it came
    from: [os.path.basename] undoes [os.path.join] on a name without
    slash, whatever the directory path. *)
Theorem basename_path_join (dir name : string) :
  "/"%char ∉ String.list_ascii_of_string name →
  basename (path_join dir name) = name.
Proof. apply basename_join. Qed.







Context {py : Interpreter}.


End paths.

(** ** The block of a well-formed record *)

Section reporting.

Context {py : Interpreter} {laws : InterpreterLaws py}.

Lemma converts_float (f : spec_float) : converts (NFloat f).
Proof. by exists f. Qed.

Lemma converts_zero : converts (NInt 0).
Proof. eexists. by vm_compute. Qed.

Lemma fps_of_converts (t fps : number) : fps_of t fps → converts fps.
Proof.
  unfold fps_of. destruct (py_lt (NInt 0) t).
  - intros [f ->]%truediv_Ok. apply converts_float.
  - intros ->. apply converts_zero.
Qed.

Lemma fmt_fixed_number (digits : nat) (v : json) (x : number) :
  as_number v = Some x → converts x → fmt_fixed digits v = Ok (Fixed digits x).
Proof. intros H [f Hf]. unfold fmt_fixed. by rewrite H, Hf. Qed.

Lemma fmt_fixed_of_number (digits : nat) (x : number) :
  converts x → fmt_fixed digits (of_number x) = Ok (Fixed digits x).
Proof. apply fmt_fixed_number, as_number_of_number. Qed.



Lemma lift_Ok_bind {A B} (a : A) (f : A → IO B) : (lift (Ok a) ≫= f) = f a.
Proof. unfold mbind, IO_bind, lift. cbn. by destruct (f a). Qed.


(** The seven statistics convert to [float] when the samples do. *)
Lemma analysis_stats_convert (m : gmap string json) (ts : list number) (a : Analysis) :
  analysis_of m ts a → Forall converts ts →
  Forall converts [avg_frame_time_ms a; p95_frame_time_ms a; p99_frame_time_ms a;
                   min_frame_time_ms a; max_frame_time_ms a; avg_fps a; min_fps a].
Proof.
  intros ((total & _ & Havg) & Hmin & Hmax & Hp95 & Hp99 & Hfps & Hlow & _) Hconv.
  rewrite Forall_forall in Hconv.
  repeat apply Forall_cons_2; [| | | | | | |constructor].
  - apply truediv_Ok in Havg as [f ->]. apply converts_float.
  - by apply Hconv, (sorted_lookup_elem _ _ _ Hp95).
  - by apply Hconv, (sorted_lookup_elem _ _ _ Hp99).
  - by apply Hconv, py_min_elem.
  - by apply Hconv, py_max_elem.
  - by apply (fps_of_converts _ _ Hfps).
  - by apply (fps_of_converts _ _ Hlow).
Qed.





(** ** One malformed file among three *)





End reporting.

(** ** Loading, file by file *)

Section loading_files.

Context {py : Interpreter}.

Lemma loaded_record_of (files : list (string * content)) :
  loaded files = omap record_of files.
Proof.
  unfold loaded. induction files as [|[file c] files IH]; [done|].
  cbn [omap list_omap]. rewrite IH. unfold record_of, load_file. cbn [fst snd].
  by destruct c as [e|[]].
Qed.

Lemma load_errors_error_of (files : list (string * content)) :
  load_errors files = omap error_of files.
Proof.
  unfold load_errors. induction files as [|[file c] files IH]; [done|].
  cbn [omap list_omap]. rewrite IH. unfold error_of, load_file. cbn [fst snd].
  by destruct c as [e|[]].
Qed.

Lemma record_or_error (files : list (string * content)) :
  length (omap record_of files) + length (omap error_of files) = length files.
Proof.
  induction files as [|[file c] files IH]; [done|].
  cbn [omap list_omap length]. unfold record_of at 1, error_of at 1. cbn [fst snd].
  destruct c as [e|[]]; cbn [length]; lia.
Qed.

(** X3. Loading never raises. Each file that [glob] finds contributes
    exactly one thing: a document that is a JSON object becomes a record,
    tagged with the base name of its path and appended after the records
    already held; a file that cannot be read or parsed prints one error line
    with its path and cause; and a document that is valid JSON but not an
    object prints one error line with cause [TypeError]. *)
Theorem load_results_record_or_error (w : gmap string directory) (d : directory)
    (self : BenchmarkAnalyzer) :
  let files := glob w d (pattern_of (results_dir self)) in
  load_results w d self =
    mkIO (omap error_of files)
         (Ok (mkBenchmarkAnalyzer (results_dir self)
                                  (results self ++ omap record_of files))) ∧
  length (omap record_of files) + length (omap error_of files) = length files.
Proof.
  cbn zeta. split; [|apply record_or_error].
  pose proof (load_results_spec w d self) as H. cbn zeta in H.
  by rewrite loaded_record_of, load_errors_error_of in H.
Qed.

Lemma loaded_has_file (files : list (string * content)) :
  Forall (λ r, is_Some (r !! "file")) (loaded files).
Proof.
  rewrite loaded_record_of. induction files as [|[file c] files IH]; [constructor|].
  cbn [omap list_omap]. unfold record_of at 1. cbn [fst snd].
  destruct c as [e|[]]; try exact IH.
  constructor; [|exact IH]. by rewrite lookup_insert_eq.
Qed.

(** ** What a run leaves behind *)

Lemma assoc_replace_other (name name' : string) (c : content)
    (es : list (string * content)) :
  name' ≠ name →
  assoc name' ((λ e, if bool_decide (e.1 = name) then (name, c) else e) <$> es)
  = assoc name' es.
Proof.
  intros Hne. induction es as [|[n c'] es IH]; [done|]. cbn.
  case_bool_decide as Hn; cbn.
  - subst n. rewrite !bool_decide_eq_false_2 by done. exact IH.
  - case_bool_decide; [done | exact IH].
Qed.

Lemma assoc_append_other (name name' : string) (c : content)
    (es : list (string * content)) :
  name' ≠ name → assoc name' (es ++ [(name, c)]) = assoc name' es.
Proof.
  intros Hne. induction es as [|[n c'] es IH]; cbn.
  - by rewrite bool_decide_eq_false_2.
  - case_bool_decide; [done | exact IH].
Qed.

Lemma dir_lookup_write_json_ne (name name' : string) (v : json) (d : directory) :
  name' ≠ name → dir_lookup name' (write_json name v d) = dir_lookup name' d.
Proof.
  intros Hne. unfold dir_lookup, write_json. case_bool_decide; cbn [listing].
  - by apply assoc_replace_other.
  - by apply assoc_append_other.
Qed.

Lemma writable_write_json (name : string) (v : json) (d : directory) :
  writable (write_json name v d) = writable d.
Proof. unfold write_json. by case_bool_decide. Qed.

(** A completed run reported without raising, built its summary from the
    loaded records and wrote it. *)
Lemma main_Ok_inv (prog dir : string) (w w' : gmap string directory) (d : directory)
    (t_report t_save : datetime) :
  w !! dir = Some d →
  outcome (main [prog; dir] w t_report t_save) = Ok w' →
  let analyzer := mkBenchmarkAnalyzer dir (loaded (glob w d (pattern_of dir))) in
  ∃ summary,
    outcome (generate_report t_report analyzer) = Ok () ∧
    build_summary t_save analyzer = Ok summary ∧
    writable d = true ∧
    w' = <[dir := write_json summary_name (JObj summary) d]> w.
Proof.
  intros Hd Hrun analyzer.
  rewrite (main_after_load _ _ _ _ _ _ Hd) in Hrun. cbn [outcome] in Hrun.
  apply IO_bind_Ok in Hrun as ([] & Hreport & Hrun).
  apply IO_bind_Ok in Hrun as (d' & Hsave & Hret).
  cbn in Hret. injection Hret as <-.
  apply save_summary_Ok in Hsave as (summary & Hsum & Hw & ->).
  by exists summary.
Qed.

(** X10. A completed run changes nothing but the summary file: the other
    directories of the world and every other file of the results directory
    are as before, and the results directory now holds a summary. *)
Theorem run_writes_only_the_summary
    (prog dir : string) (w w' : gmap string directory) (d : directory)
    (t_report t_save : datetime) :
  w !! dir = Some d →
  outcome (main [prog; dir] w t_report t_save) = Ok w' →
  (∀ dir', dir' ≠ dir → w' !! dir' = w !! dir') ∧
  ∃ d', w' !! dir = Some d' ∧
        writable d' = writable d ∧
        (∀ name, name ≠ summary_name → dir_lookup name d' = dir_lookup name d) ∧
        ∃ summary, dir_lookup summary_name d' = Some (Loads (JObj summary)).
Proof.
  intros Hd Hrun.
  destruct (main_Ok_inv _ _ _ _ _ _ _ Hd Hrun) as (summary & _ & _ & _ & ->).
  split.
  - intros dir' Hne. by rewrite lookup_insert_ne.
  - eexists. split; [apply lookup_insert_eq|].
    split; [apply writable_write_json|]. split.
    + intros name Hne. by apply dir_lookup_write_json_ne.
    + exists summary. apply dir_lookup_write_json.
Qed.

End loading_files.

(** ** Every outcome of a block *)

Section block_outcomes.

Context {py : Interpreter} {laws : InterpreterLaws py}.

Lemma for_each_print {A} (l : list A) (f : A → line) :
  for_each l (λ x, print (f x)) = mkIO (f <$> l) (Ok ()).
Proof.
  induction l as [|x l IH]; [done|]. cbn [for_each]. rewrite IH. done.
Qed.

Lemma fmt_fixed_Raise (digits : nat) (v : json) (e : exn) :
  fmt_fixed digits v = Raise e → data_error e.
Proof.
  unfold fmt_fixed, data_error. destruct (as_number v) as [x|].
  - destruct (to_float x) as [f|e'] eqn:E; [done|]. cbn. intros [= <-].
    apply to_float_Raise in E. auto.
  - destruct v; intros [= <-]; auto.
Qed.

Lemma fmt_grouped_Raise (v : json) (e : exn) :
  fmt_grouped v = Raise e → data_error e.
Proof.
  unfold fmt_grouped, data_error.
  destruct (as_number v); [done|]. destruct v; intros [= <-]; auto.
Qed.

Lemma assessments_Raise (a : Analysis) (t : Targets) (e : exn) :
  assessments a t = Raise e → data_error e.
Proof.
  unfold assessments, json_le, data_error.
  destruct (as_number (gpu_culling_time_ms a)); [|intros [= <-]; auto].
  destruct (as_number (batch_processing_time_ms a)); [|intros [= <-]; auto].
  destruct (as_number (lod_update_time_ms a)); [|intros [= <-]; auto].
  destruct (as_number (streaming_time_ms a)); [|intros [= <-]; auto].
  done.
Qed.

Lemma analyze_performance_Raise (result : gmap string json) (e : exn) :
  analyze_performance result = Raise e → data_error e.
Proof.
  intros H. unfold data_error.
  destruct (analyze_performance_cases result) as [H'|[[a H']|[H'|[H'|H']]]];
    rewrite H' in H; try done; injection H as <-; auto.
Qed.

Lemma has_analysis_Some (r : gmap string json) (a : Analysis) :
  analyze_performance r = Ok (Some a) → has_analysis r = true.
Proof. intros H. unfold has_analysis. by rewrite H. Qed.

Lemma has_analysis_None (r : gmap string json) :
  analyze_performance r = Ok None → has_analysis r = false.
Proof. intros H. unfold has_analysis. by rewrite H. Qed.

Lemma filter_assessment_lines (text : string) (os : list string) :
  text ≠ "  " →
  filter (λ l, starts_with text l = true)
         ((λ assessment, [Lit "  "; Lit assessment]) <$> os) = [].
Proof.
  intros Htext. induction os as [|o os IH]; [done|].
  cbn [fmap list_fmap]. rewrite filter_cons_False; [exact IH|].
  cbn [starts_with]. by rewrite bool_decide_eq_false_2.
Qed.

Local Ltac block_raises E lem :=
  right; right; cbn [mbind IO_bind lift print outcome printed app];
  do 2 eexists; split; [reflexivity|]; left; exact (lem _ _ _ E).

Local Ltac block_raises' E lem :=
  right; right; cbn [mbind IO_bind lift print outcome printed app];
  do 2 eexists; split; [reflexivity|]; left; exact (lem _ _ E).

(** A block is nothing at all, or a full block that opens with the scene
    line, or a partial block cut short by an exception of the data; a
    [KeyError] needs a record without [file]. *)
Lemma report_block_cases (r : gmap string json) :
  (report_block r = mkIO [] (Ok ()) ∧ has_analysis r = false) ∨
  (∃ rest, report_block r = mkIO (scene_line r :: rest) (Ok ()) ∧
           has_analysis r = true ∧ scene_lines rest = [] ∧ error_lines rest = []) ∨
  (∃ out e, report_block r = mkIO out (Raise e) ∧
            (data_error e ∨ (e = KeyError ∧ r !! "file" = None))).
Proof.
  destruct (analyze_performance r) as [[a|]|e] eqn:Ha.
  2:{ left. split; [|by apply has_analysis_None]. unfold report_block. by rewrite Ha. }
  2:{ right; right. exists [], e. split; [unfold report_block; by rewrite Ha|].
      left. by eapply analyze_performance_Raise. }
  unfold report_block. rewrite Ha, lift_Ok_bind.
  unfold assess_performance, dict_item.
  destruct (r !! "file") as [file|] eqn:Hfile.
  2:{ right; right. cbn [mbind IO_bind lift print outcome printed app].
      do 2 eexists. split; [reflexivity|]. by right. }
  destruct (fmt_fixed 2 (of_number (avg_frame_time_ms a))) as [s1|e] eqn:F1;
    [|block_raises F1 fmt_fixed_Raise].
  destruct (fmt_fixed 2 (of_number (p95_frame_time_ms a))) as [s2|e] eqn:F2;
    [|block_raises F2 fmt_fixed_Raise].
  destruct (fmt_fixed 2 (of_number (p99_frame_time_ms a))) as [s3|e] eqn:F3;
    [|block_raises F3 fmt_fixed_Raise].
  destruct (fmt_fixed 2 (of_number (min_frame_time_ms a))) as [s4|e] eqn:F4;
    [|block_raises F4 fmt_fixed_Raise].
  destruct (fmt_fixed 2 (of_number (max_frame_time_ms a))) as [s5|e] eqn:F5;
    [|block_raises F5 fmt_fixed_Raise].
  destruct (fmt_fixed 1 (of_number (avg_fps a))) as [s6|e] eqn:F6;
    [|block_raises F6 fmt_fixed_Raise].
  destruct (fmt_fixed 1 (of_number (min_fps a))) as [s7|e] eqn:F7;
    [|block_raises F7 fmt_fixed_Raise].
  destruct (fmt_fixed 2 (gpu_culling_time_ms a)) as [p1|e] eqn:E1;
    [|block_raises E1 fmt_fixed_Raise].
  destruct (fmt_fixed 2 (batch_processing_time_ms a)) as [p2|e] eqn:E2;
    [|block_raises E2 fmt_fixed_Raise].
  destruct (fmt_fixed 2 (lod_update_time_ms a)) as [p3|e] eqn:E3;
    [|block_raises E3 fmt_fixed_Raise].
  destruct (fmt_fixed 2 (streaming_time_ms a)) as [p4|e] eqn:E4;
    [|block_raises E4 fmt_fixed_Raise].
  destruct (fmt_grouped (visible_instances a)) as [p5|e] eqn:E5;
    [|block_raises' E5 fmt_grouped_Raise].
  destruct (fmt_grouped (culled_instances a)) as [p6|e] eqn:E6;
    [|block_raises' E6 fmt_grouped_Raise].
  destruct (fmt_grouped (batch_count a)) as [p7|e] eqn:E7;
    [|block_raises' E7 fmt_grouped_Raise].
  destruct (fmt_fixed 1 (memory_usage_mb a)) as [p8|e] eqn:E8;
    [|block_raises E8 fmt_fixed_Raise].
  destruct (assessments a targets) as [os|e] eqn:E9;
    [|block_raises E9 assessments_Raise].
  right; left.
  rewrite (lift_Ok_bind os). cbv beta. rewrite for_each_print.
  cbn [mbind IO_bind lift print outcome printed app].
  eexists. split; [reflexivity|]. split; [by eapply has_analysis_Some|].
  unfold scene_lines, error_lines.
  rewrite !filter_cons_False by (by vm_compute).
  rewrite !filter_app, !filter_assessment_lines by done. by vm_compute.
Qed.

(** ** Every outcome of the report and of the summary *)

Lemma IO_bind_Raise {A B} (m : IO A) (f : A → IO B) (o : list line) (e : exn) :
  m = mkIO o (Raise e) → m ≫= f = mkIO o (Raise e).
Proof. by intros ->. Qed.

Lemma scene_line_no_error (r : gmap string json) :
  starts_with "Error loading " (scene_line r) = false.
Proof. reflexivity. Qed.

Lemma for_each_report_cases (rs : list (gmap string json)) :
  (∃ out, for_each rs report_block = mkIO out (Ok ()) ∧
          scene_lines out = scene_line <$> filter (λ r, has_analysis r = true) rs ∧
          error_lines out = []) ∨
  (∃ out e, for_each rs report_block = mkIO out (Raise e) ∧
            (data_error e ∨ (e = KeyError ∧ ∃ r, r ∈ rs ∧ r !! "file" = None))).
Proof.
  induction rs as [|r rs IH]; cbn [for_each].
  - left. by exists [].
  - rewrite filter_cons.
    destruct (report_block_cases r)
      as [[Hb Hno]|[(rest & Hb & Hyes & Hs & He)|(out & e & Hb & Herr)]].
    + rewrite (IO_bind_run _ _ _ _ Hb), Hno. rewrite decide_False by done.
      destruct IH as [(out & Hout & Hs & He)|(out & e & Hout & Herr)]; rewrite Hout.
      * left. by exists out.
      * right. exists out, e. split; [done|].
        destruct Herr as [?|[-> (r' & Hr' & Hf)]]; [by left|].
        right. split; [done|]. exists r'. split; [by right | done].
    + rewrite (IO_bind_run _ _ _ _ Hb), Hyes. rewrite decide_True by done.
      destruct IH as [(out & Hout & Hs' & He')|(out & e & Hout & Herr)]; rewrite Hout.
      * left. eexists. split; [reflexivity|]. cbn [printed fmap list_fmap].
        unfold scene_lines, error_lines in *. cbn [app].
        rewrite filter_cons_True by reflexivity.
        rewrite filter_cons_False by (by rewrite scene_line_no_error).
        by rewrite !filter_app, Hs, Hs', He, He'.
      * right. do 2 eexists. split; [reflexivity|].
        destruct Herr as [?|[-> (r' & Hr' & Hf)]]; [by left|].
        right. split; [done|]. exists r'. split; [by right | done].
    + rewrite (IO_bind_Raise _ _ _ _ Hb). right. exists out, e. split; [done|].
      destruct Herr as [?|[-> Hf]]; [by left|].
      right. split; [done|]. exists r. split; [by left | done].
Qed.

Lemma generate_report_cases (now : datetime) (self : BenchmarkAnalyzer) :
  (∃ out, generate_report now self = mkIO out (Ok ()) ∧
          scene_lines out
            = scene_line <$> filter (λ r, has_analysis r = true) (results self) ∧
          error_lines out = []) ∨
  (∃ out e, generate_report now self = mkIO out (Raise e) ∧
            (data_error e ∨
             (e = KeyError ∧ ∃ r, r ∈ results self ∧ r !! "file" = None))).
Proof.
  unfold generate_report. case_bool_decide as Hrs.
  - left. rewrite Hrs. eexists. split; [reflexivity|]. split; reflexivity.
  - destruct (for_each_report_cases (results self))
      as [(out & Hout & Hs & He)|(out & e & Hout & Herr)]; rewrite Hout.
    + left. cbn [mbind IO_bind print outcome printed app].
      eexists. split; [reflexivity|].
      unfold scene_lines, error_lines in *.
      rewrite !filter_cons_False by (by vm_compute). by rewrite Hs, He.
    + right. cbn [mbind IO_bind print outcome printed app]. by do 2 eexists.
Qed.

Lemma summary_entries_scenes (rs : list (gmap string json)) (entries : list json) :
  summary_entries rs = Ok entries →
  entry_scene <$> entries
  = (λ r, dict_get r "scene" (JStr "unknown"))
      <$> filter (λ r, has_analysis r = true) rs.
Proof.
  revert entries. induction rs as [|r rs IH]; intros entries; cbn [summary_entries].
  - by intros [= <-].
  - rewrite filter_cons.
    destruct (analyze_performance r) as [[a|]|e] eqn:Ea; cbn [mbind res_bind]; [| |done].
    + destruct (dict_item r "file") as [file|e]; cbn [mbind res_bind]; [|done].
      destruct (summary_entries rs) as [entries'|e]; cbn [mbind res_bind]; [|done].
      intros [= <-]. rewrite decide_True by (by eapply has_analysis_Some).
      cbn [fmap list_fmap]. f_equal. by apply IH.
    + rewrite decide_False by (by rewrite (has_analysis_None _ Ea)). apply IH.
Qed.

Lemma summary_entries_Raise (rs : list (gmap string json)) (e : exn) :
  summary_entries rs = Raise e →
  data_error e ∨ (e = KeyError ∧ ∃ r, r ∈ rs ∧ r !! "file" = None).
Proof.
  induction rs as [|r rs IH]; cbn [summary_entries]; [done|].
  assert (∀ e, (data_error e ∨ (e = KeyError ∧ ∃ r, r ∈ rs ∧ r !! "file" = None)) →
               data_error e ∨ (e = KeyError ∧ ∃ r', r' ∈ r :: rs ∧ r' !! "file" = None))
    as Hweaken.
  { intros e' [?|[-> (r' & Hr' & Hf)]]; [by left|].
    right. split; [done|]. exists r'. split; [by right | done]. }
  destruct (analyze_performance r) as [[a|]|e'] eqn:Ea; cbn [mbind res_bind].
  - unfold dict_item. destruct (r !! "file") as [file|] eqn:Hfile; cbn [mbind res_bind].
    + destruct (summary_entries rs) as [entries'|e'']; cbn [mbind res_bind]; [done|].
      intros [= <-]. by apply Hweaken, IH.
    + intros [= <-]. right. split; [done|]. exists r. split; [by left | done].
  - intros H. by apply Hweaken, IH.
  - intros [= <-]. left. by eapply analyze_performance_Raise.
Qed.

(** X11. In a completed run the report and the summary tell the same story:
    the scene lines printed are, in order, the scenes of the entries of
    [benchmarks] in the summary that was written. *)
Theorem report_blocks_match_summary_entries
    (prog dir : string) (w w' : gmap string directory) (d : directory)
    (t_report t_save : datetime) :
  w !! dir = Some d →
  outcome (main [prog; dir] w t_report t_save) = Ok w' →
  ∃ d' summary entries,
    w' !! dir = Some d' ∧
    dir_lookup summary_name d' = Some (Loads (JObj summary)) ∧
    summary !! "benchmarks" = Some (JArr entries) ∧
    scene_lines (printed (main [prog; dir] w t_report t_save))
    = (λ entry, [Lit "=== Scene: "; Str (entry_scene entry); Lit " ==="]) <$> entries.
Proof.
  intros Hd Hrun.
  destruct (main_Ok_inv _ _ _ _ _ _ _ Hd Hrun) as (summary & Hrep & Hsum & Hw & ->).
  destruct (build_summary_Ok _ _ _ Hsum) as (entries & Hentries & _ & _ & _ & Hbench).
  cbn [results] in Hentries.
  exists (write_json summary_name (JObj summary) d), summary, entries.
  split; [apply lookup_insert_eq|]. split; [apply dir_lookup_write_json|].
  split; [done|].
  rewrite (main_after_load _ _ _ _ _ _ Hd). cbn [printed].
  rewrite (save_summary_run _ _ _ _ Hsum Hw).
  destruct (generate_report_cases t_report
              (mkBenchmarkAnalyzer dir (loaded (glob w d (pattern_of dir)))))
    as [(out & Hout & Hs & _)|(out & e & Hout & _)];
    rewrite Hout in Hrep |- *; [|done].
  cbn [mbind IO_bind outcome printed mret IO_ret results] in *.
  rewrite !scene_lines_app, scene_lines_load_errors, Hs.
  change (scene_lines [[Lit "Summary saved to: "; _]]) with (@nil line).
  change (scene_lines []) with (@nil line).
  rewrite app_nil_l, !app_nil_r.
  transitivity ((λ scene, [Lit "=== Scene: "; Str scene; Lit " ==="])
                  <$> (entry_scene <$> entries)).
  - by rewrite (summary_entries_scenes _ _ Hentries), <-list_fmap_compose.
  - by rewrite <-list_fmap_compose.
Qed.

(** ** How a run can end *)

Lemma Forall_no_missing_file (rs : list (gmap string json)) :
  Forall (λ r, is_Some (r !! "file")) rs →
  ¬ ∃ r, r ∈ rs ∧ r !! "file" = None.
Proof.
  intros Hall (r & Hr & Hnone). rewrite Forall_forall in Hall.
  destruct (Hall r Hr) as [f Hf]. congruence.
Qed.

(** X12. [main] exits with status 1, after one line of explanation, when it
    is not given exactly one argument or when the directory does not exist.
    On an existing directory it never exits that way: a run that does not
    complete stopped on ill-typed data ([AttributeError], [TypeError] or
    [ValueError]), on a number beyond the range of the floats
    ([OverflowError]) or on a directory it could not write to; in particular
    no run ends in [KeyError], [IndexError] or [ZeroDivisionError]. *)
Theorem main_exit_status (argv : list string) (w : gmap string directory)
    (t_report t_save : datetime) :
  (length argv ≠ 2 →
   main argv w t_report t_save =
     mkIO [[Lit "Usage: python3 generate_benchmark_report.py <results_directory>"]]
          (Raise (SystemExit 1))) ∧
  (∀ prog dir, argv = [prog; dir] → w !! dir = None →
   main argv w t_report t_save =
     mkIO [[Lit "Results directory does not exist: "; Lit dir]]
          (Raise (SystemExit 1))) ∧
  (∀ prog dir d e, argv = [prog; dir] → w !! dir = Some d →
   outcome (main argv w t_report t_save) = Raise e →
   data_error e ∨ (writable d = false ∧ e = OSError "Permission denied")).
Proof.
  split_and!.
  - intros Hlen. destruct argv as [|a [|b [|c argv]]]; try done.
  - intros prog dir -> Hd. unfold main. by rewrite Hd.
  - intros prog dir d e -> Hd Hrun.
    rewrite (main_after_load _ _ _ _ _ _ Hd) in Hrun. cbn [outcome] in Hrun.
    pose proof (Forall_no_missing_file _
                  (loaded_has_file (glob w d (pattern_of dir)))) as Hfiles.
    destruct (generate_report_cases t_report
                (mkBenchmarkAnalyzer dir (loaded (glob w d (pattern_of dir)))))
      as [(out & Hout & _)|(out & e' & Hout & Herr)]; rewrite Hout in Hrun.
    + cbn [mbind IO_bind outcome printed] in Hrun.
      unfold save_summary, build_summary in Hrun. cbn [results results_dir] in Hrun.
      destruct (summary_entries (loaded (glob w d (pattern_of dir))))
        as [entries|e'] eqn:Hentries; cbn [mbind res_bind lift IO_bind outcome printed] in Hrun.
      * destruct (writable d); cbn in Hrun; [done|]. injection Hrun as <-. by right.
      * injection Hrun as <-.
        destruct (summary_entries_Raise _ _ Hentries) as [?|[_ Hmiss]]; [by left|].
        by destruct Hfiles.
    + cbn [mbind IO_bind outcome printed] in Hrun. injection Hrun as <-.
      destruct Herr as [?|[_ Hmiss]]; [by left|]. by destruct Hfiles.
Qed.

End block_outcomes.

(** ** Running again *)

Section running_again.

Context {py : Interpreter} {laws : InterpreterLaws py}.

Lemma build_summary_no_metrics (now : datetime) (self : BenchmarkAnalyzer)
    (summary : gmap string json) :
  build_summary now self = Ok summary → summary !! "metrics" = None.
Proof.
  unfold build_summary.
  destruct (summary_entries (results self)) as [entries|e]; [|done].
  cbn. by intros [= <-].
Qed.

Lemma no_metrics_no_analysis (s : gmap string json) (f : json) :
  s !! "metrics" = None → analyze_performance (<["file" := f]> s) = Ok None.
Proof.
  intros Hs. unfold analyze_performance, dict_get.
  rewrite lookup_insert_ne by done. rewrite Hs. cbn [default py_get mbind res_bind].
  unfold dict_get. by rewrite lookup_empty.
Qed.

Lemma assoc_Some_elem (name : string) (c : content) (es : list (string * content)) :
  assoc name es = Some c → name ∈ es.*1.
Proof.
  induction es as [|[n c'] es IH]; [done|]. cbn.
  case_bool_decide as Hn; [subst; intros _; by left | intros H; right; by apply IH].
Qed.

Lemma write_json_own_summary (summary : gmap string json) (d : directory) :
  summary !! "metrics" = None →
  own_summary (write_json summary_name (JObj summary) d).
Proof.
  intros Hs. split.
  - eapply assoc_Some_elem. apply (dir_lookup_write_json summary_name).
  - intros c. unfold write_json. case_bool_decide as Hin; cbn [listing].
    + intros ([n c'] & Heq & _)%list_elem_of_fmap. cbn in Heq.
      case_bool_decide as Hn; [|by injection Heq as <- <-].
      injection Heq as ->. by exists summary.
    + intros [Hc|Hc]%elem_of_app.
      * destruct Hin. apply list_elem_of_fmap. by exists (summary_name, c).
      * apply list_elem_of_singleton in Hc. injection Hc as ->. by exists summary.
Qed.

Lemma listing_write_json_present (name : string) (v : json) (d : directory) :
  name ∈ (listing d).*1 →
  listing (write_json name v d)
  = (λ e, if bool_decide (e.1 = name) then (name, Loads v) else e) <$> listing d.
Proof. intros Hin. unfold write_json. by rewrite bool_decide_eq_true_2. Qed.

Lemma loaded_cons (file : string) (c : content) (files : list (string * content)) :
  loaded ((file, c) :: files)
  = match load_file file c with
    | Ok data => data :: loaded files
    | Raise _ => loaded files
    end.
Proof. unfold loaded. cbn [omap list_omap fst snd]. by destruct (load_file file c). Qed.

(** Replacing one summary by another does not change what is loaded, up to
    records without analysis. *)
Lemma loaded_replace_summary (dir : string) (s' : gmap string json)
    (es : list (string * content)) :
  (∀ c, (summary_name, c) ∈ es → ∃ s, c = Loads (JObj s) ∧ s !! "metrics" = None) →
  s' !! "metrics" = None →
  Forall2 same_report
    (loaded ((λ e, (path_join dir e.1, e.2))
               <$> filter (λ e, fnmatch "benchmark_*.json" e.1 = true) es))
    (loaded ((λ e, (path_join dir e.1, e.2))
               <$> filter (λ e, fnmatch "benchmark_*.json" e.1 = true)
                     ((λ e, if bool_decide (e.1 = summary_name)
                            then (summary_name, Loads (JObj s')) else e) <$> es))).
Proof.
  intros Hown Hs'. induction es as [|[n c] es IH]; [constructor|].
  assert (Forall2 same_report
            (loaded ((λ e, (path_join dir e.1, e.2))
               <$> filter (λ e, fnmatch "benchmark_*.json" e.1 = true) es))
            (loaded ((λ e, (path_join dir e.1, e.2))
               <$> filter (λ e, fnmatch "benchmark_*.json" e.1 = true)
                     ((λ e, if bool_decide (e.1 = summary_name)
                            then (summary_name, Loads (JObj s')) else e) <$> es))))
    as IH'.
  { apply IH. intros c' Hc'. apply Hown. by right. }
  clear IH. cbn [fmap list_fmap fst]. case_bool_decide as Hn.
  - subst n. destruct (Hown c) as (s & -> & Hs); [by left|].
    rewrite !filter_cons_True by exact summary_name_matches.
    cbn [fmap list_fmap fst snd]. rewrite !loaded_cons.
    unfold load_file. cbn [mbind res_bind py_setitem].
    constructor; [|exact IH']. right. split; by apply no_metrics_no_analysis.
  - rewrite !filter_cons. cbn [fst]. case_decide; [|exact IH'].
    cbn [fmap list_fmap fst snd]. rewrite !loaded_cons.
    destruct (load_file (path_join dir n) c); [|exact IH'].
    constructor; [by left | exact IH'].
Qed.

(** The same for the files of a pattern with a directory pattern. *)
Lemma loaded_rewritten (d : directory) (s' : gmap string json)
    (es es' : list (string * content)) :
  Forall2 (λ e e', e'.1 = e.1 ∧
                   (e'.2 = e.2 ∨
                    (basename e.1 = summary_name ∧ (summary_name, e.2) ∈ listing d ∧
                     e'.2 = Loads (JObj s'))))
          es es' →
  (∀ c, (summary_name, c) ∈ listing d →
        ∃ s, c = Loads (JObj s) ∧ s !! "metrics" = None) →
  s' !! "metrics" = None →
  Forall2 same_report (loaded es) (loaded es').
Proof.
  intros Hes Hown Hs'.
  induction Hes as [|[p c] [p' c'] es es' [Hp Hc] _ IH]; [constructor|].
  cbn [fst snd] in Hp, Hc. subst p'. rewrite !loaded_cons.
  destruct Hc as [->|(_ & Hold & ->)].
  - destruct (load_file p c); [|exact IH]. constructor; [by left | exact IH].
  - destruct (Hown c Hold) as (s & -> & Hs).
    unfold load_file. cbn [mbind res_bind py_setitem].
    constructor; [|exact IH]. right. split; by apply no_metrics_no_analysis.
Qed.

Lemma same_report_block (r r' : gmap string json) :
  same_report r r' → report_block r = report_block r'.
Proof.
  intros [->|[H H']]; [done|]. unfold report_block. by rewrite H, H'.
Qed.

Lemma same_report_for_each (rs rs' : list (gmap string json)) :
  Forall2 same_report rs rs' →
  for_each rs report_block = for_each rs' report_block.
Proof.
  induction 1 as [|r r' rs rs' Hr _ IH]; [done|]. cbn [for_each].
  by rewrite (same_report_block _ _ Hr), IH.
Qed.

Lemma same_report_entries (rs rs' : list (gmap string json)) :
  Forall2 same_report rs rs' → summary_entries rs = summary_entries rs'.
Proof.
  induction 1 as [|r r' rs rs' Hr _ IH]; [done|]. cbn [summary_entries].
  destruct Hr as [->|[H H']]; [by rewrite IH|]. by rewrite H, H', IH.
Qed.

Lemma generate_report_outcome (now now' : datetime) (dir : string)
    (rs rs' : list (gmap string json)) :
  Forall2 same_report rs rs' →
  outcome (generate_report now (mkBenchmarkAnalyzer dir rs))
  = outcome (generate_report now' (mkBenchmarkAnalyzer dir rs')).
Proof.
  intros Hrs. unfold generate_report. cbn [results results_dir].
  pose proof (same_report_for_each _ _ Hrs) as Heach.
  destruct Hrs as [|r r' rs rs' Hr Hrs]; [done|].
  rewrite !bool_decide_eq_false_2 by done. rewrite Heach.
  by cbn [mbind IO_bind print outcome printed].
Qed.

Lemma summary_in_written (dir : string) (w : gmap string directory)
    (summary : gmap string json) (d : directory) :
  summary_in dir (<[dir := write_json summary_name (JObj summary) d]> w) = Some summary.
Proof.
  unfold summary_in. by rewrite lookup_insert_eq, dir_lookup_write_json.
Qed.

(** Writing a summary over one of the tool changes what [glob] finds in
    that summary only. *)
Lemma glob_rewritten (dir : string) (w : gmap string directory) (d : directory)
    (s' : gmap string json) :
  w !! dir = Some d → own_summary d → s' !! "metrics" = None →
  let d' := write_json summary_name (JObj s') d in
  Forall2 same_report (loaded (glob w d (pattern_of dir)))
                      (loaded (glob (<[dir := d']> w) d' (pattern_of dir))).
Proof.
  intros Hd [Hin Hown] Hs' d'. unfold glob.
  destruct (has_magic (dirname (pattern_of dir))).
  - eapply loaded_rewritten; [|exact Hown | exact Hs'].
    by apply glob_magic_rewrite.
  - change (basename (pattern_of dir))
      with (basename (path_join dir "benchmark_*.json")).
    rewrite (basename_join dir "benchmark_*.json")
      by (unfold entry_name; apply (bool_decide_unpack _); by vm_compute).
    unfold d'. rewrite (listing_write_json_present _ _ _ Hin).
    by apply loaded_replace_summary.
Qed.

(** On a directory that holds a summary of the tool, a second run completes
    whenever a first one did, with the same summary, timestamp apart. *)
Lemma rerun_same_summary (prog dir : string) (w w1 : gmap string directory)
    (d : directory) (t1 t2 t3 t4 : datetime) :
  w !! dir = Some d → own_summary d →
  outcome (main [prog; dir] w t1 t2) = Ok w1 →
  ∃ w2 s1 s2,
    outcome (main [prog; dir] w1 t3 t4) = Ok w2 ∧
    summary_in dir w1 = Some s1 ∧ summary_in dir w2 = Some s2 ∧
    delete "timestamp" s1 = delete "timestamp" s2.
Proof.
  intros Hd Hsummary Hrun.
  destruct (main_Ok_inv _ _ _ _ _ _ _ Hd Hrun) as (s1 & Hrep & Hsum & Hw & ->).
  pose proof (build_summary_no_metrics _ _ _ Hsum) as Hs1.
  pose proof (glob_rewritten dir w d s1 Hd Hsummary Hs1) as Hsame. cbn zeta in Hsame.
  set (d1 := write_json summary_name (JObj s1) d) in *.
  set (w1 := <[dir := d1]> w) in *.
  assert (w1 !! dir = Some d1) as Hd1 by apply lookup_insert_eq.
  unfold build_summary in Hsum. cbn [results results_dir] in Hsum.
  destruct (summary_entries (loaded (glob w d (pattern_of dir))))
    as [entries|] eqn:Hentries; [|done].
  cbn [mbind res_bind] in Hsum. injection Hsum as <-.
  rewrite (same_report_entries _ _ Hsame) in Hentries.
  rewrite (generate_report_outcome t1 t3 dir _ _ Hsame) in Hrep.
  destruct (generate_report t3
              (mkBenchmarkAnalyzer dir (loaded (glob w1 d1 (pattern_of dir)))))
    as [out [[]|e]] eqn:Hreport; [|done].
  eexists _, _, _. split_and!.
  - rewrite (main_after_load _ _ _ _ _ _ Hd1). cbn [outcome].
    rewrite Hreport.
    rewrite (save_summary_run t4 _ d1
               (list_to_map [("timestamp", JStr (isoformat t4));
                             ("results_dir", JStr dir);
                             ("benchmark_count",
                              jnat (length (loaded (glob w1 d1 (pattern_of dir)))));
                             ("benchmarks", JArr entries)])).
    + reflexivity.
    + unfold build_summary. cbn [results results_dir]. by rewrite Hentries.
    + unfold d1. by rewrite writable_write_json.
  - apply summary_in_written.
  - cbn [mbind IO_bind outcome printed mret IO_ret]. apply summary_in_written.
  - cbn [list_to_map foldr]. rewrite !delete_insert_eq.
    by rewrite (Forall2_length _ _ _ Hsame).
Qed.

(** X13. From the second run on the summary is stable: when two runs in a
    row have completed, a third run on what they left completes too, and
    the summaries of the second and of the third run are equal apart from
    their timestamps. *)
Theorem summary_stable_from_second_run
    (prog dir : string) (w w1 w2 : gmap string directory) (d : directory)
    (t1 t2 t3 t4 t5 t6 : datetime) :
  w !! dir = Some d →
  outcome (main [prog; dir] w t1 t2) = Ok w1 →
  outcome (main [prog; dir] w1 t3 t4) = Ok w2 →
  ∃ w3 s2 s3,
    outcome (main [prog; dir] w2 t5 t6) = Ok w3 ∧
    summary_in dir w2 = Some s2 ∧ summary_in dir w3 = Some s3 ∧
    delete "timestamp" s2 = delete "timestamp" s3.
Proof.
  intros Hd Hrun1 Hrun2.
  destruct (main_Ok_inv _ _ _ _ _ _ _ Hd Hrun1) as (s1 & _ & Hsum & _ & ->).
  pose proof (build_summary_no_metrics _ _ _ Hsum) as Hs1.
  eapply rerun_same_summary; [apply lookup_insert_eq | | exact Hrun2].
  by apply write_json_own_summary.
Qed.

(** X15. A scalar metric that is text is tolerated by the analysis and by
    the summary, which copy it through, but not by the report: for a record
    that has an analysis, whose samples are within the range of the floats
    and whose [gpu_culling_time_ms] is a string, the analysis holds the
    string, the summary gets its entry, and the block of the report stops on
    [ValueError] right after the line "System Performance:". *)
Theorem text_metric_stops_the_report
    (result m : gmap string json) (ts : list number) (a : Analysis)
    (s : string) (file : json) :
  analyze_performance result = Ok (Some a) →
  frame_times_of result m ts → Forall converts ts →
  m !! "gpu_culling_time_ms" = Some (JStr s) →
  result !! "file" = Some file →
  gpu_culling_time_ms a = JStr s ∧
  (∃ entry, summary_entries [result] = Ok [entry]) ∧
  (∃ out, report_block result = mkIO out (Raise ValueError) ∧
          head out = Some (scene_line result) ∧
          last out = Some [Lit "System Performance:"]).
Proof.
  intros Ha Hft Hconv Hgpu Hfile.
  destruct (analyze_performance_Some_inv result a Ha) as (m' & ts' & Hft' & Hne & Hspec).
  destruct (frame_times_of_fun _ _ _ _ _ Hft Hft') as [<- <-].
  pose proof (analysis_stats_convert m ts a Hspec Hconv) as Hstats.
  rewrite !Forall_cons in Hstats.
  destruct Hstats as (C1 & C2 & C3 & C4 & C5 & C6 & C7 & _).
  destruct Hspec as (_ & _ & _ & _ & _ & _ & _ & _ & H1 & _).
  rewrite (dict_get_Some _ _ _ _ Hgpu) in H1.
  split_and!.
  - done.
  - cbn [summary_entries]. unfold dict_item. rewrite Ha, Hfile.
    cbn [mbind res_bind]. by eexists.
  - unfold report_block. rewrite Ha, lift_Ok_bind.
    unfold dict_item. rewrite Hfile, H1.
    rewrite (fmt_fixed_of_number 2 _ C1), (fmt_fixed_of_number 2 _ C2),
      (fmt_fixed_of_number 2 _ C3), (fmt_fixed_of_number 2 _ C4),
      (fmt_fixed_of_number 2 _ C5), (fmt_fixed_of_number 1 _ C6),
      (fmt_fixed_of_number 1 _ C7).
    change (fmt_fixed 2 (JStr s)) with (@Raise piece ValueError).
    cbn [mbind IO_bind lift print outcome printed app].
    eexists. split; [reflexivity|]. split; reflexivity.
Qed.

End running_again.

(** ** The reference interpreter *)

Section reference_interpreter.

Lemma py_add_Raise (x y : number) (e : exn) : py_add x y = Raise e → e = OverflowError.
Proof.
  unfold py_add.
  destruct (int_value x), (int_value y); try done;
    (destruct (to_float x) as [fx|e1] eqn:E1; cbn [mbind res_bind];
     [ destruct (to_float y) as [fy|e2] eqn:E2; cbn [mbind res_bind]; [done|];
       intros [= <-]; by apply (to_float_Raise y)
     | intros [= <-]; by apply (to_float_Raise x) ]).
Qed.

Lemma plain_sum_Raise_from (ts : list number) (acc : res number) (e : exn) :
  (∀ e', acc = Raise e' → e' = OverflowError) →
  foldl (λ acc x, a ← acc; py_add a x) acc ts = Raise e → e = OverflowError.
Proof.
  revert acc. induction ts as [|x ts IH]; intros acc Hacc; cbn [foldl].
  - apply Hacc.
  - apply IH. intros e'. destruct acc as [a|e0]; cbn [mbind res_bind].
    + apply py_add_Raise.
    + intros [= <-]. by apply Hacc.
Qed.

Lemma plain_sum_floats_from (ts : list number) (a : spec_float) :
  all_floats ts →
  ∃ f, foldl (λ acc x, a ← acc; py_add a x) (Ok (NFloat a)) ts = Ok (NFloat f).
Proof.
  revert a. induction ts as [|x ts IH]; intros a Hts; cbn [foldl].
  - by exists a.
  - apply Forall_cons in Hts as [[fx ->] Hts].
    exact (IH (float_add a fx) Hts).
Qed.

#[global] Instance reference_laws : InterpreterLaws reference.
Proof.
  split.
  - intros ts e. apply plain_sum_Raise_from. intros e'. discriminate.
  - intros ts Hne Hts. destruct ts as [|x ts]; [done|].
    apply Forall_cons in Hts as [[fx ->] Hts].
    exact (plain_sum_floats_from ts (float_add (float_of_int 0) fx) Hts).
  - apply stable_sort_Permutation.
  - intros. constructor.
Qed.

End reference_interpreter.

(** ** The properties at work *)

Section examples.

#[local] Existing Instance reference.


Lemma percentiles_by_truncated_rank_witness :
  ∃ m ts, frame_times_of sample_record m ts ∧ ts ≠ [] ∧
    sorted ts ≡ₚ ts ∧
    sorted ts !! percentile_index 95 (length ts) = Some (p95_frame_time_ms sample_analysis) ∧
    sorted ts !! percentile_index 99 (length ts) = Some (p99_frame_time_ms sample_analysis) ∧
    (all_ordered ts →
     ascending (sorted ts) ∧
     ∀ s, ascending s → s ≡ₚ ts →
       ∃ x95 x99,
         s !! percentile_index 95 (length ts) = Some x95 ∧
         s !! percentile_index 99 (length ts) = Some x99 ∧
         same_value x95 (p95_frame_time_ms sample_analysis) ∧
         same_value x99 (p99_frame_time_ms sample_analysis)).
Proof.
  apply (proj1 percentiles_by_truncated_rank sample_record sample_analysis).
  vm_compute. reflexivity.
Defined.

Lemma fps_guarded_against_zero_witness :
  ∃ m ts total avg,
    frame_times_of sample_record m ts ∧ ts ≠ [] ∧
    sum_numbers ts = Ok total ∧
    truediv total (NInt (len ts)) = Ok (NFloat avg) ∧
    avg_frame_time_ms sample_analysis = NFloat avg ∧
    py_max ts = Ok (max_frame_time_ms sample_analysis) ∧
    (py_lt (NInt 0) (NFloat avg) = true →
       avg_fps sample_analysis = NFloat (float_div (float_of_int 1000) avg)) ∧
    (py_lt (NInt 0) (NFloat avg) = false → avg_fps sample_analysis = NInt 0) ∧
    (py_lt (NInt 0) (max_frame_time_ms sample_analysis) = true →
       ∃ mx, to_float (max_frame_time_ms sample_analysis) = Ok mx ∧
             min_fps sample_analysis = NFloat (float_div (float_of_int 1000) mx)) ∧
    (py_lt (NInt 0) (max_frame_time_ms sample_analysis) = false →
       min_fps sample_analysis = NInt 0).
Proof.
  apply (proj1 fps_guarded_against_zero sample_record sample_analysis).
  vm_compute. reflexivity.
Defined.

(** The rounding of the mean shows: 16, 17 and 17 ms average to the float
    nearest to 50/3, and 1000.0 divided by it falls just short of 60. *)
Lemma thirds_fall_short_of_sixty :
  ∃ a, analyze_performance thirds_record = Ok (Some a) ∧
       avg_frame_time_ms a = NFloat (int_quotient 50 3) ∧
       py_lt (avg_fps a) (NInt 60) = true ∧
       py_le (avg_frame_time_ms a) (NFloat (decimal 1667 100)) = true.
Proof. eexists. split; [by vm_compute|]. by vm_compute. Qed.

Lemma record_without_samples_is_skipped_witness :
  analyze_performance empty_record = Ok None ∧
  report_block empty_record = mkIO [] (Ok ()) ∧
  (∀ rs1 rs2, for_each (rs1 ++ empty_record :: rs2) report_block
              = for_each (rs1 ++ rs2) report_block) ∧
  (∀ rs1 rs2, summary_entries (rs1 ++ empty_record :: rs2)
              = summary_entries (rs1 ++ rs2)).
Proof.
  apply (record_without_samples_is_skipped empty_record
           {[ "frame_times" := JArr [] ]}).
  - reflexivity.
  - right. reflexivity.
Defined.

Lemma frame_time_statistics_ordered_witness :
  (∃ first final,
     head sample_times = Some first ∧
     same_value first (min_frame_time_ms sample_analysis) ∧
     last sample_times = Some final ∧
     same_value final (max_frame_time_ms sample_analysis)) ∧
  py_le (min_frame_time_ms sample_analysis) (p95_frame_time_ms sample_analysis) = true ∧
  py_le (p95_frame_time_ms sample_analysis) (p99_frame_time_ms sample_analysis) = true ∧
  py_le (p99_frame_time_ms sample_analysis) (max_frame_time_ms sample_analysis) = true.
Proof.
  apply (frame_time_statistics_ordered sample_record sample_metrics
           sample_times sample_times sample_analysis).
  - vm_compute. reflexivity.
  - split; reflexivity.
  - repeat constructor.
  - repeat constructor; vm_compute; reflexivity.
  - reflexivity.
Defined.

(** C6, as stated, fails on a sample that is [NaN]: of the frame times
    [1.0] and [NaN] the minimum is 1.0 and the 95th percentile is [NaN],
    which nothing is at most. *)
Lemma nan_sample_breaks_the_order :
  ¬ (∀ (result m : gmap string json) (ts : list number) (a : Analysis),
       frame_times_of result m ts → ts ≠ [] →
       analyze_performance result = Ok (Some a) →
       py_le (min_frame_time_ms a) (p95_frame_time_ms a) = true ∧
       py_le (p95_frame_time_ms a) (p99_frame_time_ms a) = true ∧
       py_le (p99_frame_time_ms a) (max_frame_time_ms a) = true).
Proof.
  intros Hclaim.
  destruct (analyze_performance nan_record) as [[a|]|e] eqn:Ha;
    [|by vm_compute in Ha..].
  destruct (Hclaim nan_record nan_metrics nan_times a) as [Hle _];
    [split; reflexivity | done | exact Ha |].
  vm_compute in Ha. injection Ha as <-. by vm_compute in Hle.
Qed.

Lemma six_outcomes_in_fixed_order_witness :
  ∃ o_frame o_fps o_gpu o_batch o_lod o_streaming : string,
    assess_performance edge_analysis targets =
      mkIO [[Lit "  "; Lit o_frame]; [Lit "  "; Lit o_fps];
            [Lit "  "; Lit o_gpu]; [Lit "  "; Lit o_batch];
            [Lit "  "; Lit o_lod]; [Lit "  "; Lit o_streaming]] (Ok ()) ∧
    tiered o_frame "✓ Frame time: EXCELLENT" "⚠ Frame time: ACCEPTABLE"
           "✗ Frame time: POOR"
           (py_le (avg_frame_time_ms edge_analysis) (NFloat (decimal 1667 100)) = true)
           (py_le (avg_frame_time_ms edge_analysis) (NFloat (decimal 3333 100)) = true) ∧
    tiered o_fps "✓ FPS: EXCELLENT" "⚠ FPS: ACCEPTABLE" "✗ FPS: POOR"
           (py_le (NInt 60) (avg_fps edge_analysis) = true)
           (py_le (NInt 30) (avg_fps edge_analysis) = true) ∧
    budgeted o_gpu "✓ GPU Culling: WITHIN BUDGET" "✗ GPU Culling: OVER BUDGET"
             (py_le (NFloat (decimal 25 100)) (NFloat (decimal 25 100)) = true) ∧
    budgeted o_batch "✓ Batch Processing: WITHIN BUDGET"
             "✗ Batch Processing: OVER BUDGET"
             (py_le (NInt 3) (NFloat (decimal 25 10)) = true) ∧
    budgeted o_lod "✓ LOD Updates: WITHIN BUDGET" "✗ LOD Updates: OVER BUDGET"
             (py_le (NInt 1) (NFloat (float_of_int 1)) = true) ∧
    budgeted o_streaming "✓ Streaming: WITHIN BUDGET" "✗ Streaming: OVER BUDGET"
             (py_le (NInt 2) (NFloat (decimal 15 10)) = true).
Proof.
  apply (six_outcomes_in_fixed_order edge_analysis); reflexivity.
Defined.

Lemma bare_frame_times :
  frame_times_of bare_record bare_metrics
    [NFloat (float_of_int 10); NFloat (float_of_int 50)].
Proof. split; reflexivity. Qed.

Lemma absent_metrics_are_zero_witness :
  ∃ a, analyze_performance bare_record = Ok (Some a) ∧
       gpu_culling_time_ms a = JInt 0 ∧
       batch_processing_time_ms a = JInt 0 ∧
       lod_update_time_ms a = JInt 0 ∧
       streaming_time_ms a = JInt 0 ∧
       visible_instances a = JInt 0 ∧
       culled_instances a = JInt 0 ∧
       batch_count a = JInt 0 ∧
       memory_usage_mb a = JInt 0.
Proof.
  destruct (absent_metrics_are_zero bare_record bare_metrics
              [NFloat (float_of_int 10); NFloat (float_of_int 50)])
    as (Hzero & _ & Hreturns).
  - split; reflexivity.
  - discriminate.
  - destruct Hreturns as [a Ha].
    + repeat constructor; by eexists.
    + eexists. vm_compute. reflexivity.
    + destruct (Hzero a Ha) as (H1 & H2 & H3 & H4 & H5 & H6 & H7 & H8).
      exists a. split; [exact Ha|].
      repeat split; [apply H1 | apply H2 | apply H3 | apply H4
                    | apply H5 | apply H6 | apply H7 | apply H8]; reflexivity.
Defined.

(** C9, as stated, fails on a sample beyond the range of the floats: the
    record lacks every subsystem key and its one frame time is 10^400, and
    the analysis raises [OverflowError] in the division of the sum. *)
Lemma huge_sample_stops_the_analysis :
  ¬ (∀ (result m : gmap string json) (ts : list number),
       frame_times_of result m ts → ts ≠ [] →
       Forall (λ k, m !! k = None) scalar_keys →
       ∃ a, analyze_performance result = Ok (Some a) ∧
            Forall (λ v, v = JInt 0)
                   [gpu_culling_time_ms a; batch_processing_time_ms a;
                    lod_update_time_ms a; streaming_time_ms a; visible_instances a;
                    culled_instances a; batch_count a; memory_usage_mb a]).
Proof.
  intros Hclaim.
  destruct (Hclaim huge_record huge_metrics [NInt (10 ^ 400)]) as (a & Ha & _).
  - split; reflexivity.
  - discriminate.
  - repeat constructor.
  - by vm_compute in Ha.
Qed.

Lemma benchmark_count_counts_every_record_witness :
  ∃ d' summary entries,
    world_after fresh_world first_run !! "results" = Some d' ∧
    dir_lookup summary_name d' = Some (Loads (JObj summary)) ∧
    summary !! "benchmark_count"
      = Some (jnat (length (loaded (glob fresh_world city_dir (pattern_of "results"))))) ∧
    summary !! "benchmarks" = Some (JArr entries) ∧
    length entries
      = length (filter (λ r, has_analysis r = true)
                       (loaded (glob fresh_world city_dir (pattern_of "results")))) ∧
    (length entries
       ≤ length (loaded (glob fresh_world city_dir (pattern_of "results"))))%nat.
Proof.
  apply (proj1 benchmark_count_counts_every_record "report" "results"
           fresh_world (world_after fresh_world first_run) city_dir noon noon).
  - reflexivity.
  - vm_compute. reflexivity.
Defined.

(** C3, as stated, fails on an empty directory: the run writes a summary. *)
Lemma summary_written_despite_empty_collection :
  ¬ (∀ (prog dir : string) (w w' : gmap string directory) (d : directory)
       (t_report t_save : datetime),
       w !! dir = Some d →
       loaded (glob w d (pattern_of dir)) = [] →
       outcome (main [prog; dir] w t_report t_save) = Ok w' →
       ∃ d', w' !! dir = Some d' ∧
             dir_lookup summary_name d' = dir_lookup summary_name d).
Proof.
  intros Hclaim.
  destruct (Hclaim "report" "results" {[ "results" := empty_dir ]}
              (<["results" := write_json summary_name (JObj (list_to_map [
                   ("timestamp", JStr (isoformat later));
                   ("results_dir", JStr "results");
                   ("benchmark_count", jnat 0);
                   ("benchmarks", JArr [])])) empty_dir]> {[ "results" := empty_dir ]})
              empty_dir noon later)
    as (d' & Hd' & Hsame); [done | done | by vm_compute |].
  rewrite lookup_insert_eq in Hd'. injection Hd' as <-.
  by rewrite dir_lookup_write_json in Hsame.
Qed.

Lemma empty_collection_is_reported_and_saved_witness :
  generate_report noon (mkBenchmarkAnalyzer "results" [])
    = mkIO [[Lit "No benchmark results found"]] (Ok ()) ∧
  ∃ summary,
    main ["report"; "results"] {[ "results" := empty_dir ]} noon later
      = mkIO (load_errors (glob {[ "results" := empty_dir ]} empty_dir
                             (pattern_of "results")) ++
              [[Lit "No benchmark results found"];
               [Lit "Summary saved to: "; Lit (path_join "results" summary_name)]])
             (Ok (<["results" := write_json summary_name (JObj summary) empty_dir]>
                    {[ "results" := empty_dir ]})) ∧
    scene_lines (printed (main ["report"; "results"] {[ "results" := empty_dir ]}
                            noon later)) = [] ∧
    summary !! "benchmark_count" = Some (jnat 0) ∧
    summary !! "benchmarks" = Some (JArr []).
Proof.
  apply (empty_collection_is_reported_and_saved "report" "results"
           {[ "results" := empty_dir ]} empty_dir noon later); reflexivity.
Defined.




(** *** The further properties *)

Lemma basename_path_join_witness :
  basename (path_join "out/results/" "benchmark_city.json") = "benchmark_city.json".
Proof.
  apply (basename_path_join "out/results/" "benchmark_city.json").
  apply (bool_decide_unpack _). vm_compute. reflexivity.
Defined.

(** Of three files, one a list, one an object and one that is gone, loading
    keeps the object and reports the other two. *)
Lemma odd_directory_loads_one_record :
  load_results {[ "results" := odd_dir ]} odd_dir (mkBenchmarkAnalyzer "results" [])
  = mkIO [[Lit "Error loading "; Lit "results/benchmark_list.json"; Lit ": ";
           Exn TypeError];
          [Lit "Error loading "; Lit "results/benchmark_gone.json"; Lit ": ";
           Exn (OSError "No such file or directory")]]
         (Ok (mkBenchmarkAnalyzer "results"
                [<["file" := JStr "benchmark_city.json"]> sample_record])).
Proof. by vm_compute. Qed.

Lemma analyze_performance_outcomes_witness :
  analyze_performance text_record = Raise TypeError.
Proof.
  pose proof (analyze_performance_outcomes text_record) as H. cbn zeta in H.
  destruct H as [_ H].
  destruct (H {[ "frame_times" := JStr "fast" ]} eq_refl) as (_ & Htext & _).
  apply Htext; [reflexivity | discriminate].
Defined.

Lemma small_sample_percentiles_witness :
  ((length sample_times ≤ 100)%nat →
   same_value (p99_frame_time_ms sample_analysis) (max_frame_time_ms sample_analysis)) ∧
  ((length sample_times ≤ 20)%nat →
   same_value (p95_frame_time_ms sample_analysis) (max_frame_time_ms sample_analysis)).
Proof.
  apply (small_sample_percentiles sample_record sample_metrics sample_times
           sample_analysis).
  - vm_compute. reflexivity.
  - split; reflexivity.
  - repeat constructor.
Defined.

Lemma run_writes_only_the_summary_witness :
  (∀ dir', dir' ≠ "results" →
     world_after fresh_world first_run !! dir' = fresh_world !! dir') ∧
  ∃ d', world_after fresh_world first_run !! "results" = Some d' ∧
        writable d' = writable city_dir ∧
        (∀ name, name ≠ summary_name → dir_lookup name d' = dir_lookup name city_dir) ∧
        ∃ summary, dir_lookup summary_name d' = Some (Loads (JObj summary)).
Proof.
  apply (run_writes_only_the_summary "report" "results" fresh_world
           (world_after fresh_world first_run) city_dir noon noon).
  - reflexivity.
  - vm_compute. reflexivity.
Defined.

Lemma report_blocks_match_summary_entries_witness :
  ∃ d' summary entries,
    world_after fresh_world first_run !! "results" = Some d' ∧
    dir_lookup summary_name d' = Some (Loads (JObj summary)) ∧
    summary !! "benchmarks" = Some (JArr entries) ∧
    scene_lines (printed (main ["report"; "results"] fresh_world noon noon))
    = (λ entry, [Lit "=== Scene: "; Str (entry_scene entry); Lit " ==="]) <$> entries.
Proof.
  apply (report_blocks_match_summary_entries "report" "results" fresh_world
           (world_after fresh_world first_run) city_dir noon noon).
  - reflexivity.
  - vm_compute. reflexivity.
Defined.

Lemma main_exit_status_witness :
  main ["report"; "results"; "more"] ∅ noon later =
    mkIO [[Lit "Usage: python3 generate_benchmark_report.py <results_directory>"]]
         (Raise (SystemExit 1)).
Proof.
  apply (proj1 (main_exit_status ["report"; "results"; "more"] ∅ noon later)).
  cbn. lia.
Defined.

Lemma summary_stable_from_second_run_witness :
  ∃ w3 s2 s3,
    outcome (main ["report"; "results"]
               (world_after (world_after fresh_world first_run) second_run)
               noon later) = Ok w3 ∧
    summary_in "results" (world_after (world_after fresh_world first_run) second_run)
      = Some s2 ∧
    summary_in "results" w3 = Some s3 ∧
    delete "timestamp" s2 = delete "timestamp" s3.
Proof.
  apply (summary_stable_from_second_run "report" "results" fresh_world
           (world_after fresh_world first_run)
           (world_after (world_after fresh_world first_run) second_run)
           city_dir noon noon later later noon later).
  - reflexivity.
  - vm_compute. reflexivity.
  - vm_compute. reflexivity.
Defined.

Lemma statistics_are_samples_witness :
  ∃ m ts, frame_times_of sample_record m ts ∧
          min_frame_time_ms sample_analysis ∈ ts ∧
          max_frame_time_ms sample_analysis ∈ ts ∧
          p95_frame_time_ms sample_analysis ∈ ts ∧
          p99_frame_time_ms sample_analysis ∈ ts ∧
          frame_count sample_analysis = length ts.
Proof.
  apply (statistics_are_samples sample_record sample_analysis).
  vm_compute. reflexivity.
Defined.

Lemma text_metric_stops_the_report_witness :
  gpu_culling_time_ms texty_analysis = JStr "n/a" ∧
  (∃ entry, summary_entries [texty_record] = Ok [entry]) ∧
  (∃ out, report_block texty_record = mkIO out (Raise ValueError) ∧
          head out = Some (scene_line texty_record) ∧
          last out = Some [Lit "System Performance:"]).
Proof.
  apply (text_metric_stops_the_report texty_record
           {[ "frame_times" := JArr [JFloat (float_of_int 10); JFloat (float_of_int 50)];
              "gpu_culling_time_ms" := JStr "n/a" ]}
           [NFloat (float_of_int 10); NFloat (float_of_int 50)]
           texty_analysis "n/a" (JStr "benchmark_harbour.json")).
  - vm_compute. reflexivity.
  - split; reflexivity.
  - repeat constructor; by eexists.
  - reflexivity.
  - reflexivity.
Defined.

Lemma float_samples_are_analysed_witness :
  ∃ a avg, analyze_performance bare_record = Ok (Some a) ∧
           avg_frame_time_ms a = NFloat avg ∧ frame_count a = 2 ∧
           (∃ f, min_frame_time_ms a = NFloat f) ∧
           (∃ f, max_frame_time_ms a = NFloat f).
Proof.
  apply (float_samples_are_analysed bare_record bare_metrics
           [NFloat (float_of_int 10); NFloat (float_of_int 50)]).
  - split; reflexivity.
  - discriminate.
  - repeat constructor; by eexists.
  - eexists. vm_compute. reflexivity.
Defined.

End examples.
